(** * Daily challenge app: selector, assigner and statistics

    A shallow embedding of

    - [src/lib/db/challenge-generator.ts] ([getDateBasedIndex],
      [generateDailyChallenge]),
    - [src/lib/db/challenges.ts] (the queries and [createUserChallenge]),
    - [src/lib/db/index.ts] ([transaction]),
    - [src/lib/db/statistics.ts] (the two streaks and the completion rate),

    followed by the properties of the specification that are stated about
    them. *)

From Stdlib Require Import String Ascii.
From Stdlib Require Import ZArith List Bool Lia.
From Stdlib Require Import Floats.SpecFloat.
Import ListNotations.
Local Open Scope Z_scope.

(* ===================================================================== *)
(** * Part I: the program                                                 *)
(* ===================================================================== *)

(** ** JavaScript values used by the code *)

Module Js.

(** A JavaScript string is a sequence of UTF-16 code units; [charCodeAt]
    returns the unit at an index, a number in [0, 65535]. *)
Definition js_string := list Z.

Definition code_unit (c : Z) : Prop := 0 <= c < 65536.

Definition well_formed (s : js_string) : Prop := Forall code_unit s.

(** String literals of the source, unit by unit. *)
Fixpoint str (s : string) : js_string :=
  match s with
  | EmptyString => []
  | String a rest => Z.of_N (N_of_ascii a) :: str rest
  end.

Arguments str s%_string.

Fixpoint js_string_eqb (a b : js_string) : bool :=
  match a, b with
  | [], [] => true
  | x :: a', y :: b' => (x =? y) && js_string_eqb a' b'
  | _, _ => false
  end.

(** An integral number, or NaN ([x % 0]). *)
Inductive js_number :=
| Num (z : Z)
| NaN.

(** What a call can end with: a value, or a thrown exception. *)
Inductive sqlite_code :=
| SQLITE_CONSTRAINT_PRIMARYKEY
| SQLITE_CONSTRAINT_UNIQUE
| SQLITE_CONSTRAINT_FOREIGNKEY.

Inductive js_error :=
| Error (message : js_string)
| TypeError
| SqliteError (code : sqlite_code).

Inductive completion (A : Type) :=
| Normal (v : A)
| Throw (e : js_error).

Arguments Normal {A} v.
Arguments Throw {A} e.

(** ToInt32 of ECMA-262: reduce modulo 2^32 into [-2^31, 2^31). *)
Definition ToInt32 (z : Z) : Z :=
  let m := z mod 2 ^ 32 in
  if m <? 2 ^ 31 then m else m - 2 ^ 32.

(** [x << k] and [x & y] on numbers: both operands and the result go
    through ToInt32; the shift count is taken modulo 32. *)
Definition js_shl (x k : Z) : Z := ToInt32 (Z.shiftl (ToInt32 x) (k mod 32)).

Definition js_and (x y : Z) : Z := ToInt32 (Z.land (ToInt32 x) (ToInt32 y)).

(** [a % b] on integral numbers: NaN for a zero divisor, otherwise the
    remainder with the sign of the dividend. *)
Definition js_rem (a b : Z) : js_number :=
  if b =? 0 then NaN else Num (Z.rem a b).

Definition Math_abs (z : Z) : Z := Z.abs z.

(** [xs[i]]: [undefined] (here [None]) unless [i] is an index of [xs]. *)
Definition array_get {A : Type} (xs : list A) (i : js_number) : option A :=
  match i with
  | Num z => if z <? 0 then None else nth_error xs (Z.to_nat z)
  | NaN => None
  end.

End Js.

Export Js.

(** ** DeterministicSelector: [getDateBasedIndex] *)

Module Selector.

(** One round of the loop body, lines 104-106:
    [hash = ((hash << 5) - hash) + char; hash = hash & hash]. *)
Definition hash_step (hash char : Z) : Z :=
  let hash' := (js_shl hash 5 - hash) + char in
  js_and hash' hash'.

(** The loop of lines 102-107 over the code units of [dateStr]. *)
Definition hash_loop (dateStr : js_string) : Z :=
  fold_left hash_step dateStr 0.

(** Lines 100-111. The body has no [throw]; it always returns. *)
Definition getDateBasedIndex (dateStr : js_string) (max : Z)
  : completion js_number :=
  let hash := hash_loop dateStr in
  Normal (js_rem (Math_abs hash) max).

(** The recurrence as the specification words it:
    [hash = (hash*31 + code) mod 2^32] with signed 32-bit wraparound, then
    [abs(hash) mod modulus]. *)
Definition signed32 (u : Z) : Z := if u <? 2 ^ 31 then u else u - 2 ^ 32.

Definition spec_hash_step (hash code : Z) : Z :=
  signed32 ((hash * 31 + code) mod 2 ^ 32).

Definition spec_hash (key : js_string) : Z := fold_left spec_hash_step key 0.

Definition spec_select (key : js_string) (modulus : Z) : Z :=
  Z.abs (spec_hash key) mod modulus.

End Selector.

(** ** The store: tables, constraints and the queries of [challenges.ts] *)

Module Db.

(** Rows of [schema.ts]. Time stamps that no modelled query reads are left
    out. *)
Record Category := {
  cat_id : js_string;
  cat_name : js_string;
  cat_color : js_string;
  cat_icon : js_string
}.

Record ChallengeTemplate := {
  tpl_id : js_string;
  tpl_title : js_string;
  tpl_description : js_string;
  tpl_category_id : js_string
}.

Record UserChallenge := {
  uc_id : js_string;
  uc_user_id : js_string;
  uc_template_id : js_string;
  uc_date : js_string;   (* YYYY-MM-DD *)
  uc_completed : Z       (* SQLite boolean, DEFAULT 0 *)
}.

(** The row type of the joins in [getUserChallengeByDate]. *)
Record CompleteChallenge := {
  cc_id : js_string;
  cc_date : js_string;
  cc_completed : Z;
  cc_title : js_string;
  cc_description : js_string;
  cc_category_id : js_string;
  cc_category_name : js_string
}.

(** The row type of the "recent challenges" query of the generator. *)
Record RecentChallenge := {
  rc_id : js_string;
  rc_date : js_string;
  rc_category_id : js_string
}.

(** The database. [categories] is kept in the order of
    [ORDER BY name ASC] and [challenge_templates] in the order of
    [ORDER BY created_at DESC], the only orders in which the code reads
    them; [users] lists the primary keys of the [users] table. *)
Record Database := {
  users : list js_string;
  categories : list Category;
  challenge_templates : list ChallengeTemplate;
  user_challenges : list UserChallenge
}.

(** The process state around the database: the values [randomUUID] is
    going to return, how many of them were drawn, and a count of the
    INSERT statements run on [user_challenges] (a ghost counter, it is
    not part of any transaction). *)
Record World := {
  db : Database;
  random : nat -> js_string;
  drawn : nat;
  insert_calls : nat
}.

Definition with_db (w : World) (d : Database) : World :=
  {| db := d; random := random w; drawn := drawn w;
     insert_calls := insert_calls w |}.

(** Store calls read or write the world and may throw. *)
Definition M (A : Type) : Type := World -> completion A * World.

Definition ret {A} (v : A) : M A := fun w => (Normal v, w).

Definition throw {A} (e : js_error) : M A := fun w => (Throw e, w).

Definition bind {A B} (c : M A) (k : A -> M B) : M B :=
  fun w =>
    match c w with
    | (Normal v, w') => k v w'
    | (Throw e, w') => (Throw e, w')
    end.

Definition lift {A} (c : completion A) : M A := fun w => (c, w).

Definition query {A} (q : Database -> A) : M A := fun w => (Normal (q (db w)), w).

Declare Scope store_scope.
Delimit Scope store_scope with store.
Notation "x <- c ;; k" := (bind c (fun x => k))
  (at level 61, c at next level, right associativity) : store_scope.
Local Open Scope store_scope.

(** [transaction] of [index.ts]: better-sqlite3 commits when the callback
    returns and rolls back, then rethrows, when it throws. *)
Definition transaction {A} (callback : M A) : M A :=
  fun w =>
    match callback w with
    | (Normal v, w') => (Normal v, w')
    | (Throw e, w') => (Throw e, with_db w' (db w))
    end.

(** [generateId] of [schema.ts]. *)
Definition generateId : M js_string :=
  fun w =>
    (Normal (random w (drawn w)),
     {| db := db w; random := random w; drawn := S (drawn w);
        insert_calls := insert_calls w |}).

(** Lexicographic order on code units, the order of [ORDER BY] on the
    ASCII text of a date column. *)
Fixpoint js_string_ltb (a b : js_string) : bool :=
  match a, b with
  | _, [] => false
  | [], _ :: _ => true
  | x :: a', y :: b' => (x <? y) || ((x =? y) && js_string_ltb a' b')
  end.

Section OrderByDateDesc.
Context {A : Type} (date : A -> js_string).

Fixpoint insert_desc (r : A) (rows : list A) : list A :=
  match rows with
  | [] => [r]
  | r' :: rest =>
      if js_string_ltb (date r) (date r') then r' :: insert_desc r rest
      else r :: rows
  end.

Definition order_by_date_desc (rows : list A) : list A :=
  fold_right insert_desc [] rows.

End OrderByDateDesc.

(** [getCategories], lines 61-67. *)
Definition getCategories : M (list Category) := query categories.

(** [getChallengeTemplates], lines 87-102: the filter applies when the
    argument is truthy, that is a non-empty string. *)
Definition getChallengeTemplates (categoryId : js_string)
  : M (list ChallengeTemplate) :=
  match categoryId with
  | [] => query challenge_templates
  | _ :: _ =>
      query (fun d =>
        filter (fun ct => js_string_eqb (tpl_category_id ct) categoryId)
               (challenge_templates d))
  end.

(** [getUserChallengeById], lines 144-150. *)
Definition getUserChallengeById (id : js_string) : M (option UserChallenge) :=
  query (fun d => find (fun uc => js_string_eqb (uc_id uc) id) (user_challenges d)).

(** The two inner joins of [getUserChallengeByDate] for one assignment. *)
Definition join_template_category (d : Database) (uc : UserChallenge)
  : list CompleteChallenge :=
  flat_map (fun ct =>
    map (fun c =>
           {| cc_id := uc_id uc; cc_date := uc_date uc;
              cc_completed := uc_completed uc;
              cc_title := tpl_title ct; cc_description := tpl_description ct;
              cc_category_id := cat_id c; cc_category_name := cat_name c |})
        (filter (fun c => js_string_eqb (tpl_category_id ct) (cat_id c))
                (categories d)))
    (filter (fun ct => js_string_eqb (uc_template_id uc) (tpl_id ct))
            (challenge_templates d)).

(** [getUserChallengeByDate], lines 158-177: the first row of the join,
    or [undefined]. *)
Definition getUserChallengeByDate (userId date : js_string)
  : M (option CompleteChallenge) :=
  query (fun d =>
    hd_error
      (flat_map (join_template_category d)
         (filter (fun uc => js_string_eqb (uc_user_id uc) userId
                            && js_string_eqb (uc_date uc) date)
                 (user_challenges d)))).

(** Some row of [user_challenges] has this (user_id, date). *)
Definition has_assignment (d : Database) (userId date : js_string) : bool :=
  existsb (fun uc => js_string_eqb (uc_user_id uc) userId
                     && js_string_eqb (uc_date uc) date)
          (user_challenges d).

(** Some row of [user_challenges] has this id. *)
Definition has_id (d : Database) (id : js_string) : bool :=
  existsb (fun uc => js_string_eqb (uc_id uc) id) (user_challenges d).

(** The foreign key of [challenge_templates]: every template names a
    category of the table. *)
Definition templates_reference_categories (d : Database) : Prop :=
  forall ct, In ct (challenge_templates d) ->
  exists c, In c (categories d) /\ cat_id c = tpl_category_id ct.

(** A call that reads: it returns a value and leaves the world alone. *)
Definition read_only {A} (c : M A) : Prop :=
  forall w, exists v, c w = (Normal v, w).

(** The row of [INSERT INTO user_challenges (id, user_id, template_id,
    date)]: [completed] takes its default. *)
Definition new_row (id userId templateId date : js_string) : UserChallenge :=
  {| uc_id := id; uc_user_id := userId; uc_template_id := templateId;
     uc_date := date; uc_completed := 0 |}.

(** The INSERT of [createUserChallenge] with the constraints of the table:
    PRIMARY KEY (id), UNIQUE (user_id, date) and the two foreign keys
    (checked when the statement ends, after the two index constraints). *)
Definition insert_user_challenge (id userId templateId date : js_string)
  : M unit :=
  fun w =>
    let d := db w in
    let w1 := {| db := d; random := random w; drawn := drawn w;
                 insert_calls := S (insert_calls w) |} in
    if has_id d id
    then (Throw (SqliteError SQLITE_CONSTRAINT_PRIMARYKEY), w1)
    else if has_assignment d userId date
    then (Throw (SqliteError SQLITE_CONSTRAINT_UNIQUE), w1)
    else if negb (existsb (fun u => js_string_eqb u userId) (users d))
            || negb (existsb (fun ct => js_string_eqb (tpl_id ct) templateId)
                             (challenge_templates d))
    then (Throw (SqliteError SQLITE_CONSTRAINT_FOREIGNKEY), w1)
    else
      (Normal tt,
       with_db w1
         {| users := users d; categories := categories d;
            challenge_templates := challenge_templates d;
            user_challenges :=
              user_challenges d ++ [new_row id userId templateId date] |}).

(** [createUserChallenge], lines 124-137. There is no [try]/[catch]: an
    error of the INSERT leaves through [transaction]. The result is what
    [getUserChallengeById] returns, cast to [UserChallenge]. *)
Definition createUserChallenge (userId templateId date : js_string)
  : M (option UserChallenge) :=
  id <- generateId ;;
  transaction
    (_ <- insert_user_challenge id userId templateId date ;;
     getUserChallengeById id).

End Db.

(** ** DailyChallengeAssigner: [generateDailyChallenge] *)

Module Generator.

Import Db Selector.
Local Open Scope store_scope.

(** The query of lines 21-31: the user's assignments joined with their
    templates, latest date first, at most five rows. *)
Definition recentChallengesQuery (userId : js_string)
  : M (list RecentChallenge) :=
  query (fun d =>
    firstn 5
      (order_by_date_desc rc_date
         (flat_map (fun uc =>
            map (fun ct =>
                   {| rc_id := uc_id uc; rc_date := uc_date uc;
                      rc_category_id := tpl_category_id ct |})
                (filter (fun ct => js_string_eqb (uc_template_id uc) (tpl_id ct))
                        (challenge_templates d)))
            (filter (fun uc => js_string_eqb (uc_user_id uc) userId)
                    (user_challenges d))))).

(** [recentCategoryIds.has(id)] for the [Set] of line 40. *)
Definition set_has (recentCategoryIds : list js_string) (id : js_string) : bool :=
  existsb (js_string_eqb id) recentCategoryIds.

(** The category at index [k] is, or is not, in the recent set. *)
Definition present_at (categories : list Category)
  (recentCategoryIds : list js_string) (k : Z) : Prop :=
  exists c, array_get categories (Num k) = Some c
            /\ set_has recentCategoryIds (cat_id c) = true.

Definition absent_at (categories : list Category)
  (recentCategoryIds : list js_string) (k : Z) : Prop :=
  exists c, array_get categories (Num k) = Some c
            /\ set_has recentCategoryIds (cat_id c) = false.

(** The index probed in round [i] of the loop, line 53. *)
Definition nextIndex (categoryIndex i len : Z) : js_number :=
  js_rem (categoryIndex + i + 1) len.

(** The [for] loop of lines 52-58 from round [i] on, with [remaining]
    rounds to go: it leaves with the first probed index whose category is
    not in the set, or with [selected] untouched after the last round.
    Reading [.id] of an [undefined] element throws. *)
Fixpoint scan (categories : list Category) (recentCategoryIds : list js_string)
  (categoryIndex : Z) (remaining : nat) (i : Z) (selected : Z) : completion Z :=
  match remaining with
  | O => Normal selected
  | S remaining' =>
      let next := nextIndex categoryIndex i (Z.of_nat (length categories)) in
      match array_get categories next, next with
      | Some c, Num k =>
          if negb (set_has recentCategoryIds (cat_id c)) then Normal k
          else scan categories recentCategoryIds categoryIndex remaining'
                    (i + 1) selected
      | _, _ => Throw TypeError
      end
  end.

(** Lines 47-59: the category index that is finally used. *)
Definition selectCategoryIndex (categories : list Category)
  (recentChallenges : list RecentChallenge) (categoryIndex : js_number)
  : completion Z :=
  let recentCategoryIds := map rc_category_id recentChallenges in
  match array_get categories categoryIndex, categoryIndex with
  | Some c, Num ci =>
      if set_has recentCategoryIds (cat_id c)
         && (3 <=? Z.of_nat (length recentChallenges))
      then scan categories recentCategoryIds ci (length categories) 0 ci
      else Normal ci
  | _, _ => Throw TypeError
  end.

(** [xs[i]] followed by a property read. *)
Definition element {A} (xs : list A) (i : js_number) : completion A :=
  match array_get xs i with
  | Some x => Normal x
  | None => Throw TypeError
  end.

Definition no_categories : js_error :=
  Error (str "No categories found in the database").

Definition no_templates (categoryName : js_string) : js_error :=
  Error (str "No challenge templates found for category: " ++ categoryName).

(** [return userChallenge.id], line 77. *)
Definition return_id (userChallenge : option UserChallenge) : M js_string :=
  match userChallenge with
  | Some uc => ret (uc_id uc)
  | None => throw TypeError
  end.

(** Lines 63-77: from the selected category to the new assignment. *)
Definition assignTemplate (userId date : js_string) (selectedCategory : Category)
  : M js_string :=
  templates <- getChallengeTemplates (cat_id selectedCategory) ;;
  if Z.of_nat (length templates) =? 0
  then throw (no_templates (cat_name selectedCategory))
  else
    templateIndex <-
      lift (getDateBasedIndex (date ++ cat_id selectedCategory)
                              (Z.of_nat (length templates))) ;;
    selectedTemplate <- lift (element templates templateIndex) ;;
    userChallenge <- createUserChallenge userId (tpl_id selectedTemplate) date ;;
    return_id userChallenge.

(** The callback handed to [transaction], lines 19-78. *)
Definition generateDailyChallenge_callback (userId date : js_string)
  : M js_string :=
  recentChallenges <- recentChallengesQuery userId ;;
  categories <- getCategories ;;
  if Z.of_nat (length categories) =? 0 then throw no_categories
  else
    categoryIndex <- lift (getDateBasedIndex date (Z.of_nat (length categories))) ;;
    selectedCategoryIndex <-
      lift (selectCategoryIndex categories recentChallenges categoryIndex) ;;
    selectedCategory <- lift (element categories (Num selectedCategoryIndex)) ;;
    assignTemplate userId date selectedCategory.

(** [generateDailyChallenge], lines 12-79. *)
Definition generateDailyChallenge (userId date : js_string) : M js_string :=
  existingChallenge <- getUserChallengeByDate userId date ;;
  match existingChallenge with
  | Some c => ret (cc_id c)
  | None => transaction (generateDailyChallenge_callback userId date)
  end.

End Generator.

(** ** Dates, as ECMA-262 defines the operations the code calls *)

Module JsDate.

Definition msPerDay : Z := 86400000.

Definition msPerHour : Z := 3600000.

(** The host's time zone: the offset (local minus UTC, in ms) in effect at
    a UTC instant, and the offset with which a local time value is read
    back ([LocalTZA(t, true)] and [LocalTZA(t, false)]). *)
Record TimeZone := {
  LocalTZA_utc : Z -> Z;
  LocalTZA_local : Z -> Z
}.

Definition LocalTime (tz : TimeZone) (t : Z) : Z := t + LocalTZA_utc tz t.

Definition UTC (tz : TimeZone) (t : Z) : Z := t - LocalTZA_local tz t.

Definition Day (t : Z) : Z := t / msPerDay.

(** A date column holds the text YYYY-MM-DD. The model keeps the number
    of that calendar day (days since 1970-01-01) in its place: two such
    texts are equal, or ordered, as their day numbers are, and
    [new Date(text)] is midnight UTC of that day. *)
Definition new_Date (date : Z) : Z := date * msPerDay.

(** [d.setHours(0, 0, 0, 0)]: midnight of the local day of [d]. *)
Definition setHours_0 (tz : TimeZone) (t : Z) : Z :=
  UTC tz (Day (LocalTime tz t) * msPerDay).

(** [d.setDate(d.getDate() - 1)]: the same local time one local day
    before. *)
Definition setDate_previous (tz : TimeZone) (t : Z) : Z :=
  UTC tz (LocalTime tz t - msPerDay).

(** The text built from [getFullYear], [getMonth] and [getDate]: the
    local day of [t]. *)
Definition local_date_string (tz : TimeZone) (t : Z) : Z :=
  Day (LocalTime tz t).

(** A zone whose offset never changes; [utc] is the one at offset 0. *)
Definition fixed_offset (offset : Z) : TimeZone :=
  {| LocalTZA_utc := fun _ => offset; LocalTZA_local := fun _ => offset |}.

Definition utc : TimeZone := fixed_offset 0.

(** America/New_York during 2024: UTC-5, and UTC-4 from 2024-03-10 02:00
    local (07:00 UTC) to 2024-11-03 02:00 local (06:00 UTC). Day 19792 is
    2024-03-10 and day 20030 is 2024-11-03. *)
Definition America_New_York_2024 : TimeZone :=
  {| LocalTZA_utc := fun t =>
       if t <? 19792 * msPerDay + 7 * msPerHour then -5 * msPerHour
       else if t <? 20030 * msPerDay + 6 * msPerHour then -4 * msPerHour
       else -5 * msPerHour;
     LocalTZA_local := fun t =>
       if t <? 19792 * msPerDay + 3 * msPerHour then -5 * msPerHour
       else if t <? 20030 * msPerDay + 2 * msPerHour then -4 * msPerHour
       else -5 * msPerHour |}.

End JsDate.

(** ** StatisticsEngine: [statistics.ts] *)

Module Statistics.

Import JsDate.

(** A row of the user's history as the two streak functions read it: the
    date (see [new_Date]) and the SQLite boolean. *)
Record Challenge := {
  date : Z;
  completed : Z
}.

(** Truthiness of a number in a condition. *)
Definition truthy (z : Z) : bool := negb (z =? 0).

(** The body of both [for] loops of [calculateCurrentStreak] (lines 45-69
    and 78-103 are the same statements) from the given row on. *)
Fixpoint streak_loop (tz : TimeZone) (challenges : list Challenge)
  (currentDate streak : Z) : Z :=
  match challenges with
  | [] => streak
  | challenge :: rest =>
      let challengeDate := setHours_0 tz (new_Date (date challenge)) in
      if (challengeDate =? currentDate) && truthy (completed challenge)
      then streak_loop tz rest (setDate_previous tz currentDate) (streak + 1)
      else if (challengeDate =? currentDate)
              && negb (truthy (completed challenge))
      then streak
      else if challengeDate <? currentDate then streak
      else streak_loop tz rest currentDate streak
  end.

(** [calculateCurrentStreak], lines 20-107. [now] is the value of
    [new Date()]; [history] is the user's history with the latest date
    first, of which [getUserChallengeHistory(userId, 100, 0)] returns the
    first hundred rows. *)
Definition calculateCurrentStreak (tz : TimeZone) (now : Z)
  (history : list Challenge) : Z :=
  let challenges := firstn 100 history in
  match challenges with
  | [] => 0
  | mostRecent :: rest =>
      let today := setHours_0 tz now in
      let todayStr := local_date_string tz today in
      if negb (date mostRecent =? todayStr) && truthy (completed mostRecent)
      then streak_loop tz challenges (new_Date (date mostRecent)) 0
      else if (date mostRecent =? todayStr) && truthy (completed mostRecent)
      then streak_loop tz rest (setDate_previous tz today) 1
      else 0
  end.

(** The loop of [calculateLongestStreak], lines 131-160. *)
Fixpoint longest_loop (tz : TimeZone) (challenges : list Challenge)
  (currentStreak longestStreak : Z) (previousDate : option Z) : Z :=
  match challenges with
  | [] => longestStreak
  | challenge :: rest =>
      let challengeDate := setHours_0 tz (new_Date (date challenge)) in
      if truthy (completed challenge) then
        let currentStreak' :=
          match previousDate with
          | None => currentStreak + 1
          | Some previous =>
              if previous =? challengeDate - 86400000 then currentStreak + 1
              else 1
          end in
        let longestStreak' :=
          if currentStreak' >? longestStreak then currentStreak'
          else longestStreak in
        longest_loop tz rest currentStreak' longestStreak' (Some challengeDate)
      else longest_loop tz rest 0 longestStreak None
  end.

(** [calculateLongestStreak], lines 114-163, on all rows of the user with
    the earliest date first. *)
Definition calculateLongestStreak (tz : TimeZone) (challenges : list Challenge)
  : Z :=
  match challenges with
  | [] => 0
  | _ :: _ => longest_loop tz challenges 0 0 None
  end.

(** JavaScript numbers are IEEE 754 binary64 values. *)
Definition double_of_Z (z : Z) : spec_float := binary_normalize 53 1024 z 0 false.

Definition double_div : spec_float -> spec_float -> spec_float := SFdiv 53 1024.

Definition double_mul : spec_float -> spec_float -> spec_float := SFmul 53 1024.

(** [Math.round]: the integer closest to the argument, the greater one on
    a tie; [None] stands for a result that is not finite. *)
Definition Math_round (x : spec_float) : option Z :=
  match x with
  | S754_zero _ => Some 0
  | S754_finite s m e =>
      let v := if s then Z.neg m else Z.pos m in
      Some (if 0 <=? e then v * 2 ^ e
            else (2 * v + 2 ^ (- e)) / 2 ^ (- e + 1))
  | S754_infinity _ | S754_nan => None
  end.

(** [countUserChallenges], lines 245-261 of [challenges.ts]: all rows, or
    the rows with [completed = 1]. *)
Definition countUserChallenges (rows : list Challenge) (completedOnly : bool)
  : Z :=
  if completedOnly
  then Z.of_nat (length (filter (fun c => completed c =? 1) rows))
  else Z.of_nat (length rows).

(** [Math.round((completedChallenges / totalChallenges) * 100)]. *)
Definition percentage (completedChallenges totalChallenges : Z) : option Z :=
  Math_round
    (double_mul
       (double_div (double_of_Z completedChallenges)
                   (double_of_Z totalChallenges))
       (double_of_Z 100)).

(** [calculateCompletionRate], lines 170-180. *)
Definition calculateCompletionRate (rows : list Challenge) : option Z :=
  let totalChallenges := countUserChallenges rows false in
  if totalChallenges =? 0 then Some 0
  else
    let completedChallenges := countUserChallenges rows true in
    percentage completedChallenges totalChallenges.

Record UserStats := {
  totalChallenges : Z;
  completedChallenges : Z;
  currentStreak : Z;
  longestStreak : Z;
  completionRate : option Z
}.

(** [getUserStats], lines 187-203. [rows] are the user's assignments with
    the earliest date first; dates are unique per user, so the
    latest-first order of the history query is the reverse. *)
Definition getUserStats (tz : TimeZone) (now : Z) (rows : list Challenge)
  : UserStats :=
  let total := countUserChallenges rows false in
  let done := countUserChallenges rows true in
  {| totalChallenges := total;
     completedChallenges := done;
     currentStreak := calculateCurrentStreak tz now (rev rows);
     longestStreak := calculateLongestStreak tz rows;
     completionRate := if total >? 0 then percentage done total else Some 0 |}.

(** *** The statistics as the specification words them, on calendar days *)

(** Half-up rounding of [100 * completed / total]. *)
Definition spec_completionRate (completedChallenges totalChallenges : Z) : Z :=
  if totalChallenges =? 0 then 0
  else (200 * completedChallenges + totalChallenges) / (2 * totalChallenges).

(** The backward walk: [expected] is the next expected day. *)
Fixpoint spec_walk (expected streak : Z) (rows : list Challenge) : Z :=
  match rows with
  | [] => streak
  | a :: rest =>
      if date a =? expected then
        if truthy (completed a) then spec_walk (expected - 1) (streak + 1) rest
        else streak
      else if date a <? expected then streak
      else spec_walk expected streak rest
  end.

Definition spec_currentStreak (today : Z) (history : list Challenge) : Z :=
  match firstn 100 history with
  | [] => 0
  | mostRecent :: rest =>
      if truthy (completed mostRecent) then
        if date mostRecent =? today then spec_walk (today - 1) 1 rest
        else spec_walk (date mostRecent - 1) 1 rest
      else 0
  end.

(** The fold for the longest streak: current run, best run, previous
    completed date. *)
Definition spec_longest_step (st : Z * Z * option Z) (a : Challenge)
  : Z * Z * option Z :=
  let '(currentRun, best, previousCompletedDate) := st in
  if truthy (completed a) then
    let run :=
      match previousCompletedDate with
      | None => currentRun + 1
      | Some p => if p =? date a - 1 then currentRun + 1 else 1
      end in
    (run, Z.max best run, Some (date a))
  else (0, best, None).

Definition spec_longestStreak (rows : list Challenge) : Z :=
  snd (fst (fold_left spec_longest_step rows (0, 0, None))).

End Statistics.

(** ** Concrete stores and histories used in the examples *)

Module Samples.

Import Db JsDate Statistics.

Definition category (id name : string) : Category :=
  {| cat_id := str id; cat_name := str name;
     cat_color := str "#4CAF50"; cat_icon := str "icon" |}.

Definition template (id categoryId : string) : ChallengeTemplate :=
  {| tpl_id := str id; tpl_title := str "title";
     tpl_description := str "description"; tpl_category_id := str categoryId |}.

Definition assignment (id templateId day : string) : UserChallenge :=
  {| uc_id := str id; uc_user_id := str "user-1"; uc_template_id := str templateId;
     uc_date := str day; uc_completed := 0 |}.

Definition world_of (d : Database) : World :=
  {| db := d;
     random := fun n => str "challenge-" ++ [48 + Z.of_nat n];
     drawn := 0;
     insert_calls := 0 |}.

(** Categories A, B, C; the last three assignments of the user are all
    of category A. *)
Definition three_categories : World :=
  world_of
    {| users := [str "user-1"];
       categories := [category "A" "Art"; category "B" "Books";
                      category "C" "Cooking"];
       challenge_templates := [template "tA" "A"; template "tB" "B";
                               template "tC" "C"];
       user_challenges := [assignment "c1" "tA" "2023-01-01";
                           assignment "c2" "tA" "2023-01-02";
                           assignment "c3" "tA" "2023-01-03"] |}.

(** Categories A, B; the recent assignments cover both. *)
Definition two_categories : World :=
  world_of
    {| users := [str "user-1"];
       categories := [category "A" "Art"; category "B" "Books"];
       challenge_templates := [template "tA" "A"; template "tB" "B"];
       user_challenges := [assignment "c1" "tA" "2023-01-01";
                           assignment "c2" "tB" "2023-01-02";
                           assignment "c3" "tA" "2023-01-03"] |}.

(** The store of [three_categories] after another process has committed
    the assignment of user-1 for 2023-01-04. *)
Definition three_categories_raced : World :=
  world_of
    {| users := users (db three_categories);
       categories := categories (db three_categories);
       challenge_templates := challenge_templates (db three_categories);
       user_challenges :=
         user_challenges (db three_categories)
         ++ [assignment "other" "tB" "2023-01-04"] |}.

(** Noon UTC of 2024-01-10 (day 19732). *)
Definition noon_2024_01_10 : Z := 19732 * msPerDay + 12 * msPerHour.

(** One completed assignment, dated 2024-01-09. *)
Definition completed_yesterday : list Challenge :=
  [{| date := 19731; completed := 1 |}].

(** Completed assignments on 2024-03-11 and 2024-03-12, earliest first. *)
Definition two_days_in_march : list Challenge :=
  [{| date := 19793; completed := 1 |}; {| date := 19794; completed := 1 |}].

(** Forty assignments on consecutive days from 2024-01-01 (day 19723), the
    first twenty-three of them completed. *)
Definition twenty_three_of_forty : list Challenge :=
  map (fun k => {| date := 19723 + Z.of_nat k;
                   completed := if (k <? 23)%nat then 1 else 0 |})
      (seq 0 40).

(** [done] completed assignments followed by [total - done] open ones, on
    consecutive days. *)
Definition done_of_total (done total : nat) : list Challenge :=
  map (fun k => {| date := 19723 + Z.of_nat k;
                   completed := if (k <? done)%nat then 1 else 0 |})
      (seq 0 total).

(** The six days up to 2024-01-10, earliest first: three completed, one
    open, two completed. *)
Definition six_days : list Challenge :=
  [{| date := 19727; completed := 1 |}; {| date := 19728; completed := 1 |};
   {| date := 19729; completed := 1 |}; {| date := 19730; completed := 0 |};
   {| date := 19731; completed := 1 |}; {| date := 19732; completed := 1 |}].

(** The recent windows of the two stores above. *)
Definition recent_of (w : World) : list RecentChallenge :=
  match fst (Generator.recentChallengesQuery (str "user-1") w) with
  | Normal rows => rows
  | Throw _ => []
  end.

End Samples.

(** ** Shapes of a history used in the properties *)

Module History.

Import Statistics.

(** Dates strictly decreasing from one row to the next, as the history
    query returns them for one user (ORDER BY date DESC, one row per
    date). *)
Fixpoint strictly_descending (rows : list Challenge) : Prop :=
  match rows with
  | [] => True
  | a :: rest => Forall (fun b => date b < date a) rest /\ strictly_descending rest
  end.

(** The number of rows whose [completed] is truthy. *)
Definition completed_rows (rows : list Challenge) : Z :=
  Z.of_nat (length (filter (fun c => truthy (completed c)) rows)).

(** The state of the longest-streak fold (current run, best run, previous
    completed date) once it has read a latest-first history from its last
    row up to its first. *)
Definition longest_state (history : list Challenge) : Z * Z * option Z :=
  fold_right (fun a st => spec_longest_step st a) (0, 0, None) history.

(** The run that ends on day [e] in that state, 0 if none does. *)
Definition run_ending (history : list Challenge) (e : Z) : Z :=
  let '(currentRun, _, previous) := longest_state history in
  match previous with
  | Some p => if p =? e then currentRun else 0
  | None => 0
  end.

End History.

(** ** The rest of [challenges.ts] *)

Module Challenges.

Import Db.
Local Open Scope store_scope.

(** [getCategoryById], lines 74-80. *)
Definition getCategoryById (id : js_string) : M (option Category) :=
  query (fun d => find (fun c => js_string_eqb (cat_id c) id) (categories d)).

(** [getChallengeTemplateById], lines 109-115. *)
Definition getChallengeTemplateById (id : js_string)
  : M (option ChallengeTemplate) :=
  query (fun d => find (fun ct => js_string_eqb (tpl_id ct) id)
                       (challenge_templates d)).

(** The database with another [user_challenges] table. *)
Definition with_user_challenges (d : Database) (rows : list UserChallenge)
  : Database :=
  {| users := users d; categories := categories d;
     challenge_templates := challenge_templates d;
     user_challenges := rows |}.

(** [UPDATE user_challenges SET completed = ? WHERE id = ?] and the
    number of rows it changed. (The same statement sets [completed_at],
    a time stamp column that the rows of the model do not carry.) *)
Definition set_completed (value : Z) (id : js_string) (uc : UserChallenge)
  : UserChallenge :=
  if js_string_eqb (uc_id uc) id
  then {| uc_id := uc_id uc; uc_user_id := uc_user_id uc;
          uc_template_id := uc_template_id uc; uc_date := uc_date uc;
          uc_completed := value |}
  else uc.

Definition update_completed (value : Z) (id : js_string) : M Z :=
  fun w =>
    let rows := user_challenges (db w) in
    (Normal (Z.of_nat (length (filter (fun uc => js_string_eqb (uc_id uc) id) rows))),
     with_db w (with_user_challenges (db w) (map (set_completed value id) rows))).

(** [completeUserChallenge], lines 268-284. *)
Definition completeUserChallenge (id : js_string) : M (option UserChallenge) :=
  transaction
    (changes <- update_completed 1 id ;;
     if changes =? 0 then ret None else getUserChallengeById id).

(** [uncompleteUserChallenge], lines 291-307. *)
Definition uncompleteUserChallenge (id : js_string) : M (option UserChallenge) :=
  transaction
    (changes <- update_completed 0 id ;;
     if changes =? 0 then ret None else getUserChallengeById id).

(** [DELETE FROM user_challenges WHERE id = ?] and the number of rows it
    removed. No table refers to [user_challenges], so no foreign key can
    object. *)
Definition delete_by_id (id : js_string) : M Z :=
  fun w =>
    let rows := user_challenges (db w) in
    (Normal (Z.of_nat (length (filter (fun uc => js_string_eqb (uc_id uc) id) rows))),
     with_db w
       (with_user_challenges (db w)
          (filter (fun uc => negb (js_string_eqb (uc_id uc) id)) rows))).

(** [deleteUserChallenge], lines 314-325. *)
Definition deleteUserChallenge (id : js_string) : M bool :=
  transaction
    (changes <- delete_by_id id ;;
     ret (changes >? 0)).

(** The [completed] argument of the two functions below: absent, [true]
    or [false]; it adds [AND completed = 1] or [AND completed = 0]. *)
Definition completed_filter (completed : option bool) (uc : UserChallenge)
  : bool :=
  match completed with
  | None => true
  | Some true => uc_completed uc =? 1
  | Some false => uc_completed uc =? 0
  end.

(** [LIMIT ? OFFSET ?] of SQLite on integers: a negative limit is no
    limit, a negative offset is offset 0. *)
Definition limit_offset {A : Type} (limit offset : Z) (rows : list A) : list A :=
  let rest := skipn (Z.to_nat offset) rows in
  if limit <? 0 then rest else firstn (Z.to_nat limit) rest.

(** The rows of one user that pass the filter, before any join. *)
Definition rows_of_user (d : Database) (userId : js_string)
  (completed : option bool) : list UserChallenge :=
  filter (fun uc => js_string_eqb (uc_user_id uc) userId
                    && completed_filter completed uc)
         (user_challenges d).

(** [getUserChallengeHistory], lines 197-237, with its four arguments
    given. *)
Definition getUserChallengeHistory (userId : js_string) (limit offset : Z)
  (completed : option bool) : M (list CompleteChallenge) :=
  query (fun d =>
    limit_offset limit offset
      (order_by_date_desc cc_date
         (flat_map (join_template_category d) (rows_of_user d userId completed)))).

(** [countUserChallenges], lines 245-261. *)
Definition countUserChallenges (userId : js_string) (completed : option bool)
  : M Z :=
  query (fun d => Z.of_nat (length (rows_of_user d userId completed))).

(** *** What the schema keeps true of the tables *)

(** PRIMARY KEY of the three tables and UNIQUE (user_id, date). *)
Definition unique_ids (d : Database) : Prop :=
  NoDup (map uc_id (user_challenges d)).

Definition unique_user_dates (d : Database) : Prop :=
  NoDup (map (fun uc => (uc_user_id uc, uc_date uc)) (user_challenges d)).

Definition unique_template_ids (d : Database) : Prop :=
  NoDup (map tpl_id (challenge_templates d)).

Definition unique_category_ids (d : Database) : Prop :=
  NoDup (map cat_id (categories d)).

(** FOREIGN KEY (template_id) and FOREIGN KEY (user_id) of
    [user_challenges]. *)
Definition assignments_reference_templates (d : Database) : Prop :=
  forall uc, In uc (user_challenges d) ->
  exists ct, In ct (challenge_templates d) /\ tpl_id ct = uc_template_id uc.

Definition assignments_reference_users (d : Database) : Prop :=
  forall uc, In uc (user_challenges d) -> In (uc_user_id uc) (users d).

(** Latest first: no row is dated before the row that follows it. *)
Fixpoint latest_first (rows : list CompleteChallenge) : Prop :=
  match rows with
  | [] => True
  | r :: rest =>
      match rest with
      | [] => True
      | r' :: _ => js_string_ltb (cc_date r) (cc_date r') = false
      end /\ latest_first rest
  end.

End Challenges.

(** ** The choice of a template, seen apart from the store *)

Module Choice.

Import Db Selector Generator.

(** What [getChallengeTemplates(categoryId)] returns from a table. *)
Definition templates_of (table : list ChallengeTemplate) (categoryId : js_string)
  : list ChallengeTemplate :=
  match categoryId with
  | [] => table
  | _ :: _ => filter (fun ct => js_string_eqb (tpl_category_id ct) categoryId) table
  end.

(** The rows that the query of lines 21-31 returns from a database. *)
Definition recent_window (d : Database) (userId : js_string)
  : list RecentChallenge :=
  firstn 5
    (order_by_date_desc rc_date
       (flat_map (fun uc =>
          map (fun ct =>
                 {| rc_id := uc_id uc; rc_date := uc_date uc;
                    rc_category_id := tpl_category_id ct |})
              (filter (fun ct => js_string_eqb (uc_template_id uc) (tpl_id ct))
                      (challenge_templates d)))
          (filter (fun uc => js_string_eqb (uc_user_id uc) userId)
                  (user_challenges d)))).

(** Lines 34-72 of [generateDailyChallenge] as a function of the
    categories, the template table and the recent rows: the template that
    goes into the new assignment, or the error thrown before the
    INSERT. *)
Definition chooseTemplate (categories : list Category)
  (table : list ChallengeTemplate) (recentChallenges : list RecentChallenge)
  (date : js_string) : completion ChallengeTemplate :=
  if Z.of_nat (length categories) =? 0 then Throw no_categories
  else
    match getDateBasedIndex date (Z.of_nat (length categories)) with
    | Throw e => Throw e
    | Normal categoryIndex =>
        match selectCategoryIndex categories recentChallenges categoryIndex with
        | Throw e => Throw e
        | Normal selectedCategoryIndex =>
            match element categories (Num selectedCategoryIndex) with
            | Throw e => Throw e
            | Normal selectedCategory =>
                let templates := templates_of table (cat_id selectedCategory) in
                if Z.of_nat (length templates) =? 0
                then Throw (no_templates (cat_name selectedCategory))
                else
                  match getDateBasedIndex (date ++ cat_id selectedCategory)
                          (Z.of_nat (length templates)) with
                  | Throw e => Throw e
                  | Normal templateIndex => element templates templateIndex
                  end
            end
        end
    end.

End Choice.

(** ** More stores for the examples *)

Module MoreSamples.

Import Db Samples.

(** A database that was never seeded. *)
Definition unseeded : World :=
  world_of
    {| users := [str "user-1"]; categories := [];
       challenge_templates := []; user_challenges := [] |}.

(** Categories A and B, templates for B only, no assignment yet. *)
Definition no_templates_for_A : World :=
  world_of
    {| users := [str "user-1"; str "user-2"];
       categories := [category "A" "Art"; category "B" "Books"];
       challenge_templates := [template "tB" "B"];
       user_challenges := [] |}.

(** Two users without assignments, categories A, B, C with two templates
    each. *)
Definition two_new_users : World :=
  world_of
    {| users := [str "user-1"; str "user-2"];
       categories := [category "A" "Art"; category "B" "Books";
                      category "C" "Cooking"];
       challenge_templates := [template "tA1" "A"; template "tA2" "A";
                               template "tB1" "B"; template "tB2" "B";
                               template "tC1" "C"; template "tC2" "C"];
       user_challenges := [] |}.

(** Noon UTC of 2023-01-04 (day 19361) and of 2023-01-05. *)
Definition noon_2023_01_04 : Z := 19361 * JsDate.msPerDay + 12 * JsDate.msPerHour.


End MoreSamples.

(** ** Today's and the upcoming challenges *)

Module Upcoming.

Import Db Generator JsDate.
Local Open Scope store_scope.

(** TimeClip of ECMA-262: a time value beyond 8.64e15 ms is not a time
    ([None], the Invalid Date). *)
Definition TimeClip (t : Z) : option Z :=
  if Z.abs t <=? 8640000000000000 then Some t else None.

(** Year, month (1-12) and day of the month of a day number, in the
    proleptic Gregorian calendar that YearFromTime, MonthFromTime and
    DateFromTime use. *)
Definition civil_from_days (day : Z) : Z * Z * Z :=
  let z := day + 719468 in
  let era := z / 146097 in
  let doe := z - era * 146097 in
  let yoe := (doe - doe / 1460 + doe / 36524 - doe / 146096) / 365 in
  let doy := doe - (365 * yoe + yoe / 4 - yoe / 100) in
  let mp := (5 * doy + 2) / 153 in
  let d := doy - (153 * mp + 2) / 5 + 1 in
  let m := if mp <? 10 then mp + 3 else mp - 9 in
  let y := yoe + era * 400 in
  (if m <=? 2 then y + 1 else y, m, d).

(** The last [width] decimal digits of [n], as code units. *)
Fixpoint digits (width : nat) (n : Z) : js_string :=
  match width with
  | O => []
  | S width' => digits width' (n / 10) ++ [48 + n mod 10]
  end.

(** The year of [toISOString]: four digits from 0 to 9999, otherwise a
    sign and six digits. *)
Definition iso_year (y : Z) : js_string :=
  if (0 <=? y) && (y <=? 9999) then digits 4 y
  else (if y <? 0 then str "-" else str "+") ++ digits 6 (Z.abs y).

Definition iso_date (day : Z) : js_string :=
  let '(y, m, d) := civil_from_days day in
  iso_year y ++ str "-" ++ digits 2 m ++ str "-" ++ digits 2 d.

(** [d.toISOString().split('T')[0]]: the UTC date of [d]; on the Invalid
    Date [toISOString] throws (a RangeError, kept here by its message). *)
Definition toISOString_date (t : option Z) : completion js_string :=
  match t with
  | Some t => Normal (iso_date (Day t))
  | None => Throw (Error (str "Invalid time value"))
  end.

(** [getTodaysChallengeId], lines 87-90 of [challenge-generator.ts];
    [now] is the value of [new Date()]. *)
Definition getTodaysChallengeId (now : Z) (userId : js_string) : M js_string :=
  today <- lift (toISOString_date (TimeClip now)) ;;
  generateDailyChallenge userId today.

(** [getTodaysChallenge], lines 184-187 of [challenges.ts]. *)
Definition getTodaysChallenge (now : Z) (userId : js_string)
  : M (option CompleteChallenge) :=
  today <- lift (toISOString_date (TimeClip now)) ;;
  getUserChallengeByDate userId today.

(** [date = new Date(today); date.setDate(today.getDate() + i)]: the same
    local time [i] local days later. *)
Definition date_plus (tz : TimeZone) (today i : Z) : option Z :=
  TimeClip (UTC tz (LocalTime tz today + i * msPerDay)).

(** The loop of [getUpcomingChallenges], lines 125-132, from round [i]
    on. *)
Fixpoint upcoming_loop (tz : TimeZone) (today : Z) (userId : js_string)
  (rounds : nat) (i : Z) (challengeIds : list js_string)
  : M (list js_string) :=
  match rounds with
  | O => ret challengeIds
  | S rounds' =>
      dateStr <- lift (toISOString_date (date_plus tz today i)) ;;
      challengeId <- generateDailyChallenge userId dateStr ;;
      upcoming_loop tz today userId rounds' (i + 1) (challengeIds ++ [challengeId])
  end.

(** [getUpcomingChallenges], lines 121-135; [days] is an integer (the
    loop runs while [i < days]). *)
Definition getUpcomingChallenges (tz : TimeZone) (now : Z) (userId : js_string)
  (days : Z) : M (list js_string) :=
  upcoming_loop tz now userId (Z.to_nat days) 0 [].

(** In world [w] the rounds from [i] on find the assignments [ids], one
    after the other, and change nothing. *)
Fixpoint all_found (tz : TimeZone) (today : Z) (userId : js_string) (w : World)
  (i : Z) (ids : list js_string) : Prop :=
  match ids with
  | [] => True
  | id :: rest =>
      (exists dateStr,
         toISOString_date (date_plus tz today i) = Normal dateStr /\
         generateDailyChallenge userId dateStr w = (Normal id, w)) /\
      all_found tz today userId w (i + 1) rest
  end.

End Upcoming.

(** ** The route handlers that call the store *)

Module Routes.

Import Db Challenges Upcoming.
Local Open Scope store_scope.

(** What [NextResponse.json] is given: an error message, or a challenge
    with its template and category. (The two time stamps of the row are
    not part of the model.) *)
Inductive json_body :=
| ErrorBody (error : js_string)
| ChallengeBody (id date title description : js_string) (completed : bool)
    (category : Category).

Record response := {
  status : Z;
  body : json_body
}.

Definition json_error (error : string) (code : Z) : response :=
  {| status := code; body := ErrorBody (str error) |}.

(** [try { ... } catch (error) { return 500 }] around a handler body. *)
Definition try_catch (handler : M response) (message : string)
  : World -> response * World :=
  fun w =>
    match handler w with
    | (Normal r, w') => (r, w')
    | (Throw _, w') => (json_error message 500, w')
    end.

(** The end of the three handlers below: the template and the category
    of the challenge, then the answer. *)
Definition challenge_response (challenge : UserChallenge) : M response :=
  template <- Challenges.getChallengeTemplateById (uc_template_id challenge) ;;
  match template with
  | None => ret (json_error "Challenge template not found" 500)
  | Some template =>
      category <- Challenges.getCategoryById (tpl_category_id template) ;;
      match category with
      | None => ret (json_error "Category not found" 500)
      | Some category =>
          ret {| status := 200;
                 body := ChallengeBody (uc_id challenge) (uc_date challenge)
                           (tpl_title template) (tpl_description template)
                           (uc_completed challenge =? 1) category |}
      end
  end.


(** The body shared by POST and DELETE /api/challenges/complete,
    [complete/route.ts] lines 15-98 and 104-187, after the request body
    is parsed: [challengeId] is the string under that key, [None] when
    there is none; [update] is [completeUserChallenge] or
    [uncompleteUserChallenge]. *)
Definition toggle_handler (update : js_string -> M (option UserChallenge))
  (failed : string) (userId : js_string) (challengeId : option js_string)
  : World -> response * World :=
  try_catch
    (match challengeId with
     | None | Some [] => ret (json_error "Challenge ID is required" 400)
     | Some challengeId =>
         existingChallenge <- getUserChallengeById challengeId ;;
         match existingChallenge with
         | None => ret (json_error "Challenge not found" 404)
         | Some existingChallenge =>
             if negb (js_string_eqb (uc_user_id existingChallenge) userId)
             then ret (json_error "Unauthorized access to this challenge" 403)
             else
               updatedChallenge <- update challengeId ;;
               match updatedChallenge with
               | None => ret (json_error failed 500)
               | Some updatedChallenge => challenge_response updatedChallenge
               end
         end
     end)
    "Internal server error".

Definition POST_complete : js_string -> option js_string -> World -> response * World :=
  toggle_handler completeUserChallenge "Failed to complete challenge".

Definition DELETE_complete : js_string -> option js_string -> World -> response * World :=
  toggle_handler uncompleteUserChallenge "Failed to uncomplete challenge".

End Routes.

(* ===================================================================== *)
(** * Part II: properties                                                 *)
(* ===================================================================== *)

(** ** The selector *)

Section SelectorFacts.

Import Selector.

Lemma ToInt32_range (z : Z) : - 2 ^ 31 <= ToInt32 z < 2 ^ 31.
Proof.
  unfold ToInt32.
  pose proof (Z.mod_pos_bound z (2 ^ 32) ltac:(lia)) as Hm.
  destruct (z mod 2 ^ 32 <? 2 ^ 31) eqn:E.
  - apply Z.ltb_lt in E. lia.
  - apply Z.ltb_ge in E. lia.
Qed.

Lemma ToInt32_signed32 (z : Z) : ToInt32 z = signed32 (z mod 2 ^ 32).
Proof. reflexivity. Qed.

(** ToInt32 moves its argument by a multiple of 2^32. *)
Lemma ToInt32_congruent (z : Z) : exists k, ToInt32 z = z + k * 2 ^ 32.
Proof.
  unfold ToInt32.
  pose proof (Z.div_mod z (2 ^ 32) ltac:(lia)) as Hd.
  destruct (z mod 2 ^ 32 <? 2 ^ 31).
  - exists (- (z / 2 ^ 32)). lia.
  - exists (- (z / 2 ^ 32) - 1). lia.
Qed.

Lemma ToInt32_mod (z : Z) : ToInt32 z mod 2 ^ 32 = z mod 2 ^ 32.
Proof.
  destruct (ToInt32_congruent z) as [k ->].
  apply Z_mod_plus_full.
Qed.

Lemma ToInt32_idempotent (z : Z) : ToInt32 (ToInt32 z) = ToInt32 z.
Proof. rewrite (ToInt32_signed32 (ToInt32 z)), ToInt32_mod. reflexivity. Qed.

Lemma js_and_diag (x : Z) : js_and x x = ToInt32 x.
Proof. unfold js_and. rewrite Z.land_diag. apply ToInt32_idempotent. Qed.

Lemma js_shl_5_mod (x : Z) : js_shl x 5 mod 2 ^ 32 = (x * 32) mod 2 ^ 32.
Proof.
  unfold js_shl. rewrite ToInt32_mod.
  change (5 mod 32) with 5. rewrite Z.shiftl_mul_pow2 by lia.
  destruct (ToInt32_congruent x) as [k ->].
  replace ((x + k * 2 ^ 32) * 2 ^ 5) with (x * 32 + (k * 32) * 2 ^ 32) by lia.
  apply Z_mod_plus_full.
Qed.

(** The shift-and-subtract round is the multiply-by-31 round. *)
Lemma hash_step_spec (hash char : Z) :
  hash_step hash char = spec_hash_step hash char.
Proof.
  unfold hash_step, spec_hash_step. cbv zeta.
  rewrite js_and_diag, ToInt32_signed32. f_equal.
  destruct (ToInt32_congruent (Z.shiftl (ToInt32 hash) (5 mod 32))) as [k Hk].
  destruct (ToInt32_congruent hash) as [j Hj].
  unfold js_shl. rewrite Hk, Hj.
  change (5 mod 32) with 5. rewrite Z.shiftl_mul_pow2 by lia.
  replace ((hash + j * 2 ^ 32) * 2 ^ 5 + k * 2 ^ 32 - hash + char)
    with (hash * 31 + char + (j * 32 + k) * 2 ^ 32) by lia.
  apply Z_mod_plus_full.
Qed.

Lemma hash_loop_from (key : js_string) (h : Z) :
  fold_left hash_step key h = fold_left spec_hash_step key h.
Proof.
  revert h. induction key as [|c key IH]; intro h; simpl.
  - reflexivity.
  - rewrite hash_step_spec. apply IH.
Qed.

Lemma hash_loop_spec (key : js_string) : hash_loop key = spec_hash key.
Proof. apply hash_loop_from. Qed.

(** After every round the hash is a signed 32-bit integer. *)
Lemma hash_step_range (hash char : Z) :
  - 2 ^ 31 <= hash_step hash char < 2 ^ 31.
Proof. unfold hash_step. cbv zeta. rewrite js_and_diag. apply ToInt32_range. Qed.

Lemma hash_loop_range (key : js_string) (h : Z) :
  - 2 ^ 31 <= h < 2 ^ 31 -> - 2 ^ 31 <= fold_left hash_step key h < 2 ^ 31.
Proof.
  revert h. induction key as [|c key IH]; intros h Hh; simpl.
  - exact Hh.
  - apply IH, hash_step_range.
Qed.

(** On code units the sum of line 105 stays far below 2^53, so the
    double-precision arithmetic of the source is exact there. *)
Lemma hash_step_sum_exact (hash char : Z) :
  - 2 ^ 31 <= hash < 2 ^ 31 -> code_unit char ->
  - 2 ^ 53 < (js_shl hash 5 - hash) + char < 2 ^ 53.
Proof.
  intros Hh Hc. unfold code_unit in Hc.
  pose proof (ToInt32_range (Z.shiftl (ToInt32 hash) (5 mod 32))) as Hs.
  unfold js_shl. lia.
Qed.

Lemma js_rem_pos (a n : Z) :
  0 <= a -> 0 < n -> js_rem a n = Num (a mod n) /\ 0 <= a mod n < n.
Proof.
  intros Ha Hn. unfold js_rem.
  destruct (n =? 0) eqn:E; [apply Z.eqb_eq in E; lia|].
  rewrite Z.rem_mod_nonneg by lia.
  split; [reflexivity | apply Z.mod_pos_bound; lia].
Qed.

Lemma getDateBasedIndex_positive (key : js_string) (n : Z) :
  0 < n ->
  getDateBasedIndex key n = Normal (Num (Z.abs (hash_loop key) mod n)) /\
  0 <= Z.abs (hash_loop key) mod n < n.
Proof.
  intro Hn. unfold getDateBasedIndex, Math_abs. cbv zeta.
  destruct (js_rem_pos (Z.abs (hash_loop key)) n (Z.abs_nonneg _) Hn)
    as [-> Hr].
  split; [reflexivity | exact Hr].
Qed.

(** C1: for every key and every n > 0, [getDateBasedIndex] returns an
    integer in [0, n), and calls with the same key and the same n return
    the same result. *)
Theorem getDateBasedIndex_in_range_deterministic (key : js_string) (n : Z) :
  0 < n ->
  (exists r, getDateBasedIndex key n = Normal (Num r) /\ 0 <= r < n) /\
  (forall key' n', key' = key -> n' = n ->
     getDateBasedIndex key' n' = getDateBasedIndex key n).
Proof.
  intro Hn. split.
  - destruct (getDateBasedIndex_positive key n Hn) as [Heq Hr].
    rewrite Heq. eauto.
  - intros key' n' -> ->. reflexivity.
Qed.

Lemma getDateBasedIndex_in_range_deterministic_witness :
  (exists r, getDateBasedIndex (str "2023-01-01") 6 = Normal (Num r)
             /\ 0 <= r < 6) /\
  (forall key' n', key' = str "2023-01-01" -> n' = 6 ->
     getDateBasedIndex key' n' = getDateBasedIndex (str "2023-01-01") 6).
Proof.
  apply (getDateBasedIndex_in_range_deterministic (str "2023-01-01") 6).
  lia.
Defined.

(** C9: for every key and every n > 0 the shift-based loop followed by
    [Math.abs(hash) % n] computes the reference recurrence
    [hash = (hash*31 + code) mod 2^32] with signed 32-bit wraparound
    followed by [abs(hash) mod n]. *)
Theorem getDateBasedIndex_refines_spec_select (key : js_string) (n : Z) :
  0 < n ->
  hash_loop key = spec_hash key /\
  getDateBasedIndex key n = Normal (Num (spec_select key n)).
Proof.
  intro Hn. split; [apply hash_loop_spec|].
  unfold getDateBasedIndex, spec_select, Math_abs. cbv zeta.
  rewrite hash_loop_spec.
  destruct (js_rem_pos (Z.abs (spec_hash key)) n (Z.abs_nonneg _) Hn) as [-> _].
  reflexivity.
Qed.

Lemma getDateBasedIndex_refines_spec_select_witness :
  hash_loop (str "2023-01-01") = spec_hash (str "2023-01-01") /\
  getDateBasedIndex (str "2023-01-01") 6
  = Normal (Num (spec_select (str "2023-01-01") 6)).
Proof.
  apply (getDateBasedIndex_refines_spec_select (str "2023-01-01") 6). lia.
Defined.

(** C5, as the code has it: for a modulus <= 0 [getDateBasedIndex] does
    not fail. It returns NaN for modulus 0 and, for a negative modulus,
    the remainder of [abs(hash)] by it, a number in [0, -modulus). In no
    case is the result in [0, modulus). *)
Theorem getDateBasedIndex_nonpositive_modulus (key : js_string) (n : Z) :
  n <= 0 ->
  (forall e, getDateBasedIndex key n <> Throw e) /\
  (n = 0 -> getDateBasedIndex key n = Normal NaN) /\
  (n < 0 -> exists r, getDateBasedIndex key n = Normal (Num r)
                      /\ 0 <= r < - n) /\
  (forall r, getDateBasedIndex key n = Normal (Num r) -> ~ (0 <= r < n)).
Proof.
  intro Hn. unfold getDateBasedIndex, Math_abs, js_rem. cbv zeta.
  repeat split.
  - intros e H. discriminate H.
  - intros ->. reflexivity.
  - intro Hlt. destruct (n =? 0) eqn:E; [apply Z.eqb_eq in E; lia|].
    eexists. split; [reflexivity|].
    pose proof (Z.abs_nonneg (hash_loop key)) as Ha.
    pose proof (Z.rem_bound_pos (Z.abs (hash_loop key)) (- n) Ha ltac:(lia)) as Hb.
    rewrite Z.rem_opp_r in Hb by lia. exact Hb.
  - intros r _ Hr. lia.
Qed.

Lemma getDateBasedIndex_nonpositive_modulus_witness :
  (forall e, getDateBasedIndex (str "2023-01-01") 0 <> Throw e) /\
  (0 = 0 -> getDateBasedIndex (str "2023-01-01") 0 = Normal NaN) /\
  (0 < 0 -> exists r, getDateBasedIndex (str "2023-01-01") 0 = Normal (Num r)
                      /\ 0 <= r < - 0) /\
  (forall r, getDateBasedIndex (str "2023-01-01") 0 = Normal (Num r)
             -> ~ (0 <= r < 0)).
Proof.
  apply (getDateBasedIndex_nonpositive_modulus (str "2023-01-01") 0). lia.
Defined.

(** C5 as stated fails: with modulus 0 the call returns NaN, it does not
    throw. *)
Lemma selector_returns_NaN_not_error :
  ~ (forall (key : js_string) (n : Z),
       n <= 0 -> exists e, getDateBasedIndex key n = Throw e).
Proof.
  intro H. destruct (H (str "2023-01-01") 0 ltac:(lia)) as [e He].
  discriminate He.
Qed.

End SelectorFacts.

(** ** Array reads *)

Lemma array_get_Some {A : Type} (xs : list A) (k : Z) :
  0 <= k < Z.of_nat (length xs) -> exists x, array_get xs (Num k) = Some x.
Proof.
  intros [H0 H1]. unfold array_get.
  destruct (k <? 0) eqn:E; [apply Z.ltb_lt in E; lia|].
  destruct (nth_error xs (Z.to_nat k)) as [x|] eqn:En; [eauto|].
  apply nth_error_None in En. lia.
Qed.

(** ** The anti-repetition scan *)

Section ScanFacts.

Import Db Selector Generator.

Variable categories : list Category.
Variable recentCategoryIds : list js_string.

Let len : Z := Z.of_nat (length categories).

Local Abbreviation present_at := (Generator.present_at categories recentCategoryIds).
Local Abbreviation absent_at := (Generator.absent_at categories recentCategoryIds).

Lemma array_get_in_bounds (k : Z) :
  0 <= k < len -> exists c, array_get categories (Num k) = Some c.
Proof. apply array_get_Some. Qed.

Lemma array_get_In (k : Z) (c : Category) :
  array_get categories (Num k) = Some c -> In c categories /\ 0 <= k < len.
Proof.
  unfold array_get. destruct (k <? 0) eqn:E; [discriminate|].
  apply Z.ltb_ge in E. intro H. split.
  - eapply nth_error_In; eassumption.
  - assert (Z.to_nat k < length categories)%nat
      by (apply nth_error_Some; congruence).
    unfold len. lia.
Qed.

Lemma In_array_get (c : Category) :
  In c categories -> exists k, 0 <= k < len /\ array_get categories (Num k) = Some c.
Proof.
  intro H. apply In_nth_error in H. destruct H as [n Hn].
  assert (n < length categories)%nat by (apply nth_error_Some; congruence).
  exists (Z.of_nat n). split; [unfold len; lia|].
  unfold array_get. destruct (Z.of_nat n <? 0) eqn:E; [apply Z.ltb_lt in E; lia|].
  rewrite Nat2Z.id. exact Hn.
Qed.

Lemma nextIndex_in_bounds (categoryIndex i : Z) :
  0 < len -> 0 <= categoryIndex -> 0 <= i ->
  nextIndex categoryIndex i len = Num ((categoryIndex + i + 1) mod len) /\
  0 <= (categoryIndex + i + 1) mod len < len.
Proof.
  intros Hl Hc Hi. unfold nextIndex.
  apply js_rem_pos; lia.
Qed.

(** What the loop returns from round [i] on. *)
Lemma scan_from (categoryIndex selected : Z) (remaining : nat) (i : Z) :
  0 < len -> 0 <= categoryIndex -> 0 <= i ->
  i + Z.of_nat remaining = len ->
  (exists k, i <= k < len
     /\ scan categories recentCategoryIds categoryIndex remaining i selected
        = Normal ((categoryIndex + k + 1) mod len)
     /\ absent_at ((categoryIndex + k + 1) mod len)
     /\ forall j, i <= j < k -> present_at ((categoryIndex + j + 1) mod len))
  \/
  (scan categories recentCategoryIds categoryIndex remaining i selected
   = Normal selected
   /\ forall j, i <= j < len -> present_at ((categoryIndex + j + 1) mod len)).
Proof.
  intros Hl Hc. revert i.
  induction remaining as [|remaining IH]; intros i Hi Hsum.
  - right. split; [reflexivity|]. intros j Hj. lia.
  - cbn [scan]. fold len.
    destruct (nextIndex_in_bounds categoryIndex i Hl Hc Hi) as [-> Hb].
    destruct (array_get_in_bounds _ Hb) as [c Hget]. rewrite Hget.
    destruct (set_has recentCategoryIds (cat_id c)) eqn:Hin; cbn [negb].
    + destruct (IH (i + 1) ltac:(lia) ltac:(lia))
        as [(k & Hk & Hscan & Habs & Hbefore) | (Hscan & Hall)].
      * left. exists k.
        split; [lia|]. split; [exact Hscan|]. split; [exact Habs|].
        intros j Hj. destruct (Z.eq_dec j i) as [->|Hne].
        -- exists c. split; assumption.
        -- apply Hbefore. lia.
      * right. split; [assumption|].
        intros j Hj. destruct (Z.eq_dec j i) as [->|Hne].
        -- exists c. split; assumption.
        -- apply Hall. lia.
    + left. exists i.
      split; [lia|]. split; [reflexivity|]. split.
      * exists c. split; assumption.
      * intros j Hj. lia.
Qed.

(** The probed indices cover every index of the array. *)
Lemma probes_cover (categoryIndex m : Z) :
  0 <= m < len ->
  exists j, 0 <= j < len /\ (categoryIndex + j + 1) mod len = m.
Proof.
  intro Hm. exists ((m - categoryIndex - 1) mod len).
  split; [apply Z.mod_pos_bound; lia|].
  rewrite <- Z.add_assoc, (Z.add_comm _ 1), Z.add_assoc.
  rewrite Z.add_mod_idemp_r by lia.
  replace (categoryIndex + 1 + (m - categoryIndex - 1)) with m by lia.
  apply Z.mod_small. exact Hm.
Qed.

(** The index that lines 47-59 end with is an index of the array, and the
    scan of lines 52-58 decides it as follows. *)
Lemma selectCategoryIndex_cases (recentChallenges : list RecentChallenge)
  (base : Z) :
  recentCategoryIds = map rc_category_id recentChallenges ->
  0 <= base < len ->
  exists s,
    selectCategoryIndex categories recentChallenges (Num base) = Normal s /\
    0 <= s < len /\
    (s = base \/
     (present_at base /\ 3 <= Z.of_nat (length recentChallenges) /\
      exists k, 0 <= k < len /\ s = (base + k + 1) mod len /\ absent_at s /\
                forall j, 0 <= j < k -> present_at ((base + j + 1) mod len))) /\
    (present_at base -> 3 <= Z.of_nat (length recentChallenges) ->
     s = base -> forall j, 0 <= j < len -> present_at ((base + j + 1) mod len)).
Proof.
  intros Hids Hb. unfold selectCategoryIndex. cbv zeta. rewrite <- Hids.
  destruct (array_get_in_bounds _ Hb) as [c Hget]. rewrite Hget.
  destruct (set_has recentCategoryIds (cat_id c)) eqn:Hin; cbn [andb].
  - destruct (3 <=? Z.of_nat (length recentChallenges)) eqn:H3.
    + apply Z.leb_le in H3.
      destruct (scan_from base base (length categories) 0)
        as [(k & Hk & Hscan & Habs & Hbefore) | (Hscan & Hall)];
        try (unfold len in *; lia).
      * rewrite Hscan. exists ((base + k + 1) mod len).
        split; [reflexivity|].
        split; [apply Z.mod_pos_bound; lia|].
        split.
        -- right. split; [exists c; split; assumption|].
           split; [exact H3|]. exists k. auto.
        -- intros _ _ Heq j Hj.
           destruct Habs as (c' & Hc' & Habs).
           rewrite Heq, Hget in Hc'. inversion Hc'; subst c'. congruence.
      * rewrite Hscan. exists base. auto.
    + exists base. split; [reflexivity|]. split; [exact Hb|].
      split; [left; reflexivity|].
      intros _ H. apply Z.leb_gt in H3. lia.
  - exists base. split; [reflexivity|]. split; [exact Hb|].
    split; [left; reflexivity|].
    intros (c' & Hc' & Hp). rewrite Hget in Hc'. inversion Hc'; subst c'.
    congruence.
Qed.

End ScanFacts.

(** ** The assigner *)

Section GeneratorFacts.

Import Db Selector Generator.
Local Open Scope store_scope.

Lemma query_run {A} (q : Database -> A) (w : World) :
  query q w = (Normal (q (db w)), w).
Proof. reflexivity. Qed.

Lemma recentChallengesQuery_read_only userId :
  read_only (recentChallengesQuery userId).
Proof. intro w. eexists. reflexivity. Qed.

Lemma getChallengeTemplates_read_only categoryId :
  read_only (getChallengeTemplates categoryId).
Proof. intro w. destruct categoryId; eexists; reflexivity. Qed.

Lemma getUserChallengeByDate_read_only userId date :
  read_only (getUserChallengeByDate userId date).
Proof. intro w. eexists. reflexivity. Qed.

(** The callback once its reads are done: with the recent rows, the
    selected index and its category known, what is left is
    [assignTemplate]. *)
Lemma callback_after_selection userId date w recent s c :
  recentChallengesQuery userId w = (Normal recent, w) ->
  categories (db w) <> [] ->
  (exists ci, getDateBasedIndex date (Z.of_nat (length (categories (db w))))
              = Normal ci
              /\ selectCategoryIndex (categories (db w)) recent ci = Normal s) ->
  array_get (categories (db w)) (Num s) = Some c ->
  generateDailyChallenge_callback userId date w = assignTemplate userId date c w.
Proof.
  intros Hrecent Hne (ci & Hci & Hs) Hc.
  unfold generateDailyChallenge_callback, bind at 1. rewrite Hrecent.
  unfold bind at 1, getCategories. rewrite query_run.
  destruct (Z.of_nat (length (categories (db w))) =? 0) eqn:E.
  - apply Z.eqb_eq in E. destruct (categories (db w)); [congruence|discriminate].
  - unfold bind at 1, lift at 1. rewrite Hci.
    unfold bind at 1, lift at 1. rewrite Hs.
    unfold bind at 1, lift at 1, element. rewrite Hc. reflexivity.
Qed.

Lemma generateDailyChallenge_absent userId date w :
  getUserChallengeByDate userId date w = (Normal None, w) ->
  generateDailyChallenge userId date w
  = transaction (generateDailyChallenge_callback userId date) w.
Proof.
  intro H. unfold generateDailyChallenge, bind at 1. rewrite H. reflexivity.
Qed.

Lemma transaction_ext {A} (c1 c2 : M A) (w : World) :
  c1 w = c2 w -> transaction c1 w = transaction c2 w.
Proof. intro H. unfold transaction. rewrite H. reflexivity. Qed.

(** C2: when no assignment exists for (userId, date), the recent window
    has at least 3 entries and the category at the base index
    [getDateBasedIndex(date, categories.length)] is among the recent
    category ids, the assigner goes on with the first category absent
    from the recent set in the scan from [base + 1] with wraparound; if
    every category is in the recent set it goes on with
    [categories[base]]. *)
Theorem generateDailyChallenge_anti_repetition
  (w : World) (userId date : js_string) (recent : list RecentChallenge)
  (base : Z) (c0 : Category) :
  let cats := categories (db w) in
  let len := Z.of_nat (length cats) in
  let ids := map rc_category_id recent in
  getUserChallengeByDate userId date w = (Normal None, w) ->
  recentChallengesQuery userId w = (Normal recent, w) ->
  (3 <= length recent)%nat ->
  getDateBasedIndex date len = Normal (Num base) ->
  array_get cats (Num base) = Some c0 ->
  set_has ids (cat_id c0) = true ->
  exists s c,
    selectCategoryIndex cats recent (Num base) = Normal s /\
    array_get cats (Num s) = Some c /\
    generateDailyChallenge userId date w
    = transaction (assignTemplate userId date c) w /\
    ((exists c', In c' cats /\ set_has ids (cat_id c') = false) ->
     exists k, 0 <= k < len /\ s = (base + k + 1) mod len /\
               absent_at cats ids s /\
               forall j, 0 <= j < k -> present_at cats ids ((base + j + 1) mod len)) /\
    ((forall c', In c' cats -> set_has ids (cat_id c') = true) ->
     s = base /\ c = c0).
Proof.
  intros cats len ids Hnone Hrecent H3 Hbase Hc0 Hin.
  destruct (array_get_In cats base c0 Hc0) as [Hc0in Hb]. fold len in Hb.
  destruct (selectCategoryIndex_cases cats ids recent base eq_refl Hb)
    as (s & Hsel & Hs & Hcases & Hfallback).
  destruct (array_get_in_bounds cats s Hs) as [c Hc].
  assert (Hp0 : present_at cats ids base) by (exists c0; split; assumption).
  exists s, c. split; [exact Hsel|]. split; [exact Hc|]. split.
  - rewrite (generateDailyChallenge_absent _ _ _ Hnone).
    apply transaction_ext.
    apply (callback_after_selection userId date w recent s c Hrecent).
    + intro Hnil. fold cats in Hnil. rewrite Hnil in Hc0in. exact Hc0in.
    + exists (Num base). split; assumption.
    + exact Hc.
  - split.
    + intros (c' & Hc'in & Hc'abs).
      destruct Hcases as [Heq | (_ & _ & k & Hk & Hsk & Habs & Hbefore)].
      * exfalso.
        destruct (In_array_get cats c' Hc'in) as (m & Hm & Hgetm).
        destruct (probes_cover cats base m Hm) as (j & Hj & Hjm).
        destruct (Hfallback Hp0 ltac:(lia) Heq j Hj) as (c'' & Hget'' & Hp'').
        unfold len in *. rewrite Hjm, Hgetm in Hget''.
        inversion Hget''; subst c''. congruence.
      * exists k. auto.
    + intros Hall.
      destruct Hcases as [Heq | (_ & _ & k & Hk & Hsk & Habs & Hbefore)].
      * subst s. split; [reflexivity | congruence].
      * exfalso. destruct Habs as (c' & Hget' & Habs).
        destruct (array_get_In cats s c' Hget') as [Hin' _].
        rewrite (Hall c' Hin') in Habs. discriminate.
Qed.

Lemma generateDailyChallenge_anti_repetition_witness :
  let w := Samples.three_categories in
  let recent := Samples.recent_of w in
  let cats := categories (db w) in
  let ids := map rc_category_id recent in
  exists s c,
    selectCategoryIndex cats recent (Num 0) = Normal s /\
    array_get cats (Num s) = Some c /\
    generateDailyChallenge (str "user-1") (str "2023-01-04") w
    = transaction (assignTemplate (str "user-1") (str "2023-01-04") c) w /\
    ((exists c', In c' cats /\ set_has ids (cat_id c') = false) ->
     exists k, 0 <= k < 3 /\ s = (0 + k + 1) mod 3 /\
               absent_at cats ids s /\
               forall j, 0 <= j < k -> present_at cats ids ((0 + j + 1) mod 3)) /\
    ((forall c', In c' cats -> set_has ids (cat_id c') = true) ->
     s = 0 /\ c = Samples.category "A" "Art").
Proof.
  apply (generateDailyChallenge_anti_repetition Samples.three_categories
           (str "user-1") (str "2023-01-04")
           (Samples.recent_of Samples.three_categories) 0
           (Samples.category "A" "Art")).
  - reflexivity.
  - reflexivity.
  - vm_compute. lia.
  - reflexivity.
  - reflexivity.
  - reflexivity.
Defined.

(** The two scenarios of the specification: with categories A, B, C and a
    recent window A, A, A a base index at A moves on to B; with
    categories A, B both in the recent window it stays at A. *)
Example selectCategoryIndex_three_categories :
  getDateBasedIndex (str "2023-01-04") 3 = Normal (Num 0) /\
  selectCategoryIndex (categories (db Samples.three_categories))
    (Samples.recent_of Samples.three_categories) (Num 0) = Normal 1.
Proof. split; reflexivity. Qed.

Example selectCategoryIndex_two_categories :
  getDateBasedIndex (str "2023-01-04") 2 = Normal (Num 0) /\
  selectCategoryIndex (categories (db Samples.two_categories))
    (Samples.recent_of Samples.two_categories) (Num 0) = Normal 0.
Proof. split; reflexivity. Qed.

(** C10: with a non-empty category list and a non-empty template list
    for the selected category, every array access of
    [generateDailyChallenge] is in bounds: the base category index, each
    index [(categoryIndex + i + 1) % categories.length] probed by the scan,
    the selected category index and the template index; each access
    yields an element, and the callback goes on to [createUserChallenge]
    with the template read. *)
Theorem generateDailyChallenge_accesses_in_bounds
  (w : World) (userId date : js_string) :
  let cats := categories (db w) in
  let len := Z.of_nat (length cats) in
  cats <> [] ->
  exists recent base s c,
    recentChallengesQuery userId w = (Normal recent, w) /\
    getDateBasedIndex date len = Normal (Num base) /\
    0 <= base < len /\
    (exists c0, array_get cats (Num base) = Some c0) /\
    (forall i, 0 <= i < len ->
       exists k c', nextIndex base i len = Num k /\ 0 <= k < len
                    /\ array_get cats (Num k) = Some c') /\
    selectCategoryIndex cats recent (Num base) = Normal s /\
    0 <= s < len /\
    array_get cats (Num s) = Some c /\
    forall templates,
      getChallengeTemplates (cat_id c) w = (Normal templates, w) ->
      templates <> [] ->
      exists t selectedTemplate,
        getDateBasedIndex (date ++ cat_id c) (Z.of_nat (length templates))
        = Normal (Num t) /\
        0 <= t < Z.of_nat (length templates) /\
        array_get templates (Num t) = Some selectedTemplate /\
        generateDailyChallenge_callback userId date w
        = (userChallenge <- createUserChallenge userId (tpl_id selectedTemplate) date ;;
           return_id userChallenge) w.
Proof.
  intros cats len Hne.
  assert (Hlen : 0 < len).
  { unfold len. destruct cats; [congruence | cbn [length]; lia]. }
  destruct (recentChallengesQuery_read_only userId w) as [recent Hrecent].
  destruct (getDateBasedIndex_positive date len Hlen) as [Hbase Hb].
  set (base := Z.abs (hash_loop date) mod len) in *.
  destruct (selectCategoryIndex_cases cats (map rc_category_id recent) recent
              base eq_refl Hb) as (s & Hsel & Hs & _).
  destruct (array_get_in_bounds cats s Hs) as [c Hc].
  exists recent, base, s, c.
  split; [exact Hrecent|]. split; [exact Hbase|]. split; [exact Hb|].
  split; [apply array_get_in_bounds; exact Hb|].
  split.
  { intros i Hi.
    destruct (nextIndex_in_bounds cats base i Hlen ltac:(lia) ltac:(lia))
      as [Hn Hk].
    destruct (array_get_in_bounds cats _ Hk) as [c' Hc'].
    eexists _, c'. split; [exact Hn|]. split; [exact Hk | exact Hc']. }
  split; [exact Hsel|]. split; [exact Hs|]. split; [exact Hc|].
  intros templates Htemplates Htne.
  assert (Htlen : 0 < Z.of_nat (length templates)).
  { destruct templates; [congruence | cbn [length]; lia]. }
  destruct (getDateBasedIndex_positive (date ++ cat_id c) _ Htlen) as [Ht Htb].
  destruct (array_get_Some templates _ Htb) as [tpl Htpl].
  eexists _, tpl. split; [exact Ht|]. split; [exact Htb|]. split; [exact Htpl|].
  rewrite (callback_after_selection userId date w recent s c Hrecent Hne).
  - unfold assignTemplate, bind at 1. rewrite Htemplates.
    destruct (Z.of_nat (length templates) =? 0) eqn:E;
      [apply Z.eqb_eq in E; lia|].
    unfold bind at 1, lift at 1. rewrite Ht.
    unfold bind at 1, lift at 1, element. rewrite Htpl. reflexivity.
  - exists (Num base). split; assumption.
  - exact Hc.
Qed.

Lemma generateDailyChallenge_accesses_in_bounds_witness :
  exists base s t,
    getDateBasedIndex (str "2023-01-04") 3 = Normal (Num base) /\
    0 <= base < 3 /\ 0 <= s < 3 /\ 0 <= t < 1.
Proof.
  destruct (generateDailyChallenge_accesses_in_bounds Samples.three_categories
              (str "user-1") (str "2023-01-04") ltac:(discriminate))
    as (recent & base & s & c & Hrecent & Hbase & Hb & _ & _ & Hsel & Hs & Hc
        & Htemplates).
  assert (Hr : recent = Samples.recent_of Samples.three_categories)
    by (vm_compute in Hrecent; inversion Hrecent; reflexivity).
  assert (Hb0 : base = 0)
    by (vm_compute in Hbase; inversion Hbase; reflexivity).
  subst recent base.
  assert (Hs1 : s = 1) by (vm_compute in Hsel; inversion Hsel; reflexivity).
  subst s.
  assert (Hcb : c = Samples.category "B" "Books")
    by (vm_compute in Hc; inversion Hc; reflexivity).
  subst c.
  destruct (Htemplates [Samples.template "tB" "B"] eq_refl ltac:(discriminate))
    as (t & selectedTemplate & _ & Ht & _).
  exists 0, 1, t. split; [exact Hbase|]. split; [exact Hb|].
  split; [exact Hs | exact Ht].
Defined.

End GeneratorFacts.

(** ** Creation, idempotence and the uniqueness constraint *)

Section CreationFacts.

Import Db Selector Generator.
Local Open Scope store_scope.

Lemma js_string_eqb_eq (a b : js_string) : js_string_eqb a b = true <-> a = b.
Proof.
  revert b. induction a as [|x a IH]; intros [|y b]; simpl;
    try (split; [discriminate | congruence]).
  - split; reflexivity.
  - rewrite andb_true_iff, Z.eqb_eq, IH. split.
    + intros [-> ->]. reflexivity.
    + intro H. inversion H. auto.
Qed.

Lemma js_string_eqb_refl (a : js_string) : js_string_eqb a a = true.
Proof. apply js_string_eqb_eq. reflexivity. Qed.

Lemma existsb_false_filter {A} (f : A -> bool) (l : list A) :
  existsb f l = false -> filter f l = [].
Proof.
  induction l as [|x l IH]; simpl; [reflexivity|].
  intro H. apply orb_false_iff in H. destruct H as [Hx Hl].
  rewrite Hx. auto.
Qed.

Lemma bind_Normal {A B} (c : M A) (k : A -> M B) w v w' :
  bind c k w = (Normal v, w') ->
  exists x w0, c w = (Normal x, w0) /\ k x w0 = (Normal v, w').
Proof.
  unfold bind. destruct (c w) as [[x|e] w0]; intro H.
  - eauto.
  - discriminate.
Qed.

Lemma transaction_Normal {A} (c : M A) w v w' :
  transaction c w = (Normal v, w') -> c w = (Normal v, w').
Proof.
  unfold transaction. destruct (c w) as [[x|e] w0]; intro H.
  - exact H.
  - discriminate.
Qed.

Lemma transaction_Throw {A} (c : M A) w e w0 :
  c w = (Throw e, w0) ->
  transaction c w = (Throw e, with_db w0 (db w)).
Proof. intro H. unfold transaction. rewrite H. reflexivity. Qed.

Lemma lift_Normal {A} (c : completion A) w v w' :
  lift c w = (Normal v, w') -> c = Normal v /\ w' = w.
Proof. unfold lift. intro H. inversion H. auto. Qed.

Lemma read_only_Normal {A} (c : M A) w v w' :
  read_only c -> c w = (Normal v, w') -> w' = w.
Proof. intros Hr H. destruct (Hr w) as [x Hx]. congruence. Qed.

Lemma insert_user_challenge_Normal id userId templateId date w w' :
  insert_user_challenge id userId templateId date w = (Normal tt, w') ->
  has_id (db w) id = false /\
  has_assignment (db w) userId date = false /\
  existsb (fun ct => js_string_eqb (tpl_id ct) templateId)
          (challenge_templates (db w)) = true /\
  user_challenges (db w')
  = user_challenges (db w) ++ [new_row id userId templateId date] /\
  categories (db w') = categories (db w) /\
  challenge_templates (db w') = challenge_templates (db w) /\
  insert_calls w' = S (insert_calls w).
Proof.
  unfold insert_user_challenge. cbv zeta.
  destruct (has_id (db w) id); [discriminate|].
  destruct (has_assignment (db w) userId date); [discriminate|].
  destruct (existsb (fun u => js_string_eqb u userId) (users (db w)));
    cbn [negb orb]; [|discriminate].
  destruct (existsb (fun ct => js_string_eqb (tpl_id ct) templateId)
                    (challenge_templates (db w))); cbn [negb]; [|discriminate].
  intro H. inversion H; subst w'. cbn. auto 10.
Qed.

(** With a row for (userId, date) in the table the INSERT throws, and
    what it throws is the uniqueness violation unless the new id clashes
    too. *)
Lemma insert_user_challenge_existing id userId templateId date w :
  has_assignment (db w) userId date = true ->
  exists code w',
    insert_user_challenge id userId templateId date w
    = (Throw (SqliteError code), w') /\
    db w' = db w /\
    insert_calls w' = S (insert_calls w) /\
    (has_id (db w) id = false -> code = SQLITE_CONSTRAINT_UNIQUE).
Proof.
  intro H. unfold insert_user_challenge. cbv zeta. rewrite H.
  destruct (has_id (db w) id).
  - eexists _, _. split; [reflexivity|]. cbn. auto using eq_refl.
    repeat split. discriminate.
  - eexists _, _. split; [reflexivity|]. cbn. repeat split.
Qed.

Lemma find_app_absent {A} (f : A -> bool) (l l' : list A) :
  existsb f l = false -> find f (l ++ l') = find f l'.
Proof.
  induction l as [|x l IH]; simpl; [reflexivity|].
  intro H. apply orb_false_iff in H. destruct H as [-> Hl]. auto.
Qed.

Lemma hd_error_In {A} (l : list A) :
  l <> [] -> exists x, hd_error l = Some x /\ In x l.
Proof. destruct l as [|x l]; [congruence|]. intros _. exists x. simpl. auto. Qed.

(** What a successful [createUserChallenge] has done. *)
Lemma createUserChallenge_Normal userId templateId date w r w1 :
  createUserChallenge userId templateId date w = (Normal r, w1) ->
  let id := random w (drawn w) in
  r = Some (new_row id userId templateId date) /\
  has_assignment (db w) userId date = false /\
  existsb (fun ct => js_string_eqb (tpl_id ct) templateId)
          (challenge_templates (db w)) = true /\
  user_challenges (db w1)
  = user_challenges (db w) ++ [new_row id userId templateId date] /\
  categories (db w1) = categories (db w) /\
  challenge_templates (db w1) = challenge_templates (db w) /\
  insert_calls w1 = S (insert_calls w).
Proof.
  intros H id. unfold createUserChallenge in H.
  apply bind_Normal in H. destruct H as (id' & w0 & Hgen & H).
  unfold generateId in Hgen. inversion Hgen; subst id' w0. clear Hgen.
  fold id in H.
  apply transaction_Normal, bind_Normal in H.
  destruct H as ([] & w0' & Hins & Hget).
  apply insert_user_challenge_Normal in Hins. cbn [db insert_calls] in Hins.
  destruct Hins as (Hid & Hnone & Htpl & Hrows & Hcats & Htpls & Hcount).
  unfold getUserChallengeById in Hget. rewrite query_run in Hget.
  inversion Hget; subst w1. clear Hget.
  split.
  - rewrite Hrows, find_app_absent by exact Hid.
    cbn. rewrite js_string_eqb_refl. reflexivity.
  - auto 10.
Qed.

(** With a row for (userId, date) in the table [createUserChallenge]
    throws a constraint error and leaves the table as it was. *)
Lemma createUserChallenge_existing userId templateId date w :
  has_assignment (db w) userId date = true ->
  exists code w',
    createUserChallenge userId templateId date w
    = (Throw (SqliteError code), w') /\
    db w' = db w /\
    insert_calls w' = S (insert_calls w) /\
    (has_id (db w) (random w (drawn w)) = false ->
     code = SQLITE_CONSTRAINT_UNIQUE).
Proof.
  intro H. unfold createUserChallenge, bind at 1, generateId.
  set (w0 := {| db := db w; random := random w; drawn := S (drawn w);
                insert_calls := insert_calls w |}).
  destruct (insert_user_challenge_existing (random w (drawn w)) userId
              templateId date w0 H) as (code & w' & Hins & Hdb & Hcount & Hcode).
  exists code, (with_db w' (db w0)).
  split.
  - apply transaction_Throw. unfold bind. rewrite Hins. reflexivity.
  - cbn. auto.
Qed.

(** After a successful creation the lookup by (userId, date) finds the
    new row. *)
Lemma getUserChallengeByDate_after_create userId templateId date w r w1 :
  templates_reference_categories (db w) ->
  createUserChallenge userId templateId date w = (Normal r, w1) ->
  exists c, getUserChallengeByDate userId date w1 = (Normal (Some c), w1)
            /\ cc_id c = random w (drawn w).
Proof.
  intros Hfk H. apply createUserChallenge_Normal in H. cbv zeta in H.
  destruct H as (_ & Hnone & Htpl & Hrows & Hcats & Htpls & _).
  set (id := random w (drawn w)) in *.
  set (row := new_row id userId templateId date) in *.
  unfold getUserChallengeByDate. rewrite query_run.
  rewrite Hrows, filter_app.
  unfold has_assignment in Hnone.
  rewrite (existsb_false_filter _ _ Hnone). cbn [app filter].
  replace (js_string_eqb (uc_user_id row) userId
           && js_string_eqb (uc_date row) date) with true
    by (cbn; rewrite !js_string_eqb_refl; reflexivity).
  cbn [flat_map]. rewrite app_nil_r.
  assert (Hne : join_template_category (db w1) row <> []).
  { apply existsb_exists in Htpl. destruct Htpl as (ct & Hct & Heq).
    apply js_string_eqb_eq in Heq.
    destruct (Hfk ct Hct) as (c & Hc & Hcid).
    intro Hnil.
    assert (Hin : In {| cc_id := uc_id row; cc_date := uc_date row;
                        cc_completed := uc_completed row;
                        cc_title := tpl_title ct;
                        cc_description := tpl_description ct;
                        cc_category_id := cat_id c;
                        cc_category_name := cat_name c |}
                     (join_template_category (db w1) row)).
    { unfold join_template_category. apply in_flat_map. exists ct. split.
      - apply filter_In. rewrite Htpls. split; [exact Hct|].
        apply js_string_eqb_eq. cbn. symmetry. exact Heq.
      - apply in_map_iff. exists c. split; [reflexivity|].
        apply filter_In. rewrite Hcats. split; [exact Hc|].
        apply js_string_eqb_eq. symmetry. exact Hcid. }
    rewrite Hnil in Hin. exact Hin. }
  destruct (hd_error_In _ Hne) as (x & Hhd & Hx).
  exists x. rewrite Hhd. split; [reflexivity|].
  unfold join_template_category in Hx. apply in_flat_map in Hx.
  destruct Hx as (ct & _ & Hx). apply in_map_iff in Hx.
  destruct Hx as (c & <- & _). reflexivity.
Qed.

(** A callback that returns has created the assignment whose id it
    returns, by a call of [createUserChallenge] in the world it started
    in. *)
Lemma callback_Normal userId date w id w1 :
  generateDailyChallenge_callback userId date w = (Normal id, w1) ->
  exists templateId r,
    createUserChallenge userId templateId date w = (Normal r, w1) /\
    exists uc, r = Some uc /\ uc_id uc = id.
Proof.
  intro H. unfold generateDailyChallenge_callback in H.
  apply bind_Normal in H. destruct H as (recent & w0 & Hq & H).
  apply (read_only_Normal _ _ _ _ (recentChallengesQuery_read_only userId)) in Hq.
  subst w0.
  apply bind_Normal in H. destruct H as (cats & w0 & Hq & H).
  unfold getCategories in Hq. rewrite query_run in Hq.
  inversion Hq; subst cats w0. clear Hq.
  destruct (Z.of_nat (length (categories (db w))) =? 0); [discriminate|].
  apply bind_Normal in H. destruct H as (ci & w0 & Hq & H).
  apply lift_Normal in Hq. destruct Hq as [_ ->].
  apply bind_Normal in H. destruct H as (s & w0 & Hq & H).
  apply lift_Normal in Hq. destruct Hq as [_ ->].
  apply bind_Normal in H. destruct H as (c & w0 & Hq & H).
  apply lift_Normal in Hq. destruct Hq as [_ ->].
  unfold assignTemplate in H.
  apply bind_Normal in H. destruct H as (templates & w0 & Hq & H).
  apply (read_only_Normal _ _ _ _ (getChallengeTemplates_read_only _)) in Hq.
  subst w0.
  destruct (Z.of_nat (length templates) =? 0); [discriminate|].
  apply bind_Normal in H. destruct H as (ti & w0 & Hq & H).
  apply lift_Normal in Hq. destruct Hq as [_ ->].
  apply bind_Normal in H. destruct H as (tpl & w0 & Hq & H).
  apply lift_Normal in Hq. destruct Hq as [_ ->].
  apply bind_Normal in H. destruct H as (r & w2 & Hcreate & H).
  destruct r as [uc|]; [|discriminate].
  unfold return_id, ret in H. inversion H; subst id w2.
  exists (tpl_id tpl), (Some uc). split; [exact Hcreate | eauto].
Qed.

(** C3: [generateDailyChallenge] is idempotent. An existing assignment
    for (userId, date) is returned at once: its id is the result and the
    world is untouched, so nothing later runs. Hence, starting without an
    assignment, a second call after a first one that returned gives the
    same id, and the two calls together run exactly one INSERT. *)
Theorem generateDailyChallenge_idempotent (userId date : js_string) :
  (forall w c,
     getUserChallengeByDate userId date w = (Normal (Some c), w) ->
     generateDailyChallenge userId date w = (Normal (cc_id c), w)) /\
  (forall w id w1,
     templates_reference_categories (db w) ->
     getUserChallengeByDate userId date w = (Normal None, w) ->
     generateDailyChallenge userId date w = (Normal id, w1) ->
     exists w2,
       generateDailyChallenge userId date w1 = (Normal id, w2) /\
       w2 = w1 /\
       insert_calls w2 = S (insert_calls w)).
Proof.
  split.
  - intros w c H. unfold generateDailyChallenge, bind. rewrite H. reflexivity.
  - intros w id w1 Hfk Hnone H.
    rewrite (generateDailyChallenge_absent _ _ _ Hnone) in H.
    apply transaction_Normal, callback_Normal in H.
    destruct H as (templateId & r & Hcreate & uc & -> & Hid).
    destruct (getUserChallengeByDate_after_create _ _ _ _ _ _ Hfk Hcreate)
      as (c & Hget & Hc).
    apply createUserChallenge_Normal in Hcreate. cbv zeta in Hcreate.
    destruct Hcreate as (Hrow & _ & _ & _ & _ & _ & Hcount).
    inversion Hrow; subst uc. cbn in Hid.
    exists w1. split; [|split; [reflexivity | exact Hcount]].
    unfold generateDailyChallenge, bind. rewrite Hget. unfold ret.
    congruence.
Qed.

Lemma generateDailyChallenge_idempotent_witness :
  let w := Samples.three_categories in
  let w1 := snd (generateDailyChallenge (str "user-1") (str "2023-01-04") w) in
  exists w2,
    generateDailyChallenge (str "user-1") (str "2023-01-04") w1
    = (Normal (str "challenge-0"), w2) /\
    w2 = w1 /\
    insert_calls w2 = S (insert_calls w).
Proof.
  intros w w1.
  apply (proj2 (generateDailyChallenge_idempotent (str "user-1")
                  (str "2023-01-04")) w (str "challenge-0") w1).
  - intros ct Hct. cbn in Hct.
    destruct Hct as [<- | [<- | [<- | []]]];
      [exists (Samples.category "A" "Art")
      |exists (Samples.category "B" "Books")
      |exists (Samples.category "C" "Cooking")];
      (split; [cbn; auto | reflexivity]).
  - vm_compute. reflexivity.
  - vm_compute. reflexivity.
Defined.

(** C4, as the code has it: when a row for (userId, date) is already in
    the table, the INSERT of [createUserChallenge] fails, with the
    uniqueness violation unless the fresh id clashes as well;
    [createUserChallenge] and the callback of [generateDailyChallenge]
    let the error through to the caller and the transaction leaves the
    database as it was. Nothing is fetched again. *)
Theorem unique_violation_is_propagated (w : World) (userId date : js_string) :
  has_assignment (db w) userId date = true ->
  (forall templateId, exists code w',
     createUserChallenge userId templateId date w
     = (Throw (SqliteError code), w') /\
     db w' = db w /\
     (has_id (db w) (random w (drawn w)) = false ->
      code = SQLITE_CONSTRAINT_UNIQUE)) /\
  (exists e w',
     transaction (generateDailyChallenge_callback userId date) w = (Throw e, w')
     /\ db w' = db w) /\
  (forall selectedTemplate,
     generateDailyChallenge_callback userId date w
     = (userChallenge <- createUserChallenge userId (tpl_id selectedTemplate) date ;;
        return_id userChallenge) w ->
     has_id (db w) (random w (drawn w)) = false ->
     exists w',
       transaction (generateDailyChallenge_callback userId date) w
       = (Throw (SqliteError SQLITE_CONSTRAINT_UNIQUE), w')
       /\ db w' = db w).
Proof.
  intro Hrow. split; [|split].
  - intro templateId.
    destruct (createUserChallenge_existing userId templateId date w Hrow)
      as (code & w' & H & Hdb & _ & Hcode).
    exists code, w'. auto.
  - destruct (generateDailyChallenge_callback userId date w) as [[id|e] w0] eqn:H.
    + exfalso. apply callback_Normal in H.
      destruct H as (templateId & r & Hcreate & _).
      apply createUserChallenge_Normal in Hcreate. cbv zeta in Hcreate.
      destruct Hcreate as (_ & Hnone & _). congruence.
    + exists e, (with_db w0 (db w)). split; [|reflexivity].
      apply transaction_Throw. exact H.
  - intros tpl Hcallback Hfresh.
    destruct (createUserChallenge_existing userId (tpl_id tpl) date w Hrow)
      as (code & w' & H & Hdb & _ & Hcode).
    rewrite (Hcode Hfresh) in H.
    exists (with_db w' (db w)). split; [|reflexivity].
    apply transaction_Throw. rewrite Hcallback. unfold bind. rewrite H.
    reflexivity.
Qed.

Lemma unique_violation_is_propagated_witness :
  exists e w',
    transaction (generateDailyChallenge_callback (str "user-1") (str "2023-01-04"))
      Samples.three_categories_raced = (Throw e, w')
    /\ db w' = db Samples.three_categories_raced.
Proof.
  apply (unique_violation_is_propagated Samples.three_categories_raced
           (str "user-1") (str "2023-01-04")).
  vm_compute. reflexivity.
Defined.

(** C4 as stated fails. The check of line 14 finds no assignment of
    user-1 for 2023-01-04; another process commits one (id "other")
    before the transaction starts; the INSERT then violates the
    uniqueness constraint and the transaction ends with that error, not
    with the id of the existing assignment. *)
Lemma unique_violation_not_recovered :
  let userId := str "user-1" in
  let date := str "2023-01-04" in
  getUserChallengeByDate userId date Samples.three_categories
  = (Normal None, Samples.three_categories) /\
  (exists c, fst (getUserChallengeByDate userId date Samples.three_categories_raced)
             = Normal (Some c) /\ cc_id c = str "other") /\
  fst (createUserChallenge userId (str "tB") date Samples.three_categories_raced)
  = Throw (SqliteError SQLITE_CONSTRAINT_UNIQUE) /\
  fst (transaction (generateDailyChallenge_callback userId date)
         Samples.three_categories_raced)
  = Throw (SqliteError SQLITE_CONSTRAINT_UNIQUE) /\
  fst (transaction (generateDailyChallenge_callback userId date)
         Samples.three_categories_raced)
  <> Normal (str "other").
Proof.
  cbv zeta. split; [vm_compute; reflexivity|]. split.
  - eexists. split; vm_compute; reflexivity.
  - split; [vm_compute; reflexivity|].
    split; [vm_compute; reflexivity | vm_compute; discriminate].
Qed.

End CreationFacts.

(** ** The statistics *)

Section StatisticsFacts.

Import JsDate Statistics.

(** *** Time zones with a constant offset *)

Lemma setHours_0_fixed_offset (offset d : Z) :
  setHours_0 (fixed_offset offset) (new_Date d)
  = (d + offset / msPerDay) * msPerDay - offset.
Proof.
  unfold setHours_0, UTC, LocalTime, Day, new_Date, fixed_offset.
  cbn [LocalTZA_utc LocalTZA_local].
  rewrite Z.div_add_l by (unfold msPerDay; lia). reflexivity.
Qed.

Lemma setHours_0_utc (d : Z) : setHours_0 utc (new_Date d) = new_Date d.
Proof.
  unfold utc. rewrite setHours_0_fixed_offset.
  unfold new_Date, msPerDay. rewrite Z.div_0_l by lia. lia.
Qed.

Lemma setDate_previous_utc (d : Z) :
  setDate_previous utc (new_Date d) = new_Date (d - 1).
Proof.
  unfold setDate_previous, UTC, LocalTime, utc, fixed_offset, new_Date.
  cbn [LocalTZA_utc LocalTZA_local]. lia.
Qed.

Lemma new_Date_eqb (d e : Z) : (new_Date d =? new_Date e) = (d =? e).
Proof.
  unfold new_Date, msPerDay.
  destruct (Z.eqb_spec d e), (Z.eqb_spec (d * 86400000) (e * 86400000));
    try reflexivity; lia.
Qed.

Lemma new_Date_ltb (d e : Z) : (new_Date d <? new_Date e) = (d <? e).
Proof.
  unfold new_Date, msPerDay.
  destruct (Z.ltb_spec d e), (Z.ltb_spec (d * 86400000) (e * 86400000));
    try reflexivity; lia.
Qed.

(** *** The current streak when the host runs in UTC *)

Lemma streak_loop_utc (rows : list Challenge) (expected streak : Z) :
  streak_loop utc rows (new_Date expected) streak
  = spec_walk expected streak rows.
Proof.
  revert expected streak.
  induction rows as [|a rows IH]; intros expected streak; cbn [streak_loop spec_walk].
  - reflexivity.
  - rewrite setHours_0_utc, new_Date_eqb, new_Date_ltb, setDate_previous_utc.
    destruct (date a =? expected); cbn [andb].
    + destruct (truthy (completed a)); cbn [negb]; [apply IH | reflexivity].
    + destruct (date a <? expected); [reflexivity | apply IH].
Qed.

(** In UTC [calculateCurrentStreak] is the reference definition, with the
    UTC day of [now] as today. *)
Lemma calculateCurrentStreak_utc (now : Z) (history : list Challenge) :
  calculateCurrentStreak utc now history = spec_currentStreak (Day now) history.
Proof.
  unfold calculateCurrentStreak, spec_currentStreak. cbv zeta.
  destruct (firstn 100 history) as [|mostRecent rest]; [reflexivity|].
  assert (Htoday : setHours_0 utc now = new_Date (Day now)).
  { unfold setHours_0, UTC, LocalTime, utc, fixed_offset, new_Date.
    cbn [LocalTZA_utc LocalTZA_local]. rewrite Z.add_0_r. lia. }
  assert (Hstr : local_date_string utc (setHours_0 utc now) = Day now).
  { rewrite Htoday. unfold local_date_string, LocalTime, utc, fixed_offset,
      new_Date, Day. cbn [LocalTZA_utc]. rewrite Z.add_0_r.
    apply Z.div_mul. unfold msPerDay. lia. }
  rewrite Hstr, Htoday, setDate_previous_utc.
  destruct (truthy (completed mostRecent)) eqn:Hdone;
    destruct (date mostRecent =? Day now) eqn:Hd; cbn [negb andb];
    try reflexivity.
  - apply streak_loop_utc.
  - rewrite streak_loop_utc. cbn [spec_walk].
    rewrite Z.eqb_refl, Hdone. reflexivity.
Qed.

(** Away from UTC the first branch compares a normalised date with one
    that is not: whatever the history, the streak is 0 when the most
    recent assignment is not dated today. *)
Lemma calculateCurrentStreak_not_today_fixed_offset
  (offset now : Z) (history : list Challenge) (mostRecent : Challenge) :
  offset <> 0 -> - msPerDay < offset < msPerDay ->
  hd_error history = Some mostRecent ->
  date mostRecent
  <> local_date_string (fixed_offset offset)
       (setHours_0 (fixed_offset offset) now) ->
  calculateCurrentStreak (fixed_offset offset) now history = 0.
Proof.
  intros Hne Hoff Hhd Hdate. unfold calculateCurrentStreak. cbv zeta.
  destruct history as [|a rest]; [discriminate|].
  cbn in Hhd. inversion Hhd; subst a. clear Hhd.
  cbn [firstn].
  apply Z.eqb_neq in Hdate. rewrite Hdate. cbn [negb andb].
  destruct (truthy (completed mostRecent)) eqn:Hdone; [|reflexivity].
  cbn [streak_loop]. rewrite setHours_0_fixed_offset, Hdone. cbn [andb negb].
  assert (Hlt : (date mostRecent + offset / msPerDay) * msPerDay - offset
                < new_Date (date mostRecent)).
  { unfold new_Date, msPerDay in *.
    destruct (Z_lt_le_dec offset 0) as [Hneg | Hpos].
    - replace (offset / 86400000) with (-1)
        by (apply Z.div_unique with (r := offset + 86400000); lia).
      lia.
    - rewrite Z.div_small by lia. lia. }
  replace ((date mostRecent + offset / msPerDay) * msPerDay - offset
           =? new_Date (date mostRecent)) with false
    by (symmetry; apply Z.eqb_neq; lia).
  cbn [andb].
  apply Z.ltb_lt in Hlt. rewrite Hlt. reflexivity.
Qed.

(** *** The longest streak in a zone with a constant offset *)

Lemma previous_day_fixed_offset (offset p d : Z) :
  (setHours_0 (fixed_offset offset) (new_Date p)
   =? setHours_0 (fixed_offset offset) (new_Date d) - 86400000)
  = (p =? d - 1).
Proof.
  rewrite !setHours_0_fixed_offset. unfold msPerDay.
  destruct (Z.eqb_spec p (d - 1)) as [-> | Hne].
  - apply Z.eqb_eq. lia.
  - apply Z.eqb_neq. lia.
Qed.

Lemma longer_is_max (run best : Z) :
  (if run >? best then run else best) = Z.max best run.
Proof. destruct (Z.gtb_spec run best); lia. Qed.

Lemma longest_loop_fixed_offset (offset : Z) (rows : list Challenge)
  (currentRun best : Z) (previous : option Z) :
  longest_loop (fixed_offset offset) rows currentRun best
    (option_map (fun d => setHours_0 (fixed_offset offset) (new_Date d)) previous)
  = snd (fst (fold_left spec_longest_step rows (currentRun, best, previous))).
Proof.
  revert currentRun best previous.
  induction rows as [|a rows IH]; intros currentRun best previous.
  - reflexivity.
  - cbn [longest_loop fold_left]. unfold spec_longest_step at 2.
    destruct (truthy (completed a)).
    + rewrite longer_is_max.
      destruct previous as [p|]; cbn [option_map].
      * rewrite previous_day_fixed_offset.
        apply (IH _ _ (Some (date a))).
      * apply (IH _ _ (Some (date a))).
    + apply (IH 0 best None).
Qed.

(** With a constant offset [calculateLongestStreak] is the reference
    fold. *)
Lemma calculateLongestStreak_fixed_offset (offset : Z) (rows : list Challenge) :
  calculateLongestStreak (fixed_offset offset) rows = spec_longestStreak rows.
Proof.
  unfold calculateLongestStreak, spec_longestStreak.
  destruct rows as [|a rows]; [reflexivity|].
  apply (longest_loop_fixed_offset offset (a :: rows) 0 0 None).
Qed.

(** *** The scenarios of the specification, host in UTC *)

Example calculateCurrentStreak_no_assignments :
  calculateCurrentStreak utc Samples.noon_2024_01_10 [] = 0.
Proof. reflexivity. Qed.

Example calculateCurrentStreak_only_today :
  calculateCurrentStreak utc Samples.noon_2024_01_10
    [{| date := 19732; completed := 1 |}] = 1.
Proof. vm_compute. reflexivity. Qed.

Example calculateCurrentStreak_today_open :
  calculateCurrentStreak utc Samples.noon_2024_01_10
    [{| date := 19732; completed := 0 |}; {| date := 19731; completed := 1 |}]
  = 0.
Proof. vm_compute. reflexivity. Qed.

Example calculateCurrentStreak_five_days :
  calculateCurrentStreak utc Samples.noon_2024_01_10
    (map (fun k => {| date := 19732 - Z.of_nat k; completed := 1 |}) (seq 0 5))
  = 5.
Proof. vm_compute. reflexivity. Qed.

Example calculateCurrentStreak_third_day_open :
  calculateCurrentStreak utc Samples.noon_2024_01_10
    [{| date := 19732; completed := 1 |}; {| date := 19731; completed := 1 |};
     {| date := 19730; completed := 0 |}]
  = 2.
Proof. vm_compute. reflexivity. Qed.

Example calculateLongestStreak_runs_of_three_and_five :
  calculateLongestStreak utc
    (map (fun k => {| date := 19723 + Z.of_nat k;
                      completed := if (k =? 3)%nat then 0 else 1 |}) (seq 0 9))
  = 5.
Proof. vm_compute. reflexivity. Qed.

Example getUserStats_six_days :
  getUserStats utc Samples.noon_2024_01_10 Samples.six_days
  = {| totalChallenges := 6; completedChallenges := 5; currentStreak := 2;
       longestStreak := 3; completionRate := Some 83 |}.
Proof. vm_compute. reflexivity. Qed.

Example calculateCompletionRate_examples :
  calculateCompletionRate [] = Some 0 /\
  calculateCompletionRate (Samples.done_of_total 7 10) = Some 70 /\
  calculateCompletionRate (Samples.done_of_total 2 3) = Some 67 /\
  spec_completionRate 0 0 = 0 /\
  spec_completionRate 7 10 = 70 /\
  spec_completionRate 2 3 = 67.
Proof. repeat split; vm_compute; reflexivity. Qed.

(** *** Where the code leaves the specification *)

(** C6: the current streak is claimed to equal the reference definition;
    in particular a completed most recent assignment dated before today
    anchors the walk. With the host two hours east of UTC, today
    2024-01-10 and one completed assignment dated 2024-01-09, the
    reference definition gives 1 and [calculateCurrentStreak] returns 0:
    [currentDate] is midnight UTC of 2024-01-09 while [challengeDate], after
    [setHours(0, 0, 0, 0)], is the local midnight two hours earlier. *)
Theorem calculateCurrentStreak_east_of_utc :
  let tz := fixed_offset (2 * msPerHour) in
  local_date_string tz (setHours_0 tz Samples.noon_2024_01_10) = 19732 /\
  calculateCurrentStreak tz Samples.noon_2024_01_10 Samples.completed_yesterday
  = 0 /\
  spec_currentStreak 19732 Samples.completed_yesterday = 1.
Proof. cbv zeta. repeat split; vm_compute; reflexivity. Qed.

(** C7: the longest streak is claimed to equal the reference fold, where
    a completed assignment one day after the previous completed one
    extends the run. In America/New_York the local midnights that stand
    for 2024-03-11 and 2024-03-12 are 23 hours apart (the clocks moved on
    2024-03-10), the test [previousDate.getTime() ===
    challengeDate.getTime() - 86400000] fails and the run restarts:
    [calculateLongestStreak] returns 1 where the fold gives 2. *)
Theorem calculateLongestStreak_across_clock_change :
  setHours_0 America_New_York_2024 (new_Date 19794)
  - setHours_0 America_New_York_2024 (new_Date 19793) = 23 * msPerHour /\
  calculateLongestStreak America_New_York_2024 Samples.two_days_in_march = 1 /\
  spec_longestStreak Samples.two_days_in_march = 2.
Proof. repeat split; vm_compute; reflexivity. Qed.

(** C8: the completion rate is claimed to be [100 * completed / total]
    rounded half up. With 23 of 40 assignments completed that is 58; the
    code divides first, [23 / 40] is the double just below 0.575, the
    product with 100 is the double just below 57.5 and [Math.round]
    returns 57, in [calculateCompletionRate] and in [getUserStats]. *)
Theorem completionRate_23_of_40 :
  countUserChallenges Samples.twenty_three_of_forty false = 40 /\
  countUserChallenges Samples.twenty_three_of_forty true = 23 /\
  calculateCompletionRate Samples.twenty_three_of_forty = Some 57 /\
  completionRate (getUserStats utc Samples.noon_2024_01_10
                    Samples.twenty_three_of_forty) = Some 57 /\
  spec_completionRate 23 40 = 58.
Proof. repeat split; vm_compute; reflexivity. Qed.

End StatisticsFacts.

(* ===================================================================== *)
(** * Part III: further properties of the code                            *)
(* ===================================================================== *)

(** ** Bounds of the two streaks, in every time zone *)

Section StreakBounds.

Import JsDate Statistics History.

Variable tz : TimeZone.

Lemma streak_loop_bounds (rows : list Challenge) (currentDate streak : Z) :
  streak <= streak_loop tz rows currentDate streak
         <= streak + Z.of_nat (length rows).
Proof.
  revert currentDate streak.
  induction rows as [|a rows IH]; intros currentDate streak; cbn [streak_loop length].
  - lia.
  - destruct ((setHours_0 tz (new_Date (date a)) =? currentDate)
              && truthy (completed a)).
    + specialize (IH (setDate_previous tz currentDate) (streak + 1)). lia.
    + destruct ((setHours_0 tz (new_Date (date a)) =? currentDate)
                && negb (truthy (completed a))); [lia|].
      destruct (setHours_0 tz (new_Date (date a)) <? currentDate); [lia|].
      specialize (IH currentDate streak). lia.
Qed.

(** The current streak is never negative and never more than 100, the
    number of rows the history query is asked for, nor more than the
    number of rows there are. *)
Theorem calculateCurrentStreak_bounds (now : Z) (history : list Challenge) :
  0 <= calculateCurrentStreak tz now history
    <= Z.min 100 (Z.of_nat (length history)).
Proof.
  unfold calculateCurrentStreak. cbv zeta.
  pose proof (length_firstn 100 history) as Hlen.
  destruct (firstn 100 history) as [|mostRecent rest] eqn:E.
  - cbn [length] in Hlen. lia.
  - cbn [length] in Hlen.
    destruct (negb (date mostRecent =? _) && truthy (completed mostRecent)).
    + pose proof (streak_loop_bounds (mostRecent :: rest)
                    (new_Date (date mostRecent)) 0) as Hb.
      cbn [length] in Hb. lia.
    + destruct ((date mostRecent =? _) && truthy (completed mostRecent)).
      * pose proof (streak_loop_bounds rest
                      (setDate_previous tz (setHours_0 tz now)) 1) as Hb.
        lia.
      * lia.
Qed.

Lemma longest_loop_bounds (rows : list Challenge)
  (currentStreak longestStreak : Z) (previousDate : option Z) :
  0 <= currentStreak ->
  longestStreak <= longest_loop tz rows currentStreak longestStreak previousDate
    <= Z.max longestStreak (currentStreak + completed_rows rows) /\
  (0 < completed_rows rows ->
   1 <= longest_loop tz rows currentStreak longestStreak previousDate).
Proof.
  revert currentStreak longestStreak previousDate.
  induction rows as [|a rows IH]; intros cur best prev Hcur;
    cbn [longest_loop].
  - unfold completed_rows. cbn. lia.
  - unfold completed_rows in *. cbn [filter].
    destruct (truthy (completed a)); cbn [length].
    + set (cur' := match prev with
                   | Some previous =>
                       if previous =? setHours_0 tz (new_Date (date a)) - 86400000
                       then cur + 1 else 1
                   | None => cur + 1
                   end).
      assert (Hcur' : 1 <= cur' <= cur + 1).
      { unfold cur'. destruct prev as [p|]; [|lia].
        destruct (p =? _); lia. }
      destruct (IH cur' (if cur' >? best then cur' else best)
                  (Some (setHours_0 tz (new_Date (date a)))) ltac:(lia))
        as [Hb Hpos].
      destruct (cur' >? best) eqn:Hgt.
      * apply Z.gtb_lt in Hgt. split; lia.
      * assert (cur' <= best) by (destruct (Z.gtb_spec cur' best); [discriminate | lia]).
        split; lia.
    + destruct (IH 0 best None ltac:(lia)) as [Hb Hpos]. split; [lia|].
      exact Hpos.
Qed.

(** The longest streak lies between 0 and the number of completed rows,
    and it is at least 1 as soon as one row is completed. *)
Theorem calculateLongestStreak_bounds (rows : list Challenge) :
  0 <= calculateLongestStreak tz rows <= completed_rows rows /\
  (0 < completed_rows rows -> 1 <= calculateLongestStreak tz rows).
Proof.
  unfold calculateLongestStreak. destruct rows as [|a rows].
  - unfold completed_rows. cbn. lia.
  - destruct (longest_loop_bounds (a :: rows) 0 0 None ltac:(lia)) as [Hb Hpos].
    assert (0 <= completed_rows (a :: rows)) by (unfold completed_rows; lia).
    split; [lia | exact Hpos].
Qed.

End StreakBounds.

(** ** The current streak against the longest streak, host in UTC *)

Section StreakOrder.

Import JsDate Statistics History.

Lemma spec_walk_ge (rows : list Challenge) (expected streak : Z) :
  streak <= spec_walk expected streak rows.
Proof.
  revert expected streak.
  induction rows as [|a rows IH]; intros expected streak; cbn [spec_walk].
  - lia.
  - destruct (date a =? expected).
    + destruct (truthy (completed a)); [|lia].
      specialize (IH (expected - 1) (streak + 1)). lia.
    + destruct (date a <? expected); [lia | apply IH].
Qed.

(** Reading fewer rows cannot lengthen the walk. *)
Lemma spec_walk_firstn (n : nat) (rows : list Challenge) (expected streak : Z) :
  spec_walk expected streak (firstn n rows) <= spec_walk expected streak rows.
Proof.
  revert rows expected streak.
  induction n as [|n IH]; intros rows expected streak.
  - cbn [firstn spec_walk]. apply spec_walk_ge.
  - destruct rows as [|a rows]; cbn [firstn spec_walk]; [lia|].
    destruct (date a =? expected).
    + destruct (truthy (completed a)); [apply IH | lia].
    + destruct (date a <? expected); [lia | apply IH].
Qed.

Lemma longest_state_cons (a : Challenge) (history : list Challenge) :
  longest_state (a :: history) = spec_longest_step (longest_state history) a.
Proof. reflexivity. Qed.

Lemma longest_state_invariant (history : list Challenge) :
  let '(currentRun, best, _) := longest_state history in
  0 <= currentRun <= best.
Proof.
  induction history as [|a history IH].
  - cbn. lia.
  - rewrite longest_state_cons.
    destruct (longest_state history) as [[cur best] prev].
    unfold spec_longest_step.
    destruct (truthy (completed a)); [|lia].
    destruct prev as [p|]; [destruct (p =? date a - 1)|]; lia.
Qed.

Lemma spec_longestStreak_rev (history : list Challenge) :
  spec_longestStreak (rev history) = snd (fst (longest_state history)).
Proof.
  unfold spec_longestStreak, longest_state.
  rewrite <- (rev_involutive history) at 2.
  rewrite fold_left_rev_right. reflexivity.
Qed.

(** On a latest-first history whose dates do not pass [expected], the
    walk counts no more than the run that the fold has for that day. *)
Lemma spec_walk_le_run (history : list Challenge) (expected streak : Z) :
  strictly_descending history ->
  Forall (fun b => date b <= expected) history ->
  spec_walk expected streak history <= streak + run_ending history expected.
Proof.
  revert expected streak.
  induction history as [|a history IH]; intros expected streak Hdesc Hle.
  - cbn. lia.
  - destruct Hdesc as [Hbelow Hdesc].
    inversion Hle as [|? ? Ha _]; subst.
    cbn [spec_walk]. unfold run_ending. rewrite longest_state_cons.
    pose proof (longest_state_invariant history) as Hinv.
    specialize (IH (expected - 1) (streak + 1) Hdesc).
    unfold run_ending in IH.
    destruct (longest_state history) as [[cur best] prev].
    unfold spec_longest_step.
    destruct (Z.eqb_spec (date a) expected) as [Heq | Hne].
    + destruct (truthy (completed a)).
      * assert (Hle' : Forall (fun b => date b <= expected - 1) history).
        { eapply Forall_impl; [|exact Hbelow]. cbn. intros b Hb. lia. }
        specialize (IH Hle').
        rewrite Heq, Z.eqb_refl.
        destruct prev as [p|]; [destruct (p =? expected - 1)|]; lia.
      * lia.
    + replace (date a <? expected) with true by (symmetry; apply Z.ltb_lt; lia).
      destruct (truthy (completed a)).
      * replace (date a =? expected) with false
          by (symmetry; apply Z.eqb_neq; exact Hne).
        lia.
      * lia.
Qed.

Lemma spec_currentStreak_le_longest (today : Z) (history : list Challenge) :
  strictly_descending history ->
  spec_currentStreak today history <= spec_longestStreak (rev history).
Proof.
  intro Hdesc. rewrite spec_longestStreak_rev.
  pose proof (longest_state_invariant history) as Hinv.
  unfold spec_currentStreak.
  destruct history as [|m rest].
  - cbn. lia.
  - change (firstn 100 (m :: rest)) with (m :: firstn 99 rest).
    assert (Hwalk : spec_walk (date m - 1) 1 (firstn 99 rest)
                    <= snd (fst (longest_state (m :: rest)))
                    \/ truthy (completed m) = false).
    { destruct (truthy (completed m)) eqn:Hdone; [left | right; reflexivity].
      pose proof (spec_walk_firstn 99 rest (date m - 1) 1) as Hfirst.
      pose proof (spec_walk_le_run (m :: rest) (date m) 0 Hdesc) as Hrun.
      cbn [spec_walk] in Hrun. rewrite Z.eqb_refl, Hdone in Hrun.
      change (0 + 1) with 1 in Hrun.
      assert (Hle : Forall (fun b => date b <= date m) (m :: rest)).
      { constructor; [lia|]. destruct Hdesc as [Hbelow _].
        eapply Forall_impl; [|exact Hbelow]. cbn. intros b Hb. lia. }
      specialize (Hrun Hle). unfold run_ending in Hrun.
      destruct (longest_state (m :: rest)) as [[cur best] prev].
      cbn [fst snd].
      destruct prev as [p|]; [destruct (p =? date m)|]; lia. }
    destruct (longest_state (m :: rest)) as [[cur best] prev] eqn:Hst.
    cbn [fst snd] in *.
    destruct (truthy (completed m)) eqn:Hdone.
    + destruct Hwalk as [Hwalk | Habs]; [|discriminate].
      destruct (Z.eqb_spec (date m) today) as [<- | _]; exact Hwalk.
    + lia.
Qed.

(** With the host in UTC and one row per date, the current streak that
    [getUserStats] reports is never greater than the longest streak it
    reports. *)
Theorem getUserStats_current_le_longest_utc (now : Z) (rows : list Challenge) :
  strictly_descending (rev rows) ->
  currentStreak (getUserStats utc now rows)
  <= longestStreak (getUserStats utc now rows).
Proof.
  intro Hdesc. unfold getUserStats. cbn [currentStreak longestStreak].
  rewrite calculateCurrentStreak_utc.
  unfold utc. rewrite calculateLongestStreak_fixed_offset.
  rewrite <- (rev_involutive rows) at 2.
  apply spec_currentStreak_le_longest. exact Hdesc.
Qed.

Lemma getUserStats_current_le_longest_utc_witness :
  currentStreak (getUserStats utc Samples.noon_2024_01_10 Samples.six_days)
  <= longestStreak (getUserStats utc Samples.noon_2024_01_10 Samples.six_days).
Proof.
  apply (getUserStats_current_le_longest_utc Samples.noon_2024_01_10
           Samples.six_days).
  cbn. repeat split; repeat constructor; cbn; lia.
Defined.

End StreakOrder.

(** ** The streaks, zone by zone *)

Section StreaksByZone.

Import JsDate Statistics History.

(** With the host in UTC [calculateCurrentStreak] walks calendar days:
    it is [spec_currentStreak] with the UTC day of [now] as today, for
    every history. *)
Theorem calculateCurrentStreak_utc_walks_days (now : Z) (history : list Challenge) :
  calculateCurrentStreak utc now history = spec_currentStreak (Day now) history.
Proof. apply calculateCurrentStreak_utc. Qed.

(** In a zone whose offset never changes [calculateLongestStreak] folds
    calendar days: it is [spec_longestStreak], for every history. *)
Theorem calculateLongestStreak_constant_offset_folds_days
  (offset : Z) (rows : list Challenge) :
  calculateLongestStreak (fixed_offset offset) rows = spec_longestStreak rows.
Proof. apply calculateLongestStreak_fixed_offset. Qed.

(** In a zone at a constant offset other than 0, a history whose most
    recent row is not dated today gives the current streak 0, whatever
    the rows are. *)
Theorem calculateCurrentStreak_zero_away_from_utc
  (offset now : Z) (history : list Challenge) (mostRecent : Challenge) :
  offset <> 0 -> - msPerDay < offset < msPerDay ->
  hd_error history = Some mostRecent ->
  date mostRecent
  <> local_date_string (fixed_offset offset)
       (setHours_0 (fixed_offset offset) now) ->
  calculateCurrentStreak (fixed_offset offset) now history = 0.
Proof. apply calculateCurrentStreak_not_today_fixed_offset. Qed.

Lemma calculateCurrentStreak_zero_away_from_utc_witness :
  calculateCurrentStreak (fixed_offset (2 * msPerHour)) Samples.noon_2024_01_10
    (tl (rev Samples.six_days)) = 0.
Proof.
  apply (calculateCurrentStreak_zero_away_from_utc (2 * msPerHour)
           Samples.noon_2024_01_10 (tl (rev Samples.six_days))
           {| date := 19731; completed := 1 |}).
  - vm_compute. discriminate.
  - vm_compute. split; reflexivity.
  - reflexivity.
  - vm_compute. discriminate.
Defined.

Lemma In_firstn {A : Type} (n : nat) (l : list A) (x : A) :
  In x (firstn n l) -> In x l.
Proof.
  revert l. induction n as [|n IH]; intros l Hin; [destruct Hin|].
  destruct l as [|b l]; [destruct Hin|].
  destruct Hin as [-> | Hin]; [left; reflexivity | right; apply IH; exact Hin].
Qed.

(** West of UTC, at a constant offset, a completed row dated today gives
    the current streak 1 and no more: every earlier row is taken for a
    gap. *)
Theorem calculateCurrentStreak_one_west_of_utc
  (offset now : Z) (mostRecent : Challenge) (rest : list Challenge) :
  - msPerDay < offset < 0 ->
  strictly_descending (mostRecent :: rest) ->
  date mostRecent
  = local_date_string (fixed_offset offset)
      (setHours_0 (fixed_offset offset) now) ->
  truthy (completed mostRecent) = true ->
  calculateCurrentStreak (fixed_offset offset) now (mostRecent :: rest) = 1.
Proof.
  intros Hoff [Hbelow _] Htoday Hdone.
  unfold calculateCurrentStreak. cbv zeta.
  change (firstn 100 (mostRecent :: rest)) with (mostRecent :: firstn 99 rest).
  rewrite <- Htoday, Z.eqb_refl, Hdone. cbn [negb andb].
  assert (Hk : setHours_0 (fixed_offset offset) now
               = date mostRecent * msPerDay - offset).
  { rewrite Htoday.
    unfold local_date_string, setHours_0, UTC, LocalTime, Day, fixed_offset.
    cbn [LocalTZA_utc LocalTZA_local].
    replace ((now + offset) / msPerDay * msPerDay - offset + offset)
      with ((now + offset) / msPerDay * msPerDay) by lia.
    rewrite Z.div_mul by (unfold msPerDay; lia). reflexivity. }
  rewrite Hk.
  destruct (firstn 99 rest) as [|a rows] eqn:E; [reflexivity|].
  assert (Ha : date a < date mostRecent).
  { assert (Hin : In a (firstn 99 rest)) by (rewrite E; left; reflexivity).
    rewrite Forall_forall in Hbelow. apply Hbelow.
    apply (In_firstn 99). exact Hin. }
  cbn [streak_loop]. rewrite setHours_0_fixed_offset.
  unfold setDate_previous, UTC, LocalTime, fixed_offset.
  cbn [LocalTZA_utc LocalTZA_local].
  replace (offset / msPerDay) with (-1)
    by (unfold msPerDay in *; apply Z.div_unique with (r := offset + 86400000); lia).
  assert (Hlt : (date a + -1) * msPerDay - offset
                < date mostRecent * msPerDay - offset + offset - msPerDay - offset)
    by (unfold msPerDay in *; lia).
  replace ((date a + -1) * msPerDay - offset
           =? date mostRecent * msPerDay - offset + offset - msPerDay - offset)
    with false by (symmetry; apply Z.eqb_neq; lia).
  cbn [andb]. apply Z.ltb_lt in Hlt. rewrite Hlt. reflexivity.
Qed.

Lemma calculateCurrentStreak_one_west_of_utc_witness :
  calculateCurrentStreak (fixed_offset (- 5 * msPerHour)) Samples.noon_2024_01_10
    ({| date := 19732; completed := 1 |} :: tl (rev Samples.six_days)) = 1.
Proof.
  apply (calculateCurrentStreak_one_west_of_utc (- 5 * msPerHour)
           Samples.noon_2024_01_10 {| date := 19732; completed := 1 |}
           (tl (rev Samples.six_days))).
  - vm_compute. split; reflexivity.
  - cbn. repeat split; repeat constructor; cbn; lia.
  - vm_compute. reflexivity.
  - reflexivity.
Defined.

(** [getUserStats] and [calculateCompletionRate] guard the division in
    two ways ([> 0] and [=== 0]) and report the same rate; the completed
    count never exceeds the total. *)
Theorem getUserStats_rate_consistent
  (tz : TimeZone) (now : Z) (rows : list Challenge) :
  completionRate (getUserStats tz now rows) = calculateCompletionRate rows /\
  0 <= completedChallenges (getUserStats tz now rows)
    <= totalChallenges (getUserStats tz now rows).
Proof.
  unfold getUserStats, calculateCompletionRate, countUserChallenges.
  cbn [completionRate completedChallenges totalChallenges]. cbv zeta.
  pose proof (filter_length_le (fun c => completed c =? 1) rows) as Hle.
  split; [|lia].
  destruct rows as [|a rows]; [reflexivity|].
  cbn [length].
  replace (Z.of_nat (S (length rows)) >? 0) with true
    by (symmetry; apply Z.gtb_lt; lia).
  replace (Z.of_nat (S (length rows)) =? 0) with false
    by (symmetry; apply Z.eqb_neq; lia).
  reflexivity.
Qed.

End StreaksByZone.

(** ** Creating, completing and deleting assignments *)

Section AssignmentFacts.

Import Db Challenges.
Local Open Scope store_scope.

Lemma database_eta (d : Database) :
  {| users := users d; categories := categories d;
     challenge_templates := challenge_templates d;
     user_challenges := user_challenges d |} = d.
Proof. destruct d. reflexivity. Qed.

Lemma has_id_false_not_In (d : Database) (id : js_string) :
  has_id d id = false -> ~ In id (map uc_id (user_challenges d)).
Proof.
  unfold has_id. intros H Hin. apply in_map_iff in Hin.
  destruct Hin as (uc & Heq & Hin).
  assert (existsb (fun uc => js_string_eqb (uc_id uc) id) (user_challenges d) = true).
  { apply existsb_exists. exists uc. split; [exact Hin|].
    apply js_string_eqb_eq. exact Heq. }
  congruence.
Qed.

Lemma has_assignment_false_not_In (d : Database) (userId date : js_string) :
  has_assignment d userId date = false ->
  ~ In (userId, date)
       (map (fun uc => (uc_user_id uc, uc_date uc)) (user_challenges d)).
Proof.
  unfold has_assignment. intros H Hin. apply in_map_iff in Hin.
  destruct Hin as (uc & Heq & Hin). inversion Heq as [[Hu Hd]].
  assert (existsb (fun uc => js_string_eqb (uc_user_id uc) userId
                             && js_string_eqb (uc_date uc) date)
                  (user_challenges d) = true).
  { apply existsb_exists. exists uc. split; [exact Hin|].
    rewrite Hu, Hd, !js_string_eqb_refl. reflexivity. }
  congruence.
Qed.

Lemma NoDup_snoc {A : Type} (l : list A) (x : A) :
  NoDup l -> ~ In x l -> NoDup (l ++ [x]).
Proof.
  intros Hl Hx. apply NoDup_app; [exact Hl | repeat constructor; intros [] |].
  intros a Ha [<- | []]. exact (Hx Ha).
Qed.

(** A [createUserChallenge] that throws has changed no table. *)
Lemma createUserChallenge_Throw userId templateId date w e w' :
  createUserChallenge userId templateId date w = (Throw e, w') ->
  db w' = db w.
Proof.
  unfold createUserChallenge, bind at 1, generateId, transaction.
  match goal with
  | |- context [bind ?c ?k ?w0] => destruct (bind c k w0) as [[r|e0] w0'] eqn:E
  end; intro H; inversion H; subst. reflexivity.
Qed.

(** The checks that a returning [createUserChallenge] has passed and the
    tables it has left alone. *)
Lemma createUserChallenge_Normal_checks userId templateId date w r w1 :
  createUserChallenge userId templateId date w = (Normal r, w1) ->
  has_id (db w) (random w (drawn w)) = false /\
  existsb (fun u => js_string_eqb u userId) (users (db w)) = true /\
  users (db w1) = users (db w) /\
  getUserChallengeById (random w (drawn w)) w1 = (Normal r, w1).
Proof.
  intro H. unfold createUserChallenge in H.
  apply bind_Normal in H. destruct H as (id & w0 & Hgen & H).
  unfold generateId in Hgen. inversion Hgen; subst id w0. clear Hgen.
  apply transaction_Normal, bind_Normal in H.
  destruct H as ([] & w0' & Hins & Hget).
  pose proof Hget as Hget'.
  unfold getUserChallengeById in Hget'. rewrite query_run in Hget'.
  inversion Hget' as [[Hfind Hw]]. subst w0'.
  unfold insert_user_challenge in Hins. cbv zeta in Hins. cbn [db] in Hins.
  destruct (has_id (db w) (random w (drawn w))); [discriminate|].
  destruct (has_assignment (db w) userId date); [discriminate|].
  destruct (existsb (fun u => js_string_eqb u userId) (users (db w)));
    cbn [negb orb] in Hins; [|discriminate].
  destruct (existsb (fun ct => js_string_eqb (tpl_id ct) templateId)
                    (challenge_templates (db w)));
    cbn [negb] in Hins; [|discriminate].
  split; [reflexivity|]. split; [reflexivity|].
  split; [inversion Hins; subst w1; reflexivity | reflexivity].
Qed.

(** Inserting and looking up: a [createUserChallenge] that returns has
    added exactly the row it returns, at the end of the table, with the
    id drawn from [randomUUID], the arguments as its columns and
    [completed] 0; the row is what [getUserChallengeById] finds under
    that id afterwards. *)
Theorem createUserChallenge_round_trip userId templateId date w r w1 :
  createUserChallenge userId templateId date w = (Normal r, w1) ->
  let row := new_row (random w (drawn w)) userId templateId date in
  r = Some row /\
  user_challenges (db w1) = user_challenges (db w) ++ [row] /\
  getUserChallengeById (uc_id row) w1 = (Normal (Some row), w1) /\
  users (db w1) = users (db w) /\
  categories (db w1) = categories (db w) /\
  challenge_templates (db w1) = challenge_templates (db w).
Proof.
  intros H row.
  pose proof H as H'. apply createUserChallenge_Normal in H'. cbv zeta in H'.
  destruct H' as (Hr & _ & _ & Hrows & Hcats & Htpls & _).
  fold row in Hr, Hrows.
  split; [exact Hr|]. split; [exact Hrows|].
  destruct (createUserChallenge_Normal_checks _ _ _ _ _ _ H)
    as (_ & _ & Husers & Hget).
  split; [cbn [uc_id row new_row]; rewrite Hget, Hr; reflexivity|].
  auto.
Qed.

Lemma createUserChallenge_round_trip_witness :
  exists r w1,
    createUserChallenge (str "user-1") (str "tB") (str "2023-01-04")
      Samples.three_categories = (Normal r, w1) /\
    r = Some (new_row (str "challenge-0") (str "user-1") (str "tB")
                (str "2023-01-04")) /\
    getUserChallengeById (str "challenge-0") w1 = (Normal r, w1).
Proof.
  eexists _, _. split; [vm_compute; reflexivity|].
  destruct (createUserChallenge_round_trip (str "user-1") (str "tB")
              (str "2023-01-04") Samples.three_categories _ _ eq_refl)
    as (Hr & _ & Hget & _).
  split; [exact Hr | exact Hget].
Defined.

(** The foreign keys of the INSERT: with a fresh id and no row for
    (userId, date), an unknown user or an unknown template makes
    [createUserChallenge] throw SQLITE_CONSTRAINT_FOREIGNKEY and the
    tables stay as they were. *)
Theorem createUserChallenge_foreign_key userId templateId date w :
  has_id (db w) (random w (drawn w)) = false ->
  has_assignment (db w) userId date = false ->
  existsb (fun u => js_string_eqb u userId) (users (db w)) = false
  \/ existsb (fun ct => js_string_eqb (tpl_id ct) templateId)
             (challenge_templates (db w)) = false ->
  exists w',
    createUserChallenge userId templateId date w
    = (Throw (SqliteError SQLITE_CONSTRAINT_FOREIGNKEY), w')
    /\ db w' = db w.
Proof.
  intros Hid Hnone Hfk.
  unfold createUserChallenge, bind at 1, generateId, transaction, bind,
    insert_user_challenge. cbv zeta. cbn [db].
  rewrite Hid, Hnone.
  replace (negb (existsb (fun u => js_string_eqb u userId) (users (db w)))
           || negb (existsb (fun ct => js_string_eqb (tpl_id ct) templateId)
                            (challenge_templates (db w)))) with true.
  - eexists. split; reflexivity.
  - destruct Hfk as [-> | ->]; cbn [negb orb]; [reflexivity|].
    symmetry. apply orb_true_r.
Qed.

Lemma createUserChallenge_foreign_key_witness :
  exists w',
    createUserChallenge (str "user-9") (str "tB") (str "2023-01-04")
      Samples.three_categories
    = (Throw (SqliteError SQLITE_CONSTRAINT_FOREIGNKEY), w')
    /\ db w' = db Samples.three_categories.
Proof.
  apply (createUserChallenge_foreign_key (str "user-9") (str "tB")
           (str "2023-01-04") Samples.three_categories).
  - vm_compute. reflexivity.
  - vm_compute. reflexivity.
  - left. vm_compute. reflexivity.
Defined.

Lemma createUserChallenge_keys userId templateId date w out w' :
  createUserChallenge userId templateId date w = (out, w') ->
  unique_ids (db w) -> unique_user_dates (db w) ->
  assignments_reference_templates (db w) ->
  assignments_reference_users (db w) ->
  unique_ids (db w') /\ unique_user_dates (db w') /\
  assignments_reference_templates (db w') /\
  assignments_reference_users (db w').
Proof.
  intros H Hids Hkeys Htpl Husr. destruct out as [r|e].
  - pose proof H as H'. apply createUserChallenge_Normal in H'. cbv zeta in H'.
    destruct H' as (_ & Hnone & Ht & Hrows & _ & Htpls & _).
    destruct (createUserChallenge_Normal_checks _ _ _ _ _ _ H)
      as (Hid & Hu & Husers & _).
    unfold unique_ids, unique_user_dates, assignments_reference_templates,
      assignments_reference_users.
    rewrite Hrows, Htpls, Husers, !map_app. cbn [map new_row uc_id uc_user_id uc_date].
    split; [apply NoDup_snoc; [exact Hids | apply has_id_false_not_In; exact Hid]|].
    split; [apply NoDup_snoc;
            [exact Hkeys | apply has_assignment_false_not_In; exact Hnone]|].
    split.
    + intros uc Hin. apply in_app_or in Hin. destruct Hin as [Hin | [<- | []]].
      * apply Htpl. exact Hin.
      * apply existsb_exists in Ht. destruct Ht as (ct & Hct & Heq).
        exists ct. split; [exact Hct|]. apply js_string_eqb_eq. exact Heq.
    + intros uc Hin. apply in_app_or in Hin. destruct Hin as [Hin | [<- | []]].
      * apply Husr. exact Hin.
      * apply existsb_exists in Hu. destruct Hu as (u & Hin & Heq).
        apply js_string_eqb_eq in Heq. subst u. exact Hin.
  - apply createUserChallenge_Throw in H. rewrite H. auto.
Qed.

(** Whatever [createUserChallenge] ends with, the keys of
    [user_challenges] stay unique and its rows keep pointing at a user
    and a template of the tables. *)
Theorem createUserChallenge_keeps_keys userId templateId date w out w' :
  createUserChallenge userId templateId date w = (out, w') ->
  unique_ids (db w) -> unique_user_dates (db w) ->
  assignments_reference_templates (db w) ->
  assignments_reference_users (db w) ->
  unique_ids (db w') /\ unique_user_dates (db w') /\
  assignments_reference_templates (db w') /\
  assignments_reference_users (db w').
Proof. apply createUserChallenge_keys. Qed.

(** The four properties on the store of [Samples.three_categories]. *)
Lemma three_categories_keys :
  unique_ids (db Samples.three_categories) /\
  unique_user_dates (db Samples.three_categories) /\
  assignments_reference_templates (db Samples.three_categories) /\
  assignments_reference_users (db Samples.three_categories).
Proof.
  split; [|split; [|split]].
  - unfold unique_ids. cbn. repeat constructor; cbn; intuition discriminate.
  - unfold unique_user_dates. cbn.
    repeat constructor; cbn; intuition discriminate.
  - intros uc Huc. cbn in Huc.
    destruct Huc as [<- | [<- | [<- | []]]];
      exists (Samples.template "tA" "A"); (split; [cbn; auto | reflexivity]).
  - intros uc Huc. cbn in Huc.
    destruct Huc as [<- | [<- | [<- | []]]]; cbn; auto.
Qed.

Lemma createUserChallenge_keeps_keys_witness :
  let w' := snd (createUserChallenge (str "user-1") (str "tB") (str "2023-01-04")
                   Samples.three_categories) in
  unique_ids (db w') /\ unique_user_dates (db w') /\
  assignments_reference_templates (db w') /\
  assignments_reference_users (db w').
Proof.
  intro w'.
  destruct three_categories_keys as (H1 & H2 & H3 & H4).
  apply (createUserChallenge_keeps_keys (str "user-1") (str "tB")
           (str "2023-01-04") Samples.three_categories
           (fst (createUserChallenge (str "user-1") (str "tB") (str "2023-01-04")
                   Samples.three_categories)) w');
    [apply surjective_pairing | exact H1 | exact H2 | exact H3 | exact H4].
Defined.

End AssignmentFacts.

(** ** Deleting and completing *)

Section UpdateFacts.

Import Db Challenges.
Local Open Scope store_scope.

Lemma has_id_false_forall (d : Database) (id : js_string) :
  has_id d id = false ->
  forall uc, In uc (user_challenges d) -> js_string_eqb (uc_id uc) id = false.
Proof.
  unfold has_id. intros H uc Hin.
  destruct (js_string_eqb (uc_id uc) id) eqn:E; [|reflexivity].
  assert (existsb (fun uc => js_string_eqb (uc_id uc) id) (user_challenges d) = true)
    by (apply existsb_exists; eauto).
  congruence.
Qed.

Lemma filter_all {A : Type} (f : A -> bool) (l : list A) :
  (forall x, In x l -> f x = true) -> filter f l = l.
Proof.
  induction l as [|x l IH]; intro H; cbn [filter]; [reflexivity|].
  rewrite (H x (or_introl eq_refl)). f_equal. apply IH.
  intros y Hy. apply H. right. exact Hy.
Qed.

Lemma map_unchanged {A : Type} (f : A -> A) (l : list A) :
  (forall x, In x l -> f x = x) -> map f l = l.
Proof.
  induction l as [|x l IH]; intro H; cbn [map]; [reflexivity|].
  rewrite (H x (or_introl eq_refl)). f_equal. apply IH.
  intros y Hy. apply H. right. exact Hy.
Qed.

Lemma with_same_user_challenges (d : Database) :
  with_user_challenges d (user_challenges d) = d.
Proof. destruct d. reflexivity. Qed.

(** [deleteUserChallenge] says whether a row had the id; afterwards no
    row has it, and the rows with other ids are all there, in their
    order. Without such a row the database is left as it was. *)
Theorem deleteUserChallenge_removes (id : js_string) (w : World) :
  exists w',
    deleteUserChallenge id w = (Normal (has_id (db w) id), w') /\
    has_id (db w') id = false /\
    getUserChallengeById id w' = (Normal None, w') /\
    user_challenges (db w')
    = filter (fun uc => negb (js_string_eqb (uc_id uc) id))
             (user_challenges (db w)) /\
    (has_id (db w) id = false -> db w' = db w).
Proof.
  unfold deleteUserChallenge, transaction, bind, delete_by_id, ret. cbv zeta.
  eexists. split.
  - f_equal. f_equal. unfold has_id.
    induction (user_challenges (db w)) as [|uc rows IH]; [reflexivity|].
    cbn [filter existsb].
    destruct (js_string_eqb (uc_id uc) id); cbn [length orb].
    + apply Z.gtb_lt. lia.
    + exact IH.
  - cbn [db with_db with_user_challenges user_challenges].
    assert (Hgone : has_id
              (with_user_challenges (db w)
                 (filter (fun uc => negb (js_string_eqb (uc_id uc) id))
                         (user_challenges (db w)))) id = false).
    { unfold has_id. cbn [with_user_challenges user_challenges].
      induction (user_challenges (db w)) as [|uc rows IH]; [reflexivity|].
      cbn [filter]. destruct (js_string_eqb (uc_id uc) id) eqn:E; cbn [negb].
      - exact IH.
      - cbn [existsb]. rewrite E. exact IH. }
    split; [exact Hgone|]. split.
    + unfold getUserChallengeById. rewrite query_run. f_equal. f_equal.
      cbn [db with_db].
      unfold has_id in Hgone.
      destruct (find _ _) as [uc|] eqn:Hf; [|reflexivity].
      apply find_some in Hf. destruct Hf as [Hin Heq].
      assert (existsb (fun uc => js_string_eqb (uc_id uc) id)
                (user_challenges
                   (with_user_challenges (db w)
                      (filter (fun uc => negb (js_string_eqb (uc_id uc) id))
                              (user_challenges (db w))))) = true)
        by (apply existsb_exists; eauto).
      congruence.
    + split; [reflexivity|].
      intro Hnone. rewrite filter_all.
      * apply with_same_user_challenges.
      * intros uc Hin. rewrite (has_id_false_forall _ _ Hnone uc Hin). reflexivity.
Qed.

(** Creating and deleting: deleting the row that [createUserChallenge]
    has just returned gives back the database from before the
    creation. *)
Theorem create_then_delete_restores userId templateId date w row w1 :
  createUserChallenge userId templateId date w = (Normal (Some row), w1) ->
  exists w2,
    deleteUserChallenge (uc_id row) w1 = (Normal true, w2) /\
    db w2 = db w.
Proof.
  intro H.
  destruct (createUserChallenge_Normal_checks _ _ _ _ _ _ H)
    as (Hid & _ & Husers & _).
  apply createUserChallenge_Normal in H. cbv zeta in H.
  destruct H as (Hrow & _ & _ & Hrows & Hcats & Htpls & _).
  inversion Hrow; subst row. cbn [uc_id new_row].
  set (id := random w (drawn w)) in *.
  unfold deleteUserChallenge, transaction, bind, delete_by_id, ret. cbv zeta.
  rewrite Hrows, !filter_app.
  rewrite (existsb_false_filter (fun uc => js_string_eqb (uc_id uc) id)
             (user_challenges (db w)) Hid).
  rewrite (filter_all (fun uc => negb (js_string_eqb (uc_id uc) id))
             (user_challenges (db w)))
    by (intros uc Hin; rewrite (has_id_false_forall _ _ Hid uc Hin); reflexivity).
  cbn [filter new_row uc_id]. rewrite js_string_eqb_refl. cbn [negb app length].
  eexists. split; [reflexivity|].
  cbn [db with_db]. unfold with_user_challenges.
  rewrite app_nil_r, Husers, Hcats, Htpls. apply database_eta.
Qed.

Lemma create_then_delete_restores_witness :
  exists w2,
    deleteUserChallenge (str "challenge-0")
      (snd (createUserChallenge (str "user-1") (str "tB") (str "2023-01-04")
              Samples.three_categories)) = (Normal true, w2) /\
    db w2 = db Samples.three_categories.
Proof.
  apply (create_then_delete_restores (str "user-1") (str "tB")
           (str "2023-01-04") Samples.three_categories
           (new_row (str "challenge-0") (str "user-1") (str "tB")
              (str "2023-01-04"))).
  vm_compute. reflexivity.
Defined.

End UpdateFacts.

(** ** Marking and unmarking completion *)

Section CompletionFacts.

Import Db Challenges.
Local Open Scope store_scope.

(** A row with its [completed] column replaced. *)
Local Abbreviation marked value uc :=
  {| uc_id := uc_id uc; uc_user_id := uc_user_id uc;
     uc_template_id := uc_template_id uc; uc_date := uc_date uc;
     uc_completed := value |}.

Lemma set_completed_id value id uc : uc_id (set_completed value id uc) = uc_id uc.
Proof. unfold set_completed. destruct (js_string_eqb (uc_id uc) id); reflexivity. Qed.

Lemma find_set_completed value id rows :
  find (fun uc => js_string_eqb (uc_id uc) id) (map (set_completed value id) rows)
  = option_map (fun uc => marked value uc)
      (find (fun uc => js_string_eqb (uc_id uc) id) rows).
Proof.
  induction rows as [|uc rows IH]; [reflexivity|].
  cbn [map find]. rewrite set_completed_id.
  destruct (js_string_eqb (uc_id uc) id) eqn:E.
  - unfold set_completed. rewrite E. reflexivity.
  - exact IH.
Qed.

Lemma find_None_has_id (d : Database) (id : js_string) :
  find (fun uc => js_string_eqb (uc_id uc) id) (user_challenges d) = None <->
  has_id d id = false.
Proof.
  unfold has_id. induction (user_challenges d) as [|uc rows IH]; cbn [find existsb].
  - split; reflexivity.
  - destruct (js_string_eqb (uc_id uc) id); cbn [orb];
      [split; discriminate | exact IH].
Qed.

Lemma changes_zero_has_id (d : Database) (id : js_string) :
  (Z.of_nat (length (filter (fun uc => js_string_eqb (uc_id uc) id)
                            (user_challenges d))) =? 0)
  = negb (has_id d id).
Proof.
  unfold has_id. induction (user_challenges d) as [|uc rows IH]; [reflexivity|].
  cbn [filter existsb].
  destruct (js_string_eqb (uc_id uc) id); cbn [length orb negb]; [|exact IH].
  apply Z.eqb_neq. lia.
Qed.

(** What the UPDATE of both functions does, for either value. *)
Lemma update_then_get value id w :
  transaction
    (changes <- update_completed value id ;;
     if changes =? 0 then ret None else getUserChallengeById id) w
  = (Normal (option_map (fun uc => marked value uc)
               (find (fun uc => js_string_eqb (uc_id uc) id)
                     (user_challenges (db w)))),
     with_db w (with_user_challenges (db w)
                  (map (set_completed value id) (user_challenges (db w))))).
Proof.
  unfold transaction, bind, update_completed. cbv zeta.
  rewrite changes_zero_has_id.
  destruct (has_id (db w) id) eqn:Hid; cbn [negb].
  - unfold getUserChallengeById. rewrite query_run.
    cbn [db with_db with_user_challenges user_challenges].
    rewrite find_set_completed. reflexivity.
  - apply find_None_has_id in Hid. rewrite Hid. reflexivity.
Qed.

Lemma map_set_completed_absent value id (d : Database) :
  has_id d id = false ->
  map (set_completed value id) (user_challenges d) = user_challenges d.
Proof.
  intro Hid. apply map_unchanged. intros uc Hin. unfold set_completed.
  rewrite (has_id_false_forall _ _ Hid uc Hin). reflexivity.
Qed.

(** Completing an id that no row has returns [undefined] and leaves the
    database as it was; so does uncompleting. *)
Theorem complete_unknown_id (id : js_string) (w : World) :
  getUserChallengeById id w = (Normal None, w) ->
  exists w1 w2,
    completeUserChallenge id w = (Normal None, w1) /\ db w1 = db w /\
    uncompleteUserChallenge id w = (Normal None, w2) /\ db w2 = db w.
Proof.
  intro H. unfold getUserChallengeById in H. rewrite query_run in H.
  inversion H as [Hfind]. pose proof Hfind as Hid.
  apply find_None_has_id in Hid.
  unfold completeUserChallenge, uncompleteUserChallenge.
  rewrite !update_then_get, Hfind. cbn [option_map].
  eexists _, _. split; [reflexivity|]. split.
  - cbn [db with_db]. rewrite map_set_completed_absent by exact Hid.
    apply with_same_user_challenges.
  - split; [reflexivity|].
    cbn [db with_db]. rewrite map_set_completed_absent by exact Hid.
    apply with_same_user_challenges.
Qed.

Lemma complete_unknown_id_witness :
  exists w1 w2,
    completeUserChallenge (str "nobody") Samples.three_categories
    = (Normal None, w1) /\ db w1 = db Samples.three_categories /\
    uncompleteUserChallenge (str "nobody") Samples.three_categories
    = (Normal None, w2) /\ db w2 = db Samples.three_categories.
Proof.
  apply (complete_unknown_id (str "nobody") Samples.three_categories).
  vm_compute. reflexivity.
Defined.

(** Completing a known id returns the row with [completed] 1 and
    everything else as before; the lookup by id then gives that row; no
    row is added or removed, no id, user, template or date changes, and
    rows with another id are untouched. *)
Theorem completeUserChallenge_marks (id : js_string) (w : World)
  (uc : UserChallenge) :
  getUserChallengeById id w = (Normal (Some uc), w) ->
  exists w',
    completeUserChallenge id w = (Normal (Some (marked 1 uc)), w') /\
    getUserChallengeById id w' = (Normal (Some (marked 1 uc)), w') /\
    map (fun r => (uc_id r, uc_user_id r, uc_template_id r, uc_date r))
        (user_challenges (db w'))
    = map (fun r => (uc_id r, uc_user_id r, uc_template_id r, uc_date r))
          (user_challenges (db w)) /\
    (forall r, In r (user_challenges (db w)) -> uc_id r <> id ->
               In r (user_challenges (db w'))) /\
    (forall r, In r (user_challenges (db w')) -> uc_id r = id ->
               uc_completed r = 1) /\
    users (db w') = users (db w) /\
    categories (db w') = categories (db w) /\
    challenge_templates (db w') = challenge_templates (db w).
Proof.
  intro H. unfold getUserChallengeById in H. rewrite query_run in H.
  inversion H as [Hfind].
  unfold completeUserChallenge. rewrite update_then_get, Hfind.
  cbn [option_map]. eexists. split; [reflexivity|].
  cbn [db with_db with_user_challenges user_challenges users categories
         challenge_templates].
  split.
  { unfold getUserChallengeById. rewrite query_run.
    cbn [db with_db with_user_challenges user_challenges].
    rewrite find_set_completed, Hfind. reflexivity. }
  split.
  { rewrite map_map. apply map_ext. intro r. unfold set_completed.
    destruct (js_string_eqb (uc_id r) id); reflexivity. }
  split.
  { intros r Hin Hne. apply in_map_iff. exists r. split; [|exact Hin].
    unfold set_completed.
    destruct (js_string_eqb (uc_id r) id) eqn:E; [|reflexivity].
    apply js_string_eqb_eq in E. contradiction. }
  split.
  { intros r Hin Heq. apply in_map_iff in Hin. destruct Hin as (r0 & <- & _).
    rewrite set_completed_id in Heq. unfold set_completed.
    replace (js_string_eqb (uc_id r0) id) with true
      by (symmetry; apply js_string_eqb_eq; exact Heq).
    reflexivity. }
  auto.
Qed.

Lemma completeUserChallenge_marks_witness :
  exists w',
    completeUserChallenge (str "c2") Samples.three_categories
    = (Normal (Some {| uc_id := str "c2"; uc_user_id := str "user-1";
                       uc_template_id := str "tA"; uc_date := str "2023-01-02";
                       uc_completed := 1 |}), w').
Proof.
  destruct (completeUserChallenge_marks (str "c2") Samples.three_categories
              (Samples.assignment "c2" "tA" "2023-01-02"))
    as (w' & H & _).
  - vm_compute. reflexivity.
  - exists w'. exact H.
Defined.

Lemma unique_id_row (rows : list UserChallenge) (id : js_string)
  (uc r : UserChallenge) :
  NoDup (map uc_id rows) ->
  find (fun x => js_string_eqb (uc_id x) id) rows = Some uc ->
  In r rows -> uc_id r = id -> r = uc.
Proof.
  induction rows as [|x rows IH]; intros Hnd Hfind Hin Heq; [destruct Hin|].
  cbn [map] in Hnd. inversion Hnd as [|? ? Hx Hnd']; subst.
  cbn [find] in Hfind.
  destruct (js_string_eqb (uc_id x) (uc_id r)) eqn:E.
  - inversion Hfind; subst x. destruct Hin as [-> | Hin]; [reflexivity|].
    exfalso. apply Hx. apply js_string_eqb_eq in E. rewrite E.
    apply in_map. exact Hin.
  - destruct Hin as [-> | Hin].
    + rewrite js_string_eqb_refl in E. discriminate.
    + apply IH; auto.
Qed.

(** Marking and unmarking: with unique ids, completing an open
    assignment and then uncompleting it gives back the database from
    before. *)
Theorem complete_then_uncomplete_restores (id : js_string) (w : World)
  (uc : UserChallenge) :
  unique_ids (db w) ->
  getUserChallengeById id w = (Normal (Some uc), w) ->
  uc_completed uc = 0 ->
  exists w1 w2,
    completeUserChallenge id w = (Normal (Some (marked 1 uc)), w1) /\
    uncompleteUserChallenge id w1 = (Normal (Some uc), w2) /\
    db w2 = db w.
Proof.
  intros Hids H Hopen. unfold getUserChallengeById in H. rewrite query_run in H.
  inversion H as [Hfind].
  unfold completeUserChallenge, uncompleteUserChallenge.
  rewrite update_then_get, Hfind. cbn [option_map].
  eexists _, _. split; [reflexivity|].
  rewrite update_then_get.
  cbn [db with_db with_user_challenges user_challenges].
  rewrite find_set_completed, Hfind. cbn [option_map].
  assert (Hback : map (set_completed 0 id)
                    (map (set_completed 1 id) (user_challenges (db w)))
                  = user_challenges (db w)).
  { rewrite map_map. apply map_unchanged. intros r Hin.
    unfold set_completed at 2.
    destruct (js_string_eqb (uc_id r) id) eqn:E.
    - unfold set_completed. cbn [uc_id]. rewrite E.
      apply js_string_eqb_eq in E.
      rewrite (unique_id_row _ _ _ r Hids Hfind Hin E).
      rewrite <- Hopen. destruct uc. reflexivity.
    - unfold set_completed. rewrite E. reflexivity. }
  split.
  - f_equal. f_equal. rewrite <- Hopen. destruct uc. reflexivity.
  - cbn [db with_db]. unfold with_user_challenges at 1.
    cbn [users categories challenge_templates with_user_challenges].
    rewrite Hback. apply database_eta.
Qed.

Lemma complete_then_uncomplete_restores_witness :
  exists w1 w2,
    completeUserChallenge (str "c2") Samples.three_categories
    = (Normal (Some {| uc_id := str "c2"; uc_user_id := str "user-1";
                       uc_template_id := str "tA"; uc_date := str "2023-01-02";
                       uc_completed := 1 |}), w1) /\
    uncompleteUserChallenge (str "c2") w1
    = (Normal (Some (Samples.assignment "c2" "tA" "2023-01-02")), w2) /\
    db w2 = db Samples.three_categories.
Proof.
  apply (complete_then_uncomplete_restores (str "c2") Samples.three_categories
           (Samples.assignment "c2" "tA" "2023-01-02")).
  - unfold unique_ids. cbn.
    repeat constructor; cbn; intuition discriminate.
  - vm_compute. reflexivity.
  - reflexivity.
Defined.

End CompletionFacts.

(** ** The history query and the count *)

Section HistoryFacts.

Import Db Challenges.
Local Open Scope store_scope.

Lemma js_string_ltb_asym (a b : js_string) :
  js_string_ltb a b = true -> js_string_ltb b a = false.
Proof.
  revert b. induction a as [|x a IH]; intros [|y b]; cbn [js_string_ltb];
    try reflexivity; try discriminate.
  intro H. apply orb_true_iff in H. apply orb_false_iff.
  destruct H as [H | H].
  - apply Z.ltb_lt in H. split; [apply Z.ltb_ge; lia|].
    replace (y =? x) with false by (symmetry; apply Z.eqb_neq; lia). reflexivity.
  - apply andb_true_iff in H. destruct H as [Hxy H].
    apply Z.eqb_eq in Hxy. subst y. split; [apply Z.ltb_irrefl|].
    rewrite Z.eqb_refl. cbn [andb]. apply IH. exact H.
Qed.

Lemma insert_desc_latest_first (r : CompleteChallenge)
  (rows : list CompleteChallenge) :
  latest_first rows -> latest_first (insert_desc cc_date r rows).
Proof.
  induction rows as [|r' rest IH]; intro Hs.
  - cbn. auto.
  - cbn [insert_desc].
    destruct (js_string_ltb (cc_date r) (cc_date r')) eqn:E.
    + destruct Hs as [Hhd Hs]. specialize (IH Hs).
      split; [|exact IH].
      destruct rest as [|r'' rest'].
      * cbn [insert_desc]. apply js_string_ltb_asym. exact E.
      * cbn [insert_desc].
        destruct (js_string_ltb (cc_date r) (cc_date r''));
          [exact Hhd | apply js_string_ltb_asym; exact E].
    + split; [exact E | exact Hs].
Qed.

Lemma order_by_date_desc_latest_first (rows : list CompleteChallenge) :
  latest_first (order_by_date_desc cc_date rows).
Proof.
  induction rows as [|r rows IH]; [exact I|].
  apply insert_desc_latest_first. exact IH.
Qed.

Lemma latest_first_tail r rows : latest_first (r :: rows) -> latest_first rows.
Proof. intros [_ H]. exact H. Qed.

Lemma latest_first_skipn n rows : latest_first rows -> latest_first (skipn n rows).
Proof.
  revert rows. induction n as [|n IH]; intros rows H; [exact H|].
  destruct rows as [|r rows]; [exact I|].
  apply IH. eapply latest_first_tail. exact H.
Qed.

Lemma latest_first_firstn n rows : latest_first rows -> latest_first (firstn n rows).
Proof.
  revert rows. induction n as [|n IH]; intros rows H; [exact I|].
  destruct rows as [|r rows]; [exact I|].
  cbn [firstn]. destruct H as [Hhd H]. specialize (IH rows H).
  split; [|exact IH].
  destruct rows as [|r' rest]; [destruct n; exact I|].
  destruct n; [exact I | exact Hhd].
Qed.

Lemma In_insert_desc {A} (date : A -> js_string) (r x : A) (rows : list A) :
  In x (insert_desc date r rows) <-> x = r \/ In x rows.
Proof.
  induction rows as [|r' rest IH]; cbn [insert_desc].
  - cbn. intuition.
  - destruct (js_string_ltb (date r) (date r')); cbn [In]; [rewrite IH|];
      intuition.
Qed.

Lemma In_order_by_date_desc {A} (date : A -> js_string) (x : A) (rows : list A) :
  In x (order_by_date_desc date rows) <-> In x rows.
Proof.
  induction rows as [|r rows IH]; [reflexivity|].
  cbn [order_by_date_desc fold_right]. rewrite In_insert_desc.
  fold (order_by_date_desc date rows). rewrite IH. cbn. intuition.
Qed.

Lemma length_insert_desc {A} (date : A -> js_string) (r : A) (rows : list A) :
  length (insert_desc date r rows) = S (length rows).
Proof.
  induction rows as [|r' rest IH]; [reflexivity|].
  cbn [insert_desc]. destruct (js_string_ltb (date r) (date r')); cbn [length];
    [rewrite IH|]; reflexivity.
Qed.

Lemma length_order_by_date_desc {A} (date : A -> js_string) (rows : list A) :
  length (order_by_date_desc date rows) = length rows.
Proof.
  induction rows as [|r rows IH]; [reflexivity|].
  cbn [order_by_date_desc fold_right]. rewrite length_insert_desc.
  fold (order_by_date_desc date rows). rewrite IH. reflexivity.
Qed.

Lemma In_skipn {A : Type} (n : nat) (l : list A) (x : A) :
  In x (skipn n l) -> In x l.
Proof.
  revert l. induction n as [|n IH]; intros l Hin; [exact Hin|].
  destruct l as [|b l]; [destruct Hin|]. right. apply IH. exact Hin.
Qed.

Lemma In_limit_offset {A : Type} (limit offset : Z) (l : list A) (x : A) :
  In x (limit_offset limit offset l) -> In x l.
Proof.
  unfold limit_offset. cbv zeta. destruct (limit <? 0); intro H.
  - eapply In_skipn. exact H.
  - eapply In_skipn. eapply In_firstn. exact H.
Qed.

(** A page of the history is ordered latest first, holds at most [limit]
    rows when [limit] is not negative, and each of its rows comes from an
    assignment of that user which passes the completion filter. *)
Theorem getUserChallengeHistory_page
  (userId : js_string) (limit offset : Z) (completed : option bool) (w : World) :
  exists rows,
    getUserChallengeHistory userId limit offset completed w = (Normal rows, w) /\
    latest_first rows /\
    (0 <= limit -> Z.of_nat (length rows) <= limit) /\
    forall r, In r rows ->
      exists uc, In uc (user_challenges (db w)) /\
                 uc_user_id uc = userId /\
                 completed_filter completed uc = true /\
                 cc_id r = uc_id uc /\ cc_date r = uc_date uc /\
                 cc_completed r = uc_completed uc.
Proof.
  unfold getUserChallengeHistory. rewrite query_run.
  eexists. split; [reflexivity|]. split; [|split].
  - unfold limit_offset. cbv zeta.
    destruct (limit <? 0).
    + apply latest_first_skipn, order_by_date_desc_latest_first.
    + apply latest_first_firstn, latest_first_skipn,
        order_by_date_desc_latest_first.
  - intro Hl. unfold limit_offset. cbv zeta.
    replace (limit <? 0) with false by (symmetry; apply Z.ltb_ge; exact Hl).
    pose proof (firstn_le_length (Z.to_nat limit)
                  (skipn (Z.to_nat offset)
                     (order_by_date_desc cc_date
                        (flat_map (join_template_category (db w))
                           (rows_of_user (db w) userId completed))))).
    lia.
  - intros r Hin. apply In_limit_offset, In_order_by_date_desc in Hin.
    apply in_flat_map in Hin. destruct Hin as (uc & Huc & Hr).
    unfold rows_of_user in Huc. apply filter_In in Huc.
    destruct Huc as [Huc Hpass]. apply andb_true_iff in Hpass.
    destruct Hpass as [Hu Hc]. apply js_string_eqb_eq in Hu.
    exists uc. split; [exact Huc|]. split; [exact Hu|]. split; [exact Hc|].
    unfold join_template_category in Hr. apply in_flat_map in Hr.
    destruct Hr as (ct & _ & Hr). apply in_map_iff in Hr.
    destruct Hr as (c & <- & _). cbn. auto.
Qed.

Lemma firstn_plus {A : Type} (a b : nat) (l : list A) :
  firstn a l ++ firstn b (skipn a l) = firstn (a + b) l.
Proof.
  revert l. induction a as [|a IH]; intro l; [reflexivity|].
  destruct l as [|x l]; [cbn; destruct b; reflexivity|].
  cbn [firstn skipn Nat.add app]. f_equal. apply IH.
Qed.

(** Pages compose: the page of [limit] rows at [offset] followed by the
    page of [limit'] rows at [offset + limit] is the page of
    [limit + limit'] rows at [offset]. *)
Theorem getUserChallengeHistory_pages_compose
  (userId : js_string) (limit limit' offset : Z) (completed : option bool)
  (w : World) :
  0 <= limit -> 0 <= limit' -> 0 <= offset ->
  exists page next both,
    getUserChallengeHistory userId limit offset completed w = (Normal page, w) /\
    getUserChallengeHistory userId limit' (offset + limit) completed w
    = (Normal next, w) /\
    getUserChallengeHistory userId (limit + limit') offset completed w
    = (Normal both, w) /\
    page ++ next = both.
Proof.
  intros Hl Hl' Ho. unfold getUserChallengeHistory. rewrite !query_run.
  eexists _, _, _. split; [reflexivity|]. split; [reflexivity|].
  split; [reflexivity|].
  unfold limit_offset. cbv zeta.
  replace (limit <? 0) with false by (symmetry; apply Z.ltb_ge; lia).
  replace (limit' <? 0) with false by (symmetry; apply Z.ltb_ge; lia).
  replace (limit + limit' <? 0) with false by (symmetry; apply Z.ltb_ge; lia).
  rewrite Z2Nat.inj_add by lia.
  rewrite (Z2Nat.inj_add limit limit') by lia.
  rewrite (Nat.add_comm (Z.to_nat offset)), <- skipn_skipn.
  apply firstn_plus.
Qed.

Lemma getUserChallengeHistory_pages_compose_witness :
  exists page next both,
    getUserChallengeHistory (str "user-1") 2 0 None Samples.three_categories
    = (Normal page, Samples.three_categories) /\
    getUserChallengeHistory (str "user-1") 5 (0 + 2) None Samples.three_categories
    = (Normal next, Samples.three_categories) /\
    getUserChallengeHistory (str "user-1") (2 + 5) 0 None Samples.three_categories
    = (Normal both, Samples.three_categories) /\
    page ++ next = both.
Proof.
  apply (getUserChallengeHistory_pages_compose (str "user-1") 2 5 0 None
           Samples.three_categories); lia.
Defined.

End HistoryFacts.

Section HistoryCount.

Import Db Challenges.
Local Open Scope store_scope.

Lemma filter_unique {A : Type} (key : A -> js_string) (l : list A) (x : A) :
  NoDup (map key l) -> In x l ->
  filter (fun y => js_string_eqb (key x) (key y)) l = [x].
Proof.
  induction l as [|a l IH]; intros Hnd Hin; [destruct Hin|].
  cbn [map] in Hnd. inversion Hnd as [|? ? Ha Hnd']; subst.
  cbn [filter]. destruct Hin as [-> | Hin].
  - rewrite js_string_eqb_refl. f_equal.
    apply existsb_false_filter.
    destruct (existsb _ l) eqn:E; [|reflexivity].
    apply existsb_exists in E. destruct E as (y & Hy & Heq).
    apply js_string_eqb_eq in Heq. exfalso. apply Ha. rewrite Heq.
    apply in_map. exact Hy.
  - destruct (js_string_eqb (key x) (key a)) eqn:E.
    + apply js_string_eqb_eq in E. exfalso. apply Ha. rewrite <- E.
      apply in_map. exact Hin.
    + apply IH; assumption.
Qed.

(** With the keys of the schema in place the two joins give exactly one
    row per assignment. *)
Lemma join_template_category_single (d : Database) (uc : UserChallenge) :
  unique_template_ids d -> unique_category_ids d ->
  templates_reference_categories d ->
  (exists ct, In ct (challenge_templates d) /\ tpl_id ct = uc_template_id uc) ->
  length (join_template_category d uc) = 1%nat.
Proof.
  intros Htpl Hcat Hfk (ct & Hct & Heq).
  destruct (Hfk ct Hct) as (c & Hc & Hcid).
  unfold join_template_category. rewrite <- Heq.
  rewrite (filter_unique tpl_id _ ct Htpl Hct). cbn [flat_map].
  rewrite app_nil_r, length_map, <- Hcid.
  rewrite (filter_unique cat_id _ c Hcat Hc). reflexivity.
Qed.

Lemma length_flat_map_single {A B : Type} (f : A -> list B) (l : list A) :
  (forall x, In x l -> length (f x) = 1%nat) ->
  length (flat_map f l) = length l.
Proof.
  induction l as [|a l IH]; intro H; [reflexivity|].
  cbn [flat_map]. rewrite length_app, (H a (or_introl eq_refl)). cbn [length Nat.add].
  f_equal. apply IH. intros x Hx. apply H. right. exact Hx.
Qed.

(** The count and the pages agree. With the primary keys of templates and
    categories unique and the foreign keys in place, the history without
    a limit has as many rows as [countUserChallenges] counts, and a page
    of [limit] rows at [offset] has [min limit (max 0 (count - offset))]
    rows. *)
Theorem history_agrees_with_count
  (userId : js_string) (limit offset : Z) (completed : option bool) (w : World) :
  unique_template_ids (db w) -> unique_category_ids (db w) ->
  assignments_reference_templates (db w) ->
  templates_reference_categories (db w) ->
  0 <= limit -> 0 <= offset ->
  exists all page count,
    getUserChallengeHistory userId (-1) 0 completed w = (Normal all, w) /\
    getUserChallengeHistory userId limit offset completed w = (Normal page, w) /\
    countUserChallenges userId completed w = (Normal count, w) /\
    Z.of_nat (length all) = count /\
    Z.of_nat (length page) = Z.min limit (Z.max 0 (count - offset)).
Proof.
  intros Htpl Hcat Hfk1 Hfk2 Hl Ho.
  unfold getUserChallengeHistory, countUserChallenges. rewrite !query_run.
  eexists _, _, _. split; [reflexivity|]. split; [reflexivity|].
  split; [reflexivity|].
  assert (Hlen : length (order_by_date_desc cc_date
                           (flat_map (join_template_category (db w))
                              (rows_of_user (db w) userId completed)))
                 = length (rows_of_user (db w) userId completed)).
  { rewrite length_order_by_date_desc. apply length_flat_map_single.
    intros uc Huc. apply join_template_category_single; try assumption.
    apply Hfk1. unfold rows_of_user in Huc. apply filter_In in Huc.
    exact (proj1 Huc). }
  unfold limit_offset. cbv zeta.
  replace (limit <? 0) with false by (symmetry; apply Z.ltb_ge; lia).
  change (-1 <? 0) with true. cbn [Z.to_nat skipn].
  split; [rewrite Hlen; reflexivity|].
  rewrite length_firstn, length_skipn, Hlen. lia.
Qed.

Lemma history_agrees_with_count_witness :
  exists all page count,
    getUserChallengeHistory (str "user-1") (-1) 0 None Samples.three_categories
    = (Normal all, Samples.three_categories) /\
    getUserChallengeHistory (str "user-1") 2 2 None Samples.three_categories
    = (Normal page, Samples.three_categories) /\
    countUserChallenges (str "user-1") None Samples.three_categories
    = (Normal count, Samples.three_categories) /\
    Z.of_nat (length all) = count /\
    Z.of_nat (length page) = Z.min 2 (Z.max 0 (count - 2)).
Proof.
  apply (history_agrees_with_count (str "user-1") 2 2 None
           Samples.three_categories); try lia.
  - unfold unique_template_ids. cbn.
    repeat constructor; cbn; intuition discriminate.
  - unfold unique_category_ids. cbn.
    repeat constructor; cbn; intuition discriminate.
  - intros uc Huc. cbn in Huc.
    destruct Huc as [<- | [<- | [<- | []]]];
      exists (Samples.template "tA" "A"); (split; [cbn; auto | reflexivity]).
  - intros ct Hct. cbn in Hct.
    destruct Hct as [<- | [<- | [<- | []]]];
      [exists (Samples.category "A" "Art")
      |exists (Samples.category "B" "Books")
      |exists (Samples.category "C" "Cooking")];
      (split; [cbn; auto | reflexivity]).
Defined.

End HistoryCount.

(** ** More on the assigner *)

Section AssignerFacts.

Import Db Selector Generator Challenges Choice.
Local Open Scope store_scope.

Lemma getChallengeTemplates_run categoryId w :
  getChallengeTemplates categoryId w
  = (Normal (templates_of (challenge_templates (db w)) categoryId), w).
Proof. destruct categoryId; reflexivity. Qed.

(** The callback is the choice followed by the creation. *)
Lemma callback_chooses userId date w :
  generateDailyChallenge_callback userId date w
  = match chooseTemplate (categories (db w)) (challenge_templates (db w))
            (recent_window (db w) userId) date with
    | Normal selectedTemplate =>
        (userChallenge <- createUserChallenge userId (tpl_id selectedTemplate) date ;;
         return_id userChallenge) w
    | Throw e => (Throw e, w)
    end.
Proof.
  unfold generateDailyChallenge_callback, chooseTemplate.
  unfold bind at 1. change (recentChallengesQuery userId w)
    with (Normal (recent_window (db w) userId), w).
  cbv beta iota. unfold bind at 1, getCategories. rewrite query_run.
  cbv beta iota.
  destruct (Z.of_nat (length (categories (db w))) =? 0); [reflexivity|].
  unfold bind at 1, lift at 1.
  destruct (getDateBasedIndex date _) as [ci|e]; [|reflexivity].
  unfold bind at 1, lift at 1.
  destruct (selectCategoryIndex _ _ ci) as [s|e]; [|reflexivity].
  unfold bind at 1, lift at 1.
  destruct (element (categories (db w)) (Num s)) as [c|e]; [|reflexivity].
  unfold assignTemplate, bind at 1. rewrite getChallengeTemplates_run.
  cbv zeta.
  destruct (Z.of_nat (length (templates_of _ (cat_id c))) =? 0); [reflexivity|].
  unfold bind at 1, lift at 1.
  destruct (getDateBasedIndex (date ++ cat_id c) _) as [ti|e]; [|reflexivity].
  unfold bind at 1, lift at 1.
  destruct (element _ ti) as [tpl|e]; reflexivity.
Qed.

Lemma element_In {A} (xs : list A) (i : js_number) (x : A) :
  element xs i = Normal x -> In x xs.
Proof.
  unfold element, array_get. destruct i as [z|]; [|discriminate].
  destruct (z <? 0); [discriminate|].
  destruct (nth_error xs (Z.to_nat z)) eqn:E; [|discriminate].
  intro H. inversion H; subst. eapply nth_error_In. exact E.
Qed.

Lemma templates_of_In table categoryId ct :
  In ct (templates_of table categoryId) ->
  In ct table /\ (categoryId <> [] -> tpl_category_id ct = categoryId).
Proof.
  destruct categoryId as [|x rest]; cbn [templates_of].
  - intro H. split; [exact H | congruence].
  - intro H. apply filter_In in H. destruct H as [Hin Heq].
    apply js_string_eqb_eq in Heq. auto.
Qed.

(** A template that is chosen is a row of the template table and, unless
    the id of the selected category is the empty string, belongs to a
    category of the list. *)
Lemma chooseTemplate_Normal categories table recent date t :
  chooseTemplate categories table recent date = Normal t ->
  In t table /\
  exists c, In c categories /\ (cat_id c <> [] -> tpl_category_id t = cat_id c).
Proof.
  unfold chooseTemplate.
  destruct (Z.of_nat (length categories) =? 0); [discriminate|].
  destruct (getDateBasedIndex date _) as [ci|e]; [|discriminate].
  destruct (selectCategoryIndex _ _ ci) as [s|e]; [|discriminate].
  destruct (element categories (Num s)) as [c|e] eqn:Hc; [|discriminate].
  cbv zeta.
  destruct (Z.of_nat (length (templates_of table (cat_id c))) =? 0);
    [discriminate|].
  destruct (getDateBasedIndex (date ++ cat_id c) _) as [ti|e]; [|discriminate].
  intro Ht. apply element_In in Ht. apply templates_of_In in Ht.
  destruct Ht as [Hin Hcat]. split; [exact Hin|].
  exists c. split; [eapply element_In; exact Hc | exact Hcat].
Qed.




(** What a returning callback has chosen and created. *)
Lemma callback_Normal_row userId date w id w1 :
  generateDailyChallenge_callback userId date w = (Normal id, w1) ->
  exists t,
    chooseTemplate (categories (db w)) (challenge_templates (db w))
      (recent_window (db w) userId) date = Normal t /\
    createUserChallenge userId (tpl_id t) date w
    = (Normal (Some (new_row id userId (tpl_id t) date)), w1) /\
    id = random w (drawn w).
Proof.
  rewrite callback_chooses.
  destruct (chooseTemplate _ _ _ date) as [t|e]; [|discriminate].
  intro H. apply bind_Normal in H. destruct H as (r & w2 & Hcreate & Hret).
  pose proof Hcreate as Hrow. apply createUserChallenge_Normal in Hrow.
  cbv zeta in Hrow. destruct Hrow as (Hr & _). subst r.
  unfold return_id, ret in Hret. inversion Hret; subst id w2.
  exists t. split; [reflexivity|]. split; [exact Hcreate | reflexivity].
Qed.

(** Without categories, or without a template for the selected category,
    [generateDailyChallenge] throws the configuration error of lines 36
    and 66 (the second names the category), writes nothing and runs no
    INSERT. *)
Theorem generateDailyChallenge_configuration_errors
  (userId date : js_string) (w : World) :
  getUserChallengeByDate userId date w = (Normal None, w) ->
  (categories (db w) = [] ->
   exists w',
     generateDailyChallenge userId date w = (Throw no_categories, w') /\
     db w' = db w /\ insert_calls w' = insert_calls w) /\
  (forall ci s c,
     categories (db w) <> [] ->
     getDateBasedIndex date (Z.of_nat (length (categories (db w)))) = Normal ci ->
     selectCategoryIndex (categories (db w)) (recent_window (db w) userId) ci
     = Normal s ->
     array_get (categories (db w)) (Num s) = Some c ->
     templates_of (challenge_templates (db w)) (cat_id c) = [] ->
     exists w',
       generateDailyChallenge userId date w
       = (Throw (no_templates (cat_name c)), w') /\
       db w' = db w /\ insert_calls w' = insert_calls w).
Proof.
  intro Hnone. rewrite (generateDailyChallenge_absent _ _ _ Hnone).
  unfold transaction. rewrite callback_chooses. split.
  - intro Hcats. unfold chooseTemplate. rewrite Hcats. cbn [length].
    change (Z.of_nat 0 =? 0) with true. cbv iota.
    eexists. split; [reflexivity|]. split; reflexivity.
  - intros ci s c Hne Hci Hs Hc Hempty. unfold chooseTemplate.
    replace (Z.of_nat (length (categories (db w))) =? 0) with false
      by (symmetry; apply Z.eqb_neq; destruct (categories (db w));
          [congruence | cbn [length]; lia]).
    rewrite Hci, Hs. unfold element at 1. rewrite Hc. cbv zeta.
    rewrite Hempty. cbn [length]. change (Z.of_nat 0 =? 0) with true. cbv iota.
    eexists. split; [reflexivity|]. split; reflexivity.
Qed.

Lemma generateDailyChallenge_configuration_errors_witness :
  (exists w',
     generateDailyChallenge (str "user-1") (str "2023-01-04") MoreSamples.unseeded
     = (Throw (Error (str "No categories found in the database")), w')) /\
  (exists w',
     generateDailyChallenge (str "user-1") (str "2023-01-04")
       MoreSamples.no_templates_for_A
     = (Throw (Error (str "No challenge templates found for category: Art")), w')).
Proof.
  split.
  - destruct (generateDailyChallenge_configuration_errors (str "user-1")
                (str "2023-01-04") MoreSamples.unseeded eq_refl) as [H _].
    destruct (H eq_refl) as (w' & Hw & _). exists w'. exact Hw.
  - destruct (generateDailyChallenge_configuration_errors (str "user-1")
                (str "2023-01-04") MoreSamples.no_templates_for_A eq_refl)
      as [_ H].
    destruct (H (Num 0) 0 (Samples.category "A" "Art")) as (w' & Hw & _).
    + discriminate.
    + vm_compute. reflexivity.
    + vm_compute. reflexivity.
    + reflexivity.
    + reflexivity.
    + exists w'. exact Hw.
Defined.

(** A [generateDailyChallenge] that throws has written nothing: the
    database is the one it started with. *)
Theorem generateDailyChallenge_throw_writes_nothing
  (userId date : js_string) (w : World) (e : js_error) (w' : World) :
  generateDailyChallenge userId date w = (Throw e, w') -> db w' = db w.
Proof.
  unfold generateDailyChallenge, bind at 1.
  destruct (getUserChallengeByDate_read_only userId date w) as [existing ->].
  destruct existing as [c|]; [discriminate|].
  unfold transaction.
  destruct (generateDailyChallenge_callback userId date w) as [[id|e0] w0];
    intro H; inversion H; subst. reflexivity.
Qed.

Lemma generateDailyChallenge_throw_writes_nothing_witness :
  db (snd (generateDailyChallenge (str "user-1") (str "2023-01-04")
             MoreSamples.no_templates_for_A))
  = db MoreSamples.no_templates_for_A.
Proof.
  apply (generateDailyChallenge_throw_writes_nothing (str "user-1")
           (str "2023-01-04") MoreSamples.no_templates_for_A
           (Error (str "No challenge templates found for category: Art"))).
  vm_compute. reflexivity.
Defined.

(** A [generateDailyChallenge] that returns has either found the
    assignment and changed nothing, or added one row at the end of
    [user_challenges]: its id is the result and the next [randomUUID], its
    user and date are the arguments, it is open, and its template is a
    row of the template table that, unless the selected category has the
    empty id, belongs to a category of the list. No other table
    changes. *)
Theorem generateDailyChallenge_returns
  (userId date : js_string) (w : World) (id : js_string) (w' : World) :
  generateDailyChallenge userId date w = (Normal id, w') ->
  (exists c, getUserChallengeByDate userId date w = (Normal (Some c), w)
             /\ cc_id c = id /\ w' = w)
  \/
  (getUserChallengeByDate userId date w = (Normal None, w) /\
   id = random w (drawn w) /\
   exists t c,
     In t (challenge_templates (db w)) /\ In c (categories (db w)) /\
     (cat_id c <> [] -> tpl_category_id t = cat_id c) /\
     user_challenges (db w')
     = user_challenges (db w) ++ [new_row id userId (tpl_id t) date] /\
     users (db w') = users (db w) /\
     categories (db w') = categories (db w) /\
     challenge_templates (db w') = challenge_templates (db w)).
Proof.
  intro H. unfold generateDailyChallenge, bind at 1 in H.
  destruct (getUserChallengeByDate_read_only userId date w) as [existing Hq].
  rewrite Hq in H. destruct existing as [c|].
  - left. exists c. unfold ret in H. inversion H; subst. auto.
  - right. split; [exact Hq|].
    apply transaction_Normal, callback_Normal_row in H.
    destruct H as (t & Hchoice & Hcreate & Hid). split; [exact Hid|].
    apply chooseTemplate_Normal in Hchoice.
    destruct Hchoice as (Ht & c & Hc & Hcat).
    destruct (createUserChallenge_Normal_checks _ _ _ _ _ _ Hcreate)
      as (_ & _ & Husers & _).
    apply createUserChallenge_Normal in Hcreate. cbv zeta in Hcreate.
    destruct Hcreate as (_ & _ & _ & Hrows & Hcats & Htpls & _).
    rewrite <- Hid in Hrows.
    exists t, c. auto 10.
Qed.

Lemma generateDailyChallenge_returns_witness :
  exists t,
    user_challenges
      (db (snd (generateDailyChallenge (str "user-1") (str "2023-01-04")
                  Samples.three_categories)))
    = user_challenges (db Samples.three_categories)
      ++ [new_row (str "challenge-0") (str "user-1") (tpl_id t)
            (str "2023-01-04")].
Proof.
  destruct (generateDailyChallenge_returns (str "user-1") (str "2023-01-04")
              Samples.three_categories (str "challenge-0")
              (snd (generateDailyChallenge (str "user-1") (str "2023-01-04")
                      Samples.three_categories)))
    as [(c & Hc & _) | (_ & _ & t & c & _ & _ & _ & Hrows & _)].
  - vm_compute. reflexivity.
  - vm_compute in Hc. discriminate Hc.
  - exists t. exact Hrows.
Defined.

(** Whatever [generateDailyChallenge] ends with, ids and (user, date)
    pairs of [user_challenges] stay unique and every row keeps pointing
    at a user and a template of the tables. *)
Theorem generateDailyChallenge_keeps_keys
  (userId date : js_string) (w : World) out (w' : World) :
  generateDailyChallenge userId date w = (out, w') ->
  unique_ids (db w) -> unique_user_dates (db w) ->
  assignments_reference_templates (db w) ->
  assignments_reference_users (db w) ->
  unique_ids (db w') /\ unique_user_dates (db w') /\
  assignments_reference_templates (db w') /\
  assignments_reference_users (db w').
Proof.
  intros H H1 H2 H3 H4. destruct out as [id|e].
  - unfold generateDailyChallenge, bind at 1 in H.
    destruct (getUserChallengeByDate_read_only userId date w) as [existing Hq].
    rewrite Hq in H. destruct existing as [c|].
    + unfold ret in H. inversion H; subst. auto.
    + apply transaction_Normal, callback_Normal_row in H.
      destruct H as (t & _ & Hcreate & _).
      exact (createUserChallenge_keys _ _ _ _ _ _ Hcreate H1 H2 H3 H4).
  - unfold generateDailyChallenge, bind at 1 in H.
    destruct (getUserChallengeByDate_read_only userId date w) as [existing Hq].
    rewrite Hq in H. destruct existing as [c|]; [discriminate|].
    unfold transaction in H.
    destruct (generateDailyChallenge_callback userId date w) as [[id|e0] w0];
      inversion H; subst. cbn [db with_db]. auto.
Qed.

Lemma generateDailyChallenge_keeps_keys_witness :
  let w' := snd (generateDailyChallenge (str "user-1") (str "2023-01-04")
                   Samples.three_categories) in
  unique_ids (db w') /\ unique_user_dates (db w') /\
  assignments_reference_templates (db w') /\
  assignments_reference_users (db w').
Proof.
  intro w'.
  destruct three_categories_keys as (H1 & H2 & H3 & H4).
  apply (generateDailyChallenge_keeps_keys (str "user-1") (str "2023-01-04")
           Samples.three_categories
           (fst (generateDailyChallenge (str "user-1") (str "2023-01-04")
                   Samples.three_categories)) w');
    [apply surjective_pairing | exact H1 | exact H2 | exact H3 | exact H4].
Defined.



End AssignerFacts.

(** ** What the anti-repetition guarantees *)

Section AntiRepetition.

Import Db Selector Generator.

(** With three or more recent rows, the selected category is never one
    of the recent ones as long as some category is not among them. *)
Theorem selectCategoryIndex_avoids_recent
  (categories : list Category) (recent : list RecentChallenge) (base : Z) :
  let ids := map rc_category_id recent in
  0 <= base < Z.of_nat (length categories) ->
  (3 <= length recent)%nat ->
  (exists c', In c' categories /\ set_has ids (cat_id c') = false) ->
  exists s c,
    selectCategoryIndex categories recent (Num base) = Normal s /\
    array_get categories (Num s) = Some c /\
    set_has ids (cat_id c) = false.
Proof.
  intros ids Hb H3 (c' & Hc'in & Hc'abs).
  destruct (selectCategoryIndex_cases categories ids recent base eq_refl Hb)
    as (s & Hsel & Hs & Hcases & Hfallback).
  destruct Hcases as [Heq | (_ & _ & k & _ & _ & (c & Hc & Habs) & _)].
  - subst s. destruct (array_get_in_bounds categories base Hb) as [c0 Hc0].
    exists base, c0. split; [exact Hsel|]. split; [exact Hc0|].
    destruct (set_has ids (cat_id c0)) eqn:Hin; [|reflexivity].
    exfalso.
    destruct (In_array_get categories c' Hc'in) as (m & Hm & Hgetm).
    destruct (probes_cover categories base m Hm) as (j & Hj & Hjm).
    destruct (Hfallback (ex_intro _ c0 (conj Hc0 Hin)) ltac:(lia) eq_refl j Hj)
      as (c'' & Hget'' & Hp'').
    rewrite Hjm, Hgetm in Hget''. inversion Hget''; subst c''. congruence.
  - exists s, c. auto.
Qed.

Lemma selectCategoryIndex_avoids_recent_witness :
  exists s c,
    selectCategoryIndex (categories (db Samples.three_categories))
      (Samples.recent_of Samples.three_categories) (Num 0) = Normal s /\
    array_get (categories (db Samples.three_categories)) (Num s) = Some c /\
    set_has (map rc_category_id (Samples.recent_of Samples.three_categories))
      (cat_id c) = false.
Proof.
  apply (selectCategoryIndex_avoids_recent
           (categories (db Samples.three_categories))
           (Samples.recent_of Samples.three_categories) 0).
  - vm_compute. split; [discriminate | reflexivity].
  - vm_compute. lia.
  - exists (Samples.category "B" "Books"). split; [cbn; auto | reflexivity].
Defined.

(** With fewer than three recent rows, or when the category of the date
    is not among the recent ones, the date alone decides: the selected
    index is the base index. *)
Theorem selectCategoryIndex_keeps_base
  (categories : list Category) (recent : list RecentChallenge) (base : Z)
  (c0 : Category) :
  array_get categories (Num base) = Some c0 ->
  (length recent < 3)%nat
  \/ set_has (map rc_category_id recent) (cat_id c0) = false ->
  selectCategoryIndex categories recent (Num base) = Normal base.
Proof.
  intros Hc0 H. unfold selectCategoryIndex. cbv zeta. rewrite Hc0.
  destruct H as [H | H].
  - replace (3 <=? Z.of_nat (length recent)) with false
      by (symmetry; apply Z.leb_gt; lia).
    rewrite andb_false_r. reflexivity.
  - rewrite H. reflexivity.
Qed.

Lemma selectCategoryIndex_keeps_base_witness :
  selectCategoryIndex (categories (db MoreSamples.two_new_users)) [] (Num 0)
  = Normal 0.
Proof.
  apply (selectCategoryIndex_keeps_base
           (categories (db MoreSamples.two_new_users)) [] 0
           (Samples.category "A" "Art")).
  - reflexivity.
  - left. cbn. lia.
Defined.

End AntiRepetition.

(** ** Dates in ISO form *)

Section IsoDates.

Import Upcoming.

Example iso_date_examples :
  iso_date 0 = str "1970-01-01" /\
  iso_date (-1) = str "1969-12-31" /\
  iso_date 11016 = str "2000-02-29" /\
  iso_date 19361 = str "2023-01-04" /\
  iso_date 19782 = str "2024-02-29" /\
  iso_date 20088 = str "2024-12-31" /\
  iso_date 47540 = str "2100-02-28" /\
  iso_date 47541 = str "2100-03-01" /\
  iso_date (-25508) = str "1900-03-01" /\
  iso_date 2932896 = str "9999-12-31" /\
  iso_date 2932897 = str "+010000-01-01" /\
  iso_date (-719529) = str "-000001-12-31".
Proof. repeat split; vm_compute; reflexivity. Qed.

End IsoDates.

(** ** Today's and the upcoming challenges *)

Section UpcomingFacts.

Import Db Generator JsDate Challenges Choice Upcoming.
Local Open Scope store_scope.

(** The assignment of (userId, date) is in the store under [id]. *)
Local Abbreviation found userId date id w :=
  (exists c, getUserChallengeByDate userId date w = (Normal (Some c), w)
             /\ cc_id c = id).

Lemma found_generate userId date id w :
  found userId date id w ->
  generateDailyChallenge userId date w = (Normal id, w).
Proof.
  intros (c & Hc & Hid). unfold generateDailyChallenge, bind. rewrite Hc.
  unfold ret. rewrite Hid. reflexivity.
Qed.

Lemma join_template_category_tables (d d' : Database) (uc : UserChallenge) :
  categories d' = categories d ->
  challenge_templates d' = challenge_templates d ->
  join_template_category d' uc = join_template_category d uc.
Proof. intros Hc Ht. unfold join_template_category. rewrite Hc, Ht. reflexivity. Qed.

(** What any [generateDailyChallenge] does to the tables. *)
Lemma generateDailyChallenge_rows userId date w out w' :
  generateDailyChallenge userId date w = (out, w') ->
  users (db w') = users (db w) /\
  categories (db w') = categories (db w) /\
  challenge_templates (db w') = challenge_templates (db w) /\
  (user_challenges (db w') = user_challenges (db w) \/
   exists id t,
     out = Normal id /\
     getUserChallengeByDate userId date w = (Normal None, w) /\
     user_challenges (db w')
     = user_challenges (db w) ++ [new_row id userId t date]).
Proof.
  intro H. unfold generateDailyChallenge, bind at 1 in H.
  destruct (getUserChallengeByDate_read_only userId date w) as [existing Hq].
  rewrite Hq in H. destruct existing as [c|].
  - unfold ret in H. inversion H; subst. auto.
  - destruct out as [id|e].
    + apply transaction_Normal, callback_Normal_row in H.
      destruct H as (t & _ & Hcreate & Hid).
      destruct (createUserChallenge_Normal_checks _ _ _ _ _ _ Hcreate)
        as (_ & _ & Husers & _).
      apply createUserChallenge_Normal in Hcreate. cbv zeta in Hcreate.
      destruct Hcreate as (_ & _ & _ & Hrows & Hcats & Htpls & _).
      rewrite <- Hid in Hrows.
      split; [exact Husers|]. split; [exact Hcats|]. split; [exact Htpls|].
      right. exists id, (tpl_id t). auto.
    + unfold transaction in H.
      destruct (generateDailyChallenge_callback userId date w) as [[id|e0] w0];
        inversion H; subst. cbn [db with_db]. auto.
Qed.

Lemma found_after_generate userId date id w w' :
  templates_reference_categories (db w) ->
  generateDailyChallenge userId date w = (Normal id, w') ->
  found userId date id w'.
Proof.
  intros Hfk H. unfold generateDailyChallenge, bind at 1 in H.
  destruct (getUserChallengeByDate_read_only userId date w) as [existing Hq].
  rewrite Hq in H. destruct existing as [c|].
  - unfold ret in H. inversion H; subst. exists c. auto.
  - apply transaction_Normal, callback_Normal_row in H.
    destruct H as (t & _ & Hcreate & Hid).
    destruct (getUserChallengeByDate_after_create _ _ _ _ _ _ Hfk Hcreate)
      as (c & Hc & Hcid).
    exists c. split; [exact Hc | congruence].
Qed.

Lemma found_preserved userId date id date2 out w w' :
  found userId date id w ->
  generateDailyChallenge userId date2 w = (out, w') ->
  found userId date id w'.
Proof.
  intros (c & Hc & Hid) H.
  unfold getUserChallengeByDate in Hc. rewrite query_run in Hc.
  inversion Hc as [Hhd]. clear Hc.
  exists c. split; [|exact Hid].
  unfold getUserChallengeByDate. rewrite query_run.
  replace (flat_map (join_template_category (db w'))
             (filter (fun uc => js_string_eqb (uc_user_id uc) userId
                                && js_string_eqb (uc_date uc) date)
                     (user_challenges (db w'))))
    with (flat_map (join_template_category (db w))
            (filter (fun uc => js_string_eqb (uc_user_id uc) userId
                               && js_string_eqb (uc_date uc) date)
                    (user_challenges (db w)))).
  - rewrite Hhd. reflexivity.
  - destruct (generateDailyChallenge_rows _ _ _ _ _ H)
      as (_ & Hcats & Htpls & [Hrows | (id2 & t & _ & Hnone & Hrows)]).
    + rewrite Hrows. apply flat_map_ext. intro uc. symmetry.
      apply join_template_category_tables; assumption.
    + rewrite Hrows, filter_app. cbn [filter new_row uc_user_id uc_date].
      assert (Hne : js_string_eqb date2 date = false).
      { destruct (js_string_eqb date2 date) eqn:E; [|reflexivity].
        apply js_string_eqb_eq in E. subst date2.
        unfold getUserChallengeByDate in Hnone. rewrite query_run in Hnone.
        inversion Hnone as [Hn]. rewrite Hn in Hhd. discriminate. }
      rewrite Hne, andb_false_r, app_nil_r.
      apply flat_map_ext. intro uc. symmetry.
      apply join_template_category_tables; assumption.
Qed.

Lemma foreign_key_preserved userId date out w w' :
  generateDailyChallenge userId date w = (out, w') ->
  templates_reference_categories (db w) ->
  templates_reference_categories (db w').
Proof.
  intros H Hfk.
  destruct (generateDailyChallenge_rows _ _ _ _ _ H) as (_ & Hcats & Htpls & _).
  unfold templates_reference_categories. rewrite Hcats, Htpls. exact Hfk.
Qed.

Section Loop.

Variables (tz : TimeZone) (today : Z) (userId : js_string).

Lemma upcoming_loop_step rounds i acc w ids w' :
  upcoming_loop tz today userId (S rounds) i acc w = (Normal ids, w') ->
  exists dateStr id w1,
    toISOString_date (date_plus tz today i) = Normal dateStr /\
    generateDailyChallenge userId dateStr w = (Normal id, w1) /\
    upcoming_loop tz today userId rounds (i + 1) (acc ++ [id]) w1
    = (Normal ids, w').
Proof.
  cbn [upcoming_loop]. intro H.
  apply bind_Normal in H. destruct H as (dateStr & w0 & Hd & H).
  apply lift_Normal in Hd. destruct Hd as [Hd ->].
  apply bind_Normal in H. destruct H as (id & w1 & Hg & H).
  eauto 6.
Qed.

Lemma upcoming_loop_prefix rounds i acc w ids w' :
  upcoming_loop tz today userId rounds i acc w = (Normal ids, w') ->
  exists new, ids = acc ++ new /\ length new = rounds.
Proof.
  revert i acc w. induction rounds as [|rounds IH]; intros i acc w H.
  - cbn in H. unfold ret in H. inversion H; subst.
    exists []. rewrite app_nil_r. auto.
  - apply upcoming_loop_step in H.
    destruct H as (dateStr & id & w1 & _ & _ & H).
    destruct (IH _ _ _ H) as (new & -> & Hlen).
    exists (id :: new). rewrite <- app_assoc. cbn. auto.
Qed.

Lemma upcoming_loop_found_preserved date id rounds i acc w ids w' :
  found userId date id w ->
  upcoming_loop tz today userId rounds i acc w = (Normal ids, w') ->
  found userId date id w'.
Proof.
  revert i acc w. induction rounds as [|rounds IH]; intros i acc w Hf H.
  - cbn in H. unfold ret in H. inversion H; subst. exact Hf.
  - apply upcoming_loop_step in H.
    destruct H as (dateStr & id1 & w1 & _ & Hg & H).
    eapply IH; [|exact H]. eapply found_preserved; eassumption.
Qed.

Lemma upcoming_loop_establishes rounds i acc w ids w' :
  templates_reference_categories (db w) ->
  upcoming_loop tz today userId rounds i acc w = (Normal ids, w') ->
  exists new, ids = acc ++ new /\ length new = rounds /\
              all_found tz today userId w' i new.
Proof.
  revert i acc w. induction rounds as [|rounds IH]; intros i acc w Hfk H.
  - cbn in H. unfold ret in H. inversion H; subst.
    exists []. rewrite app_nil_r. cbn. auto.
  - apply upcoming_loop_step in H.
    destruct H as (dateStr & id & w1 & Hd & Hg & H).
    pose proof (found_after_generate _ _ _ _ _ Hfk Hg) as Hfound.
    pose proof (foreign_key_preserved _ _ _ _ _ Hg Hfk) as Hfk1.
    destruct (IH _ _ _ Hfk1 H) as (new & -> & Hlen & Hall).
    exists (id :: new). rewrite <- app_assoc.
    split; [reflexivity|]. split; [cbn; auto|].
    cbn [all_found]. split; [|exact Hall].
    exists dateStr. split; [exact Hd|].
    apply found_generate.
    eapply upcoming_loop_found_preserved; eassumption.
Qed.

Lemma upcoming_loop_all_found new i acc w :
  all_found tz today userId w i new ->
  upcoming_loop tz today userId (length new) i acc w = (Normal (acc ++ new), w).
Proof.
  revert i acc. induction new as [|id new IH]; intros i acc H.
  - cbn. unfold ret. rewrite app_nil_r. reflexivity.
  - cbn [all_found] in H. destruct H as ((dateStr & Hd & Hg) & Hall).
    cbn [length upcoming_loop]. unfold bind at 1, lift. rewrite Hd.
    unfold bind at 1. rewrite Hg.
    rewrite (IH (i + 1) (acc ++ [id]) Hall), <- app_assoc. reflexivity.
Qed.


End Loop.

(** [getUpcomingChallenges] is idempotent: a run that returns gives one
    id per day, and a second run in the world it leaves returns the same
    ids and changes nothing. (The join of the lookup needs the foreign
    key from templates to categories.) *)
Theorem getUpcomingChallenges_idempotent
  (tz : TimeZone) (now : Z) (userId : js_string) (days : Z)
  (w : World) (ids : list js_string) (w' : World) :
  templates_reference_categories (db w) ->
  getUpcomingChallenges tz now userId days w = (Normal ids, w') ->
  length ids = Z.to_nat days /\
  getUpcomingChallenges tz now userId days w' = (Normal ids, w').
Proof.
  intros Hfk H. unfold getUpcomingChallenges in *.
  destruct (upcoming_loop_establishes _ _ _ _ _ _ _ _ _ Hfk H)
    as (new & Hids & Hlen & Hall).
  cbn [app] in Hids. subst new. split; [exact Hlen|].
  rewrite <- Hlen.
  apply (upcoming_loop_all_found tz now userId ids 0 [] w' Hall).
Qed.


(** In a zone with a constant offset the first of the upcoming
    challenges is today's challenge: [getTodaysChallengeId] in the same
    world returns the head of the list. *)
Theorem getUpcomingChallenges_starts_today
  (offset now : Z) (userId : js_string) (days : Z)
  (w : World) (ids : list js_string) (w' : World) :
  0 < days ->
  getUpcomingChallenges (fixed_offset offset) now userId days w = (Normal ids, w') ->
  exists id w1,
    getTodaysChallengeId now userId w = (Normal id, w1) /\
    hd_error ids = Some id.
Proof.
  intros Hdays H. unfold getUpcomingChallenges in H.
  destruct (Z.to_nat days) as [|rounds] eqn:E; [lia|].
  apply upcoming_loop_step in H.
  destruct H as (dateStr & id & w1 & Hd & Hg & H).
  apply upcoming_loop_prefix in H. destruct H as (new & -> & _).
  exists id, w1. split; [|reflexivity].
  unfold getTodaysChallengeId, bind, lift.
  replace (TimeClip now) with (date_plus (fixed_offset offset) now 0).
  - rewrite Hd. exact Hg.
  - unfold date_plus, UTC, LocalTime, fixed_offset.
    cbn [LocalTZA_utc LocalTZA_local]. f_equal. lia.
Qed.

Lemma three_categories_foreign_key :
  templates_reference_categories (db Samples.three_categories).
Proof.
  intros ct Hct. cbn in Hct.
  destruct Hct as [<- | [<- | [<- | []]]];
    [exists (Samples.category "A" "Art")
    |exists (Samples.category "B" "Books")
    |exists (Samples.category "C" "Cooking")];
    (split; [cbn; auto | reflexivity]).
Qed.

Lemma getUpcomingChallenges_idempotent_witness :
  let run := getUpcomingChallenges utc MoreSamples.noon_2023_01_04 (str "user-1") 2 in
  fst (run Samples.three_categories)
  = Normal [str "challenge-0"; str "challenge-1"] /\
  length [str "challenge-0"; str "challenge-1"] = Z.to_nat 2 /\
  run (snd (run Samples.three_categories))
  = (Normal [str "challenge-0"; str "challenge-1"],
     snd (run Samples.three_categories)).
Proof.
  intro run. split; [vm_compute; reflexivity|].
  apply (getUpcomingChallenges_idempotent utc MoreSamples.noon_2023_01_04
           (str "user-1") 2 Samples.three_categories
           [str "challenge-0"; str "challenge-1"]
           (snd (run Samples.three_categories))).
  - exact three_categories_foreign_key.
  - vm_compute. reflexivity.
Defined.


Lemma getUpcomingChallenges_starts_today_witness :
  exists id w1,
    getTodaysChallengeId MoreSamples.noon_2023_01_04 (str "user-1")
      Samples.three_categories = (Normal id, w1) /\
    hd_error [str "challenge-0"; str "challenge-1"] = Some id.
Proof.
  apply (getUpcomingChallenges_starts_today (2 * msPerHour)
           MoreSamples.noon_2023_01_04 (str "user-1") 2 Samples.three_categories
           [str "challenge-0"; str "challenge-1"]
           (snd (getUpcomingChallenges (fixed_offset (2 * msPerHour))
                   MoreSamples.noon_2023_01_04 (str "user-1") 2
                   Samples.three_categories))).
  - lia.
  - vm_compute. reflexivity.
Defined.

End UpcomingFacts.

(** ** The route handlers *)

Section RouteFacts.

Import Db Generator Challenges Choice Upcoming Routes.
Local Open Scope store_scope.








End RouteFacts.

Section ToggleFacts.

Import Db Generator Challenges Routes.
Local Open Scope store_scope.

Lemma bind_step {A B} (c : M A) (k : A -> M B) w x w0 :
  c w = (Normal x, w0) -> bind c k w = k x w0.
Proof. intro H. unfold bind. rewrite H. reflexivity. Qed.

(** The end of the handlers reads and returns. *)
Lemma challenge_response_read_only (uc : UserChallenge) :
  read_only (challenge_response uc).
Proof.
  intro w. unfold challenge_response, bind at 1, getChallengeTemplateById.
  rewrite query_run. destruct (find _ _) as [t|]; [|eexists; reflexivity].
  unfold bind, getCategoryById. rewrite query_run.
  destruct (find _ _) as [c|]; eexists; reflexivity.
Qed.


(** Either handler, for the value [v] it writes: it changes nothing, or
    the caller owns the row under the id and the table is the old one
    with [completed] set to [v] on that id. *)
Lemma toggle_handler_cases (v : Z) (failed : string)
  (userId : js_string) (challengeId : option js_string) (w : World) :
  let h := toggle_handler
             (fun id => transaction
                (changes <- update_completed v id ;;
                 if changes =? 0 then ret None else getUserChallengeById id))
             failed userId challengeId w in
  snd h = w \/
  exists id uc,
    challengeId = Some id /\
    find (fun x => js_string_eqb (uc_id x) id) (user_challenges (db w)) = Some uc /\
    uc_user_id uc = userId /\
    db (snd h)
    = with_user_challenges (db w)
        (map (set_completed v id) (user_challenges (db w))).
Proof.
  cbv zeta. unfold toggle_handler, try_catch.
  destruct challengeId as [[|x id]|]; [left; reflexivity | | left; reflexivity].
  set (cid := x :: id).
  assert (Hget : getUserChallengeById cid w
                 = (Normal (find (fun uc => js_string_eqb (uc_id uc) cid)
                                 (user_challenges (db w))), w))
    by reflexivity.
  rewrite (bind_step _ _ _ _ _ Hget). clear Hget.
  destruct (find (fun uc => js_string_eqb (uc_id uc) cid)
                 (user_challenges (db w))) as [uc|] eqn:Hfind;
    [|left; reflexivity].
  destruct (js_string_eqb (uc_user_id uc) userId) eqn:Hown; cbn [negb];
    [|left; reflexivity].
  right. exists cid, uc. split; [reflexivity|]. split; [exact Hfind|].
  split; [apply js_string_eqb_eq; exact Hown|].
  rewrite (bind_step _ _ w _ _ (update_then_get v cid w)).
  rewrite Hfind. cbn [option_map].
  match goal with
  | |- context [challenge_response ?r ?w1] =>
      destruct (challenge_response_read_only r w1) as [resp ->]
  end.
  reflexivity.
Qed.

Lemma set_completed_keys v id rows :
  map (fun r => (uc_id r, uc_user_id r, uc_template_id r, uc_date r))
      (map (set_completed v id) rows)
  = map (fun r => (uc_id r, uc_user_id r, uc_template_id r, uc_date r)) rows.
Proof.
  rewrite map_map. apply map_ext. intro r. unfold set_completed.
  destruct (js_string_eqb (uc_id r) id); reflexivity.
Qed.

Lemma toggle_handler_others (v : Z) (failed : string)
  (userId : js_string) (challengeId : option js_string) (w : World) :
  unique_ids (db w) ->
  let w' := snd (toggle_handler
                   (fun id => transaction
                      (changes <- update_completed v id ;;
                       if changes =? 0 then ret None else getUserChallengeById id))
                   failed userId challengeId w) in
  (forall row, In row (user_challenges (db w)) -> uc_user_id row <> userId ->
               In row (user_challenges (db w'))) /\
  map (fun r => (uc_id r, uc_user_id r, uc_template_id r, uc_date r))
      (user_challenges (db w'))
  = map (fun r => (uc_id r, uc_user_id r, uc_template_id r, uc_date r))
        (user_challenges (db w)) /\
  users (db w') = users (db w) /\
  categories (db w') = categories (db w) /\
  challenge_templates (db w') = challenge_templates (db w).
Proof.
  intros Hids w'.
  destruct (toggle_handler_cases v failed userId challengeId w)
    as [Hsame | (id & uc & _ & Hfind & Hown & Hdb)]; fold w' in Hsame || fold w' in Hdb.
  - rewrite Hsame. auto.
  - rewrite Hdb. cbn [with_user_challenges user_challenges users categories
                        challenge_templates].
    split; [|split; [apply set_completed_keys | auto]].
    intros row Hin Hother. apply in_map_iff. exists row. split; [|exact Hin].
    unfold set_completed.
    destruct (js_string_eqb (uc_id row) id) eqn:E; [|reflexivity].
    apply js_string_eqb_eq in E.
    rewrite (unique_id_row _ _ _ row Hids Hfind Hin E) in Hother.
    contradiction.
Qed.

(** Neither POST nor DELETE /api/challenges/complete touches a row of
    another user, adds or removes a row, or changes an id, a user, a
    template or a date, whatever id the request names; ids are unique as
    the primary key makes them. *)
Theorem complete_routes_leave_other_users_alone
  (userId : js_string) (challengeId : option js_string) (w : World) :
  unique_ids (db w) ->
  forall w',
    w' = snd (POST_complete userId challengeId w)
    \/ w' = snd (DELETE_complete userId challengeId w) ->
    (forall row, In row (user_challenges (db w)) -> uc_user_id row <> userId ->
                 In row (user_challenges (db w'))) /\
    map (fun r => (uc_id r, uc_user_id r, uc_template_id r, uc_date r))
        (user_challenges (db w'))
    = map (fun r => (uc_id r, uc_user_id r, uc_template_id r, uc_date r))
          (user_challenges (db w)) /\
    users (db w') = users (db w) /\
    categories (db w') = categories (db w) /\
    challenge_templates (db w') = challenge_templates (db w).
Proof.
  intros Hids w' [-> | ->].
  - exact (toggle_handler_others 1 "Failed to complete challenge" userId
             challengeId w Hids).
  - exact (toggle_handler_others 0 "Failed to uncomplete challenge" userId
             challengeId w Hids).
Qed.

Lemma complete_routes_leave_other_users_alone_witness :
  In (Samples.assignment "c2" "tA" "2023-01-02")
     (user_challenges
        (db (snd (POST_complete (str "user-2") (Some (str "c2"))
                    Samples.three_categories)))).
Proof.
  destruct three_categories_keys as (Hids & _).
  apply (proj1 (complete_routes_leave_other_users_alone (str "user-2")
                  (Some (str "c2")) Samples.three_categories Hids _
                  (or_introl eq_refl))).
  - right. left. reflexivity.
  - vm_compute. discriminate.
Defined.

(** The three refusals of POST and DELETE /api/challenges/complete: 400
    without an id, 404 for an id that no row has, 403 for the row of
    another user; each leaves the world as it was. *)
Theorem complete_routes_refuse
  (userId : js_string) (challengeId : option js_string) (w : World) :
  let answers r :=
    POST_complete userId challengeId w = (r, w) /\
    DELETE_complete userId challengeId w = (r, w) in
  (challengeId = None \/ challengeId = Some [] ->
   answers (json_error "Challenge ID is required" 400)) /\
  (forall id, challengeId = Some id -> id <> [] ->
     getUserChallengeById id w = (Normal None, w) ->
     answers (json_error "Challenge not found" 404)) /\
  (forall id uc, challengeId = Some id -> id <> [] ->
     getUserChallengeById id w = (Normal (Some uc), w) ->
     uc_user_id uc <> userId ->
     answers (json_error "Unauthorized access to this challenge" 403)).
Proof.
  cbv zeta. unfold POST_complete, DELETE_complete, toggle_handler, try_catch.
  split; [|split].
  - intros [-> | ->]; split; reflexivity.
  - intros id -> Hne Hget. destruct id as [|x id]; [congruence|].
    rewrite !(bind_step _ _ _ _ _ Hget). split; reflexivity.
  - intros id uc -> Hne Hget Hother. destruct id as [|x id]; [congruence|].
    rewrite !(bind_step _ _ _ _ _ Hget).
    replace (js_string_eqb (uc_user_id uc) userId) with false.
    + split; reflexivity.
    + symmetry. destruct (js_string_eqb (uc_user_id uc) userId) eqn:E;
        [|reflexivity].
      apply js_string_eqb_eq in E. contradiction.
Qed.

Lemma complete_routes_refuse_witness :
  POST_complete (str "user-2") (Some (str "c2")) Samples.three_categories
  = (json_error "Unauthorized access to this challenge" 403,
     Samples.three_categories) /\
  DELETE_complete (str "user-2") (Some (str "c2")) Samples.three_categories
  = (json_error "Unauthorized access to this challenge" 403,
     Samples.three_categories).
Proof.
  apply (proj2 (proj2 (complete_routes_refuse (str "user-2") (Some (str "c2"))
                         Samples.three_categories))
           (str "c2") (Samples.assignment "c2" "tA" "2023-01-02")).
  - reflexivity.
  - discriminate.
  - vm_compute. reflexivity.
  - vm_compute. discriminate.
Defined.



End ToggleFacts.
